(** * Elliptics: the blob backend, the cache front-end and the recovery driver

    A shallow embedding of [example/blob/backend.c], [cache/cache.cpp] and
    the tail of [recovery/dnet_recovery].  Files are byte lists held in a
    descriptor table, C integers are [Z] with their conversions written
    out, the hash table of the backend is a finite map, and every handler
    is a function from the state before the call to the error code and the
    state after it. *)

From Stdlib Require Import ZArith Lia List String Ascii.
From coqutil Require Import Byte Word.LittleEndianList.
From stdpp Require Import base gmap list.
Local Open Scope Z_scope.

(** ** Bytes as map keys *)

#[global] Instance byte_eq_dec : EqDecision byte.
Proof.
  intros x y.
  destruct (Z.eq_dec (byte.unsigned x) (byte.unsigned y)) as [Heq|Hne].
  - left. rewrite <- (byte.of_Z_unsigned x), <- (byte.of_Z_unsigned y).
    by rewrite Heq.
  - right. by intros ->.
Defined.

#[global] Program Instance byte_countable : Countable byte :=
  inj_countable' byte.unsigned byte.of_Z _.
Next Obligation. intros x. apply byte.of_Z_unsigned. Qed.

(** ** C integers *)

(** [unsigned int] *)
Definition to_uint (x : Z) : Z := x mod 2 ^ 32.
(** [int] (two's complement) *)
Definition to_int (x : Z) : Z := (x + 2 ^ 31) mod 2 ^ 32 - 2 ^ 31.
(** [size_t], [uint64_t], [unsigned long long] *)
Definition to_size_t (x : Z) : Z := x mod 2 ^ 64.
(** [off_t], [ssize_t] *)
Definition to_off_t (x : Z) : Z := (x + 2 ^ 63) mod 2 ^ 64 - 2 ^ 63.

Definition OFF_MAX : Z := 2 ^ 63 - 1.

(** [!!x] *)
Definition c_bool (x : Z) : Z := if x =? 0 then 0 else 1.

(** errno.h *)
Definition ENOENT : Z := 2.
Definition EBADF : Z := 9.
Definition ENOMEM : Z := 12.
Definition EFAULT : Z := 14.
Definition EINVAL : Z := 22.
Definition ENOSPC : Z := 28.
Definition ENOTSUP : Z := 95.

(** ** The operating system: descriptors, files, errno *)

Record os_state := {
  os_errno : Z;
  os_files : gmap Z (list byte);
  (** most bytes a single [pread]/[pwrite] call transfers *)
  os_max_io : Z;
  (** largest size a file may grow to *)
  os_max_file : Z;
  (** largest block [malloc] hands out *)
  os_max_alloc : Z
}.

Definition set_errno (e : Z) (os : os_state) : os_state :=
  {| os_errno := e; os_files := os_files os; os_max_io := os_max_io os;
     os_max_file := os_max_file os; os_max_alloc := os_max_alloc os |}.

Definition set_file (fd : Z) (f : list byte) (os : os_state) : os_state :=
  {| os_errno := os_errno os; os_files := <[fd := f]> (os_files os);
     os_max_io := os_max_io os; os_max_file := os_max_file os;
     os_max_alloc := os_max_alloc os |}.

(** Storing [bs] at position [off] of a file; a gap past the end reads as
    zero bytes. *)
Definition write_at (f : list byte) (off : nat) (bs : list byte) : list byte :=
  resize off Byte.x00 f ++ bs ++ drop (off + length bs) f.

(** The bytes of a file in [off, off + n). *)
Definition read_at (f : list byte) (off n : nat) : list byte :=
  take n (drop off f).

(** [pwrite(fd, buf, count, offset)]: the count written, or [-1] with
    [errno] set.  A call moves at most [os_max_io] bytes, never past
    [os_max_file], and never past the end of the caller's buffer. *)
Definition pwrite (fd : Z) (buf : list byte) (count offset : Z) (os : os_state)
  : Z * os_state :=
  match os_files os !! fd with
  | None => (-1, set_errno EBADF os)
  | Some f =>
    if offset <? 0 then (-1, set_errno EINVAL os)
    else if count =? 0 then (0, os)
    else
      let room := Z.min (os_max_file os) OFF_MAX - offset in
      let n := Z.min (Z.min count (Z.of_nat (length buf)))
                     (Z.min (os_max_io os) room) in
      if n <=? 0 then
        (-1, set_errno (if Z.of_nat (length buf) =? 0 then EFAULT else ENOSPC) os)
      else
        (n, set_file fd (write_at f (Z.to_nat offset) (take (Z.to_nat n) buf)) os)
  end.

(** [pread(fd, buf, count, offset)]: the count read and the bytes; [0] at
    end of file, which leaves [errno] alone. *)
Definition pread (fd : Z) (count offset : Z) (os : os_state)
  : Z * list byte * os_state :=
  match os_files os !! fd with
  | None => (-1, [], set_errno EBADF os)
  | Some f =>
    if offset <? 0 then (-1, [], set_errno EINVAL os)
    else
      let bs := read_at f (Z.to_nat offset) (Z.to_nat count) in
      (Z.of_nat (length bs), bs, os)
  end.

(** [malloc(size) != NULL] *)
Definition malloc_ok (size : Z) (os : os_state) : bool :=
  size <=? os_max_alloc os.

(** ** What the sources are compiled against

    The three sources include headers that are not among them:
    [elliptics/packet.h] and [elliptics/interface.h] with the
    identifier width, the wire records and the transport calls,
    [../backends.h] with the history hooks, and [blob.h]. *)

(** Modelled from the spec: [struct dnet_io_attr] of [packet.h] is not
    among the sources.  Sections 3 and 6 give it as the identifier, the
    origin, and the offset, size and flags of the request; the sources
    read [id], [origin], [flags], [offset] and [size]. *)
Record dnet_io_attr := {
  io_id : list byte;
  io_origin : list byte;
  io_flags : Z;
  io_offset : Z;
  io_size : Z
}.

(** Modelled from the spec: the command codes of [packet.h] are not among
    the sources.  Section 4.3 names WRITE, READ, DEL and STAT, section 7
    adds LIST; any other code is [DNET_CMD_OTHER] and takes the [default]
    branch. *)
Inductive dnet_commands :=
| DNET_CMD_WRITE
| DNET_CMD_READ
| DNET_CMD_LIST
| DNET_CMD_STAT
| DNET_CMD_DEL
| DNET_CMD_OTHER (code : Z).

(** Modelled from the spec: [struct dnet_cmd] of [packet.h] is not among
    the sources; these are the fields [blob_read] reads and fills in. *)
Record dnet_cmd := {
  cmd_id : list byte;
  cmd_flags : Z;
  cmd_status : Z;
  cmd_trans : Z;
  cmd_size : Z
}.

(** Modelled from the spec: [struct dnet_attr] of [packet.h] is not among
    the sources; these are the fields the handlers read and fill in, with
    [cmd] the command of the table in section 4.3. *)
Record dnet_attr := {
  attr_size : Z;
  attr_flags : Z;
  attr_cmd : dnet_commands
}.

(** Modelled from the spec: [struct dnet_data_req] of [interface.h] is not
    among the sources.  It is the reply of the zero-copy path of section
    4.3: the descriptor, offset and size set by [dnet_req_set_fd] and the
    three headers [blob_read] fills in. *)
Record dnet_data_req := {
  rq_fd : Z;
  rq_offset : Z;
  rq_size : Z;
  (** the headers of the reply *)
  rq_c : dnet_cmd;
  rq_a : dnet_attr;
  rq_rio : dnet_io_attr
}.

(** The constants and calls of the missing headers that the sources use
    without fixing them: they are parameters of the development. *)
Class Externals := {
  DNET_ID_SIZE : nat;
  (** an array size is a [size_t] *)
  DNET_ID_SIZE_fits : Z.of_nat DNET_ID_SIZE < 2 ^ 32;
  sizeof_dnet_io_attr : Z;
  sizeof_dnet_history_entry : Z;
  sizeof_dnet_cmd : Z;
  sizeof_dnet_attr : Z;
  DNET_IO_FLAGS_HISTORY : Z;
  DNET_IO_FLAGS_APPEND : Z;
  DNET_IO_FLAGS_NO_HISTORY_UPDATE : Z;
  DNET_IO_FLAGS_META : Z;
  DNET_FLAGS_NEED_ACK : Z;
  DNET_FLAGS_MORE : Z;
  DNET_TRANS_REPLY : Z;
  dnet_meta : Type;
  (** [dnet_setup_history_entry(&e, id, size, offset, NULL, flags)]: the
      bytes of the entry it fills in *)
  dnet_setup_history_entry : list byte -> Z -> Z -> Z -> list byte;
  (** [backend_process_meta(state, io, hdata, &size, m, data)]: the new
      history blob and the updated [size], or [NULL] *)
  backend_process_meta :
    dnet_io_attr -> list byte -> Z -> option dnet_meta -> list byte ->
    option (list byte * Z);
  (** the metadata block [backend_write_history] finds in a request, and
      the payload left after it *)
  backend_split_meta : dnet_io_attr -> list byte -> option dnet_meta * list byte;
  (** [backend_stat(state, NULL, cmd, attr)] *)
  backend_stat : Z;
  (** [dnet_req_alloc(state, size) != NULL] *)
  dnet_req_alloc : Z -> bool;
  (** [dnet_data_ready(state, r)] *)
  dnet_data_ready : dnet_data_req -> Z
}.

(** ** blob.h *)

(** Modelled from the spec: [BLOB_DISK_CTL_REMOVE] of [blob.h] is not among
    the sources.  Section 6: bit 0 of [flags] is [REMOVED]. *)
Definition BLOB_DISK_CTL_REMOVE : Z := 1.

(** Modelled from the spec: [struct blob_disk_control] of [blob.h] is not
    among the sources.  Section 6: the identifier, then [flags] and
    [size], 8 bytes each. *)
Record blob_disk_control := {
  dc_id : list byte;
  dc_flags : Z;
  dc_size : Z
}.

(** Modelled from the spec: [struct blob_ram_control] of [blob.h] is not
    among the sources.  Section 3: the file offset and the total on-disk
    size; the sources also fill in [key], the composite key.  [offset]
    is kept as a [size_t] and [size] as an [off_t]. *)
Record blob_ram_control := {
  rc_key : list byte;
  rc_offset : Z;
  rc_size : Z
}.

#[global] Instance blob_ram_control_eq_dec : EqDecision blob_ram_control.
Proof. solve_decision. Defined.

(** Modelled from the spec: [sizeof (struct blob_disk_control)].  Section
    6: [IdLen + 16] bytes. *)
Definition sizeof_blob_disk_control `{Externals} : Z := Z.of_nat DNET_ID_SIZE + 16.

(** [memcpy(dst, src, DNET_ID_SIZE)] into a fresh identifier array *)
Definition memcpy_id `{Externals} (src : list byte) : list byte :=
  resize DNET_ID_SIZE Byte.x00 src.

(** Modelled from the spec: [blob_convert_disk_control] of [blob.h] is not
    among the sources.  Section 6: in the file the header is the
    identifier followed by [flags] and [size] in little-endian order. *)
Definition blob_disk_control_bytes `{Externals} (dc : blob_disk_control) : list byte :=
  memcpy_id (dc_id dc) ++ le_split 8 (dc_flags dc) ++ le_split 8 (dc_size dc).

(** Modelled from the spec: [blob_convert_disk_control] on the way back,
    the header at the front of a buffer read in the layout of section 6. *)
Definition blob_disk_control_of_bytes `{Externals} (bs : list byte) : blob_disk_control :=
  {| dc_id := take DNET_ID_SIZE bs;
     dc_flags := le_combine (take 8 (drop DNET_ID_SIZE bs));
     dc_size := le_combine (take 8 (drop (DNET_ID_SIZE + 8) bs)) |}.

(** ** The hash table *)

(** Modelled from the spec: [dnet_hash_replace] is not among the sources.
    Section 4.2: the index is a map from the composite key to the index
    value, and this is its [insert_or_replace]. *)
Definition dnet_hash_replace (h : gmap (list byte) blob_ram_control)
    (key : list byte) (ctl : blob_ram_control)
  : Z * gmap (list byte) blob_ram_control :=
  (0, <[key := ctl]> h).

(** Modelled from the spec: [dnet_hash_lookup] is not among the sources.
    Section 4.2: the [lookup] of the index; sections 3 and 7: a key that
    is not there is the not-found error. *)
Definition dnet_hash_lookup (h : gmap (list byte) blob_ram_control)
    (key : list byte) : Z * blob_ram_control :=
  match h !! key with
  | Some ctl => (0, ctl)
  | None => (- ENOENT, {| rc_key := []; rc_offset := 0; rc_size := 0 |})
  end.

(** ** backend.c

    One command runs at a time: [blob_write_raw] holds the backend's
    mutex from the first byte it writes to the update of the tail.  The
    host is little-endian, as the files are, so the [dnet_convert_*]
    calls leave the request as it came; a request reaches the handlers
    as its decoded [dnet_io_attr] and the bytes that follow it. *)

Definition DNET_BLOB_DEFAULT_HASH_SIZE : Z := 1024 * 1024 * 10.

Record blob_backend := {
  hash_size : Z;
  hash_flags : Z;
  sync : Z;
  datafd : Z;
  historyfd : Z;
  data_bsize : Z;
  history_bsize : Z;
  data_offset : Z;
  history_offset : Z;
  hash : gmap (list byte) blob_ram_control
}.

Definition set_hash (h : gmap (list byte) blob_ram_control) (b : blob_backend)
  : blob_backend :=
  {| hash_size := hash_size b; hash_flags := hash_flags b; sync := sync b;
     datafd := datafd b; historyfd := historyfd b;
     data_bsize := data_bsize b; history_bsize := history_bsize b;
     data_offset := data_offset b; history_offset := history_offset b;
     hash := h |}.

Definition set_data_offset (o : Z) (b : blob_backend) : blob_backend :=
  {| hash_size := hash_size b; hash_flags := hash_flags b; sync := sync b;
     datafd := datafd b; historyfd := historyfd b;
     data_bsize := data_bsize b; history_bsize := history_bsize b;
     data_offset := o; history_offset := history_offset b;
     hash := hash b |}.

Definition set_history_offset (o : Z) (b : blob_backend) : blob_backend :=
  {| hash_size := hash_size b; hash_flags := hash_flags b; sync := sync b;
     datafd := datafd b; historyfd := historyfd b;
     data_bsize := data_bsize b; history_bsize := history_bsize b;
     data_offset := data_offset b; history_offset := o;
     hash := hash b |}.

Definition set_hash_size (n : Z) (b : blob_backend) : blob_backend :=
  {| hash_size := n; hash_flags := hash_flags b; sync := sync b;
     datafd := datafd b; historyfd := historyfd b;
     data_bsize := data_bsize b; history_bsize := history_bsize b;
     data_offset := data_offset b; history_offset := history_offset b;
     hash := hash b |}.

(** The [while (size)] loop of [blob_write_low_level]; every round writes
    at least one byte, so [size] rounds are enough. *)
Fixpoint blob_write_low_level_loop (fuel : nat) (fd : Z) (data : list byte)
    (size offset : Z) (os : os_state) : option (Z * os_state) :=
  if size =? 0 then Some (0, os)
  else
    match fuel with
    | O => None
    | S fuel' =>
      let '(err, os1) := pwrite fd data size (to_off_t offset) os in
      if err <=? 0 then
        let err := - os_errno os1 in
        Some (if err =? 0 then - EINVAL else err, os1)
      else
        blob_write_low_level_loop fuel' fd (drop (Z.to_nat err) data)
          (to_size_t (size - err)) (to_size_t (offset + err)) os1
    end.

Definition blob_write_low_level (fd : Z) (data : list byte) (size offset : Z)
    (os : os_state) : Z * os_state :=
  let size := to_size_t size in
  let offset := to_size_t offset in
  match blob_write_low_level_loop (Z.to_nat size) fd data size offset os with
  | Some r => r
  | None => (- EINVAL, os)
  end.

Definition sizeof_blob_empty_buf : Z := 40960.

Definition blob_empty_buf : list byte :=
  replicate (Z.to_nat sizeof_blob_empty_buf) Byte.x00.

(** The [while (size && size < bsize)] loop of [blob_write_raw]; [size]
    as an unsigned number shrinks in every round. *)
Fixpoint blob_write_raw_pad (fuel : nat) (fd bsize size offset : Z)
    (os : os_state) : option (Z * Z * os_state) :=
  if negb (size =? 0) && (size <? bsize) then
    match fuel with
    | O => None
    | S fuel' =>
      let sz := to_uint size in
      let sz := if sz >? sizeof_blob_empty_buf then sizeof_blob_empty_buf else sz in
      let '(err, os1) := blob_write_low_level fd blob_empty_buf sz offset os in
      if negb (err =? 0) then Some (err, offset, os1)
      else
        blob_write_raw_pad fuel' fd bsize (to_int (size - sz))
          (to_off_t (offset + sz)) os1
    end
  else Some (0, offset, os).

(** The composite key: the identifier and the kind byte. *)
Definition blob_key `{Externals} (id : list byte) (kind : Z) : list byte :=
  memcpy_id id ++ [byte.of_Z kind].

Definition blob_write_raw `{Externals} (b : blob_backend) (hist : Z)
    (io : dnet_io_attr) (data : list byte) (os : os_state)
  : Z * blob_backend * os_state :=
  let disk_ctl :=
    {| dc_id := memcpy_id (io_origin io); dc_flags := 0;
       dc_size := to_size_t (io_size io) |} in
  let key := blob_key (io_origin io) (c_bool hist) in
  let fd := if hist =? 0 then datafd b else historyfd b in
  let ctl_offset :=
    to_size_t (if hist =? 0 then data_offset b else history_offset b) in
  let bsize := to_int (if hist =? 0 then data_bsize b else history_bsize b) in
  let offset := to_off_t ctl_offset in
  let '(err, os1) :=
    blob_write_low_level fd (blob_disk_control_bytes disk_ctl)
      sizeof_blob_disk_control offset os in
  if negb (err =? 0) then (err, b, os1)
  else
    let offset := to_off_t (offset + sizeof_blob_disk_control) in
    let '(err, os2) := blob_write_low_level fd data (io_size io) offset os1 in
    if negb (err =? 0) then (err, b, os2)
    else
      let offset := to_off_t (offset + to_size_t (io_size io)) in
      let padded :=
        if bsize =? 0 then Some (0, offset, os2)
        else
          let size :=
            to_int (bsize - to_size_t (offset - ctl_offset) mod to_size_t bsize) in
          blob_write_raw_pad (Z.to_nat (to_uint size)) fd bsize size offset os2 in
      match padded with
      | None => (- EINVAL, b, os2)
      | Some (err, offset, os3) =>
        if negb (err =? 0) then (err, b, os3)
        else
          let ctl :=
            {| rc_key := key; rc_offset := ctl_offset;
               rc_size := to_off_t (offset - ctl_offset) |} in
          let '(err, h) := dnet_hash_replace (hash b) key ctl in
          if negb (err =? 0) then (err, b, os3)
          else
            let b := set_hash h b in
            let b :=
              if hist =? 0
              then set_data_offset (to_off_t (data_offset b + rc_size ctl)) b
              else set_history_offset (to_off_t (history_offset b + rc_size ctl)) b in
            (0, b, os3)
      end.

(** Lines 199-229 of [blob_write_history_meta]: the block found in the
    index is read, its header is marked in the file, and the header is
    stripped from the buffer.  [inl] is the jump to [err_out_free]. *)
Definition blob_write_history_meta_old `{Externals} (b : blob_backend)
    (ctl : blob_ram_control) (size : Z) (os : os_state)
  : (Z * os_state) + (list byte * Z * os_state) :=
  let '(n, hdata, os1) := pread (historyfd b) size (to_off_t (rc_offset ctl)) os in
  let err := to_int n in
  if negb (err =? to_int size) then inl (- os_errno os1, os1)
  else
    let dc := blob_disk_control_of_bytes hdata in
    let dc :=
      {| dc_id := dc_id dc;
         dc_flags := Z.lor (dc_flags dc) BLOB_DISK_CTL_REMOVE;
         dc_size := dc_size dc |} in
    let size := dc_size dc in
    let hdata :=
      blob_disk_control_bytes dc
        ++ drop (Z.to_nat sizeof_blob_disk_control) hdata in
    let '(n, os2) :=
      pwrite (historyfd b) hdata sizeof_blob_disk_control
        (to_off_t (rc_offset ctl)) os1 in
    let err := to_int n in
    if negb (err =? to_int sizeof_blob_disk_control) then inl (- os_errno os2, os2)
    else
      let moved :=
        take (Z.to_nat size) (drop (Z.to_nat sizeof_blob_disk_control) hdata) in
      inr (moved ++ drop (length moved) hdata, size, os2).

Definition blob_write_history_meta `{Externals} (b : blob_backend)
    (io : dnet_io_attr) (m : option dnet_meta) (data : list byte)
    (os : os_state) : Z * blob_backend * os_state :=
  let key := blob_key (io_origin io) 1 in
  let '(err, ctl) := dnet_hash_lookup (hash b) key in
  let size := if err =? 0 then to_size_t (rc_size ctl) else 0 in
  if negb (malloc_ok size os) then (- ENOMEM, b, os)
  else
    let old :=
      if err =? 0 then blob_write_history_meta_old b ctl size os
      else inr ([], size, os) in
    match old with
    | inl (err, os1) => (err, b, os1)
    | inr (hdata, size, os1) =>
      match backend_process_meta io hdata size m data with
      | None => (- ENOMEM, b, os1)
      | Some (new_hdata, size) =>
        let io :=
          {| io_id := io_id io; io_origin := io_origin io;
             io_flags := io_flags io; io_offset := io_offset io;
             io_size := size |} in
        let '(err, b1, os2) := blob_write_raw b 1 io new_hdata os1 in
        if negb (err =? 0) then (- os_errno os2, b1, os2)
        else (0, b1, os2)
      end
    end.

(** Modelled from the spec: [backend_write_history] of [../backends.h] is
    not among the sources.  Section 4.3 describes a history write as the
    steps of the callback it is given, so the request goes to the callback
    once, with the metadata block found in it. *)
Definition backend_write_history `{Externals} (b : blob_backend)
    (io : dnet_io_attr) (data : list byte)
    (write_meta : blob_backend -> dnet_io_attr -> option dnet_meta ->
                  list byte -> os_state -> Z * blob_backend * os_state)
    (os : os_state) : Z * blob_backend * os_state :=
  let '(m, data) := backend_split_meta io data in
  write_meta b io m data os.

Definition blob_write_history `{Externals} (b : blob_backend)
    (io : dnet_io_attr) (data : list byte) (os : os_state)
  : Z * blob_backend * os_state :=
  backend_write_history b io data blob_write_history_meta os.

(** [data] is the payload that follows the [dnet_io_attr] in the request. *)
Definition blob_write `{Externals} (r : blob_backend) (io : dnet_io_attr)
    (data : list byte) (os : os_state) : Z * blob_backend * os_state :=
  if negb (Z.land (io_flags io) DNET_IO_FLAGS_HISTORY =? 0) then
    let '(err, r1, os1) := blob_write_history r io data os in
    if negb (err =? 0) then (err, r1, os1) else (0, r1, os1)
  else
    let '(err, r1, os1) := blob_write_raw r 0 io data os in
    if negb (err =? 0) then (err, r1, os1)
    else if Z.land (io_flags io) DNET_IO_FLAGS_NO_HISTORY_UPDATE =? 0 then
      let e :=
        dnet_setup_history_entry (io_id io) (io_size io) (io_offset io)
          (io_flags io) in
      let flags :=
        Z.lor (io_flags io) (Z.lor DNET_IO_FLAGS_APPEND DNET_IO_FLAGS_HISTORY) in
      let flags := to_uint (Z.land flags (Z.lnot DNET_IO_FLAGS_META)) in
      let io :=
        {| io_id := io_id io; io_origin := io_origin io; io_flags := flags;
           io_offset := 0; io_size := sizeof_dnet_history_entry |} in
      let '(err, r2, os2) := blob_write_history r1 io e os1 in
      if negb (err =? 0) then (err, r2, os2) else (0, r2, os2)
    else (0, r1, os1).

(** What [blob_read] leaves behind: the error code, the reply queued on
    the zero-copy path, and [io], [attr] and the caller's buffer as the
    copying path updates them. *)
Record blob_read_result := {
  rd_err : Z;
  rd_req : option dnet_data_req;
  rd_io : dnet_io_attr;
  rd_attr : dnet_attr;
  rd_data : list byte;
  rd_os : os_state
}.

Definition blob_read `{Externals} (b : blob_backend) (cmd : dnet_cmd)
    (attr : dnet_attr) (io : dnet_io_attr) (data : list byte) (os : os_state)
  : blob_read_result :=
  let size := to_size_t (io_size io) in
  let hist := Z.land (io_flags io) DNET_IO_FLAGS_HISTORY in
  let key := blob_key (io_origin io) (c_bool hist) in
  let fd := if negb (hist =? 0) then historyfd b else datafd b in
  let '(err, ctl) := dnet_hash_lookup (hash b) key in
  if negb (err =? 0) then
    {| rd_err := err; rd_req := None; rd_io := io; rd_attr := attr;
       rd_data := data; rd_os := os |}
  else
    let size :=
      if size =? 0 then to_size_t (rc_size ctl - sizeof_blob_disk_control)
      else size in
    let offset :=
      to_off_t (rc_offset ctl + sizeof_blob_disk_control + io_offset io) in
    if attr_size attr =? sizeof_dnet_io_attr then
      if negb (dnet_req_alloc (sizeof_dnet_cmd + sizeof_dnet_attr + sizeof_dnet_io_attr))
      then
        {| rd_err := - ENOMEM; rd_req := None; rd_io := io; rd_attr := attr;
           rd_data := data; rd_os := os |}
      else
        let r :=
          {| rq_fd := fd; rq_offset := offset; rq_size := size;
             rq_c :=
               {| cmd_id := memcpy_id (io_origin io);
                  cmd_flags :=
                    if negb (Z.land (cmd_flags cmd) DNET_FLAGS_NEED_ACK =? 0)
                    then DNET_FLAGS_MORE else 0;
                  cmd_status := 0;
                  cmd_trans := Z.lor (cmd_trans cmd) DNET_TRANS_REPLY;
                  cmd_size :=
                    to_size_t (sizeof_dnet_attr + sizeof_dnet_io_attr + size) |};
             rq_a :=
               {| attr_size := to_size_t (sizeof_dnet_io_attr + size);
                  attr_flags := attr_flags attr;
                  attr_cmd := DNET_CMD_READ |};
             rq_rio :=
               {| io_id := []; io_origin := memcpy_id (io_origin io);
                  io_flags := io_flags io; io_offset := io_offset io;
                  io_size := size |} |} in
        {| rd_err := dnet_data_ready r; rd_req := Some r; rd_io := io;
           rd_attr := attr; rd_data := data; rd_os := os |}
    else
      let size :=
        if size >? to_size_t (attr_size attr - sizeof_dnet_io_attr)
        then to_size_t (attr_size attr - sizeof_dnet_io_attr) else size in
      let '(n, bs, os1) := pread fd size offset os in
      let err := to_int n in
      if err <=? 0 then
        {| rd_err := - os_errno os1; rd_req := None; rd_io := io;
           rd_attr := attr; rd_data := data; rd_os := os1 |}
      else
        {| rd_err := 0; rd_req := None;
           rd_io :=
             {| io_id := io_id io; io_origin := io_origin io;
                io_flags := io_flags io; io_offset := io_offset io;
                io_size := err |};
           rd_attr :=
             {| attr_size := to_size_t (sizeof_dnet_io_attr + err);
                attr_flags := attr_flags attr; attr_cmd := attr_cmd attr |};
           rd_data := bs ++ drop (length bs) data; rd_os := os1 |}.

Definition blob_del (r : blob_backend) (cmd : dnet_cmd) (attr : dnet_attr)
    (data : list byte) : Z :=
  -1.

(** The handler sees the request as the decoded [dnet_io_attr] and the
    bytes after it.  The reply a READ queues is in [blob_read]'s result;
    the handler passes on the error code and the state. *)
Definition blob_backend_command_handler `{Externals} (r : blob_backend)
    (cmd : dnet_cmd) (attr : dnet_attr) (io : dnet_io_attr) (data : list byte)
    (os : os_state) : Z * blob_backend * os_state :=
  match attr_cmd attr with
  | DNET_CMD_WRITE => blob_write r io data os
  | DNET_CMD_READ =>
    let res := blob_read r cmd attr io data os in
    (rd_err res, r, rd_os res)
  | DNET_CMD_LIST => (- ENOTSUP, r, os)
  | DNET_CMD_STAT => (backend_stat, r, os)
  | DNET_CMD_DEL => (blob_del r cmd attr data, r, os)
  | DNET_CMD_OTHER _ => (- EINVAL, r, os)
  end.

Definition dnet_blob_iter `{Externals} (dc : blob_disk_control)
    (data : list byte) (position : Z) (b : blob_backend) (hist : Z)
  : Z * blob_backend :=
  if negb (Z.land (dc_flags dc) BLOB_DISK_CTL_REMOVE =? 0) then (0, b)
  else
    let key := memcpy_id (dc_id dc) ++ [byte.of_Z hist] in
    let ctl :=
      {| rc_key := key; rc_offset := to_size_t position;
         rc_size := to_off_t (dc_size dc + sizeof_blob_disk_control) |} in
    let '(err, h) := dnet_hash_replace (hash b) key ctl in
    if negb (err =? 0) then (err, b) else (0, set_hash h b).

Definition dnet_blob_iter_history `{Externals} (dc : blob_disk_control)
    (data : list byte) (position : Z) (priv : blob_backend) : Z * blob_backend :=
  dnet_blob_iter dc data position priv 1.

Definition dnet_blob_iter_data `{Externals} (dc : blob_disk_control)
    (data : list byte) (position : Z) (priv : blob_backend) : Z * blob_backend :=
  dnet_blob_iter dc data position priv 0.

(** The bytes that round a record of [len] bytes up to the block size. *)
Definition blob_padding (bsize len : Z) : Z :=
  if bsize =? 0 then 0
  else if len mod bsize =? 0 then 0 else bsize - len mod bsize.

(** Modelled from the spec: [blob_iterate] is declared in [blob.h] and is
    not among the sources.  Section 4.2: read a header; stop when its
    size exceeds what is left of the file; hand the record to the
    callback (which skips tombstones and indexes the rest); advance past
    header, payload and alignment; repeat to the end of the file.  A round
    consumes a header at least, so one round per byte of the file is
    enough. *)
Fixpoint blob_iterate_loop `{Externals} (fuel : nat) (f : list byte) (bsize : Z)
    (callback : blob_disk_control -> list byte -> Z -> blob_backend ->
                Z * blob_backend)
    (position : Z) (priv : blob_backend) : Z * blob_backend :=
  match fuel with
  | O => (0, priv)
  | S fuel' =>
    let remaining := Z.of_nat (length f) - position in
    if remaining <? sizeof_blob_disk_control then (0, priv)
    else
      let dc :=
        blob_disk_control_of_bytes
          (read_at f (Z.to_nat position) (Z.to_nat sizeof_blob_disk_control)) in
      if remaining - sizeof_blob_disk_control <? dc_size dc then (0, priv)
      else
        let data :=
          read_at f (Z.to_nat (position + sizeof_blob_disk_control))
            (Z.to_nat (dc_size dc)) in
        let '(err, priv1) := callback dc data position priv in
        if negb (err =? 0) then (err, priv1)
        else
          let len := sizeof_blob_disk_control + dc_size dc in
          blob_iterate_loop fuel' f bsize callback
            (position + len + blob_padding bsize len) priv1
  end.

(** Modelled from the spec: [blob_iterate] scans the file behind [fd] from
    offset 0 (section 4.2); an unusable descriptor is an I/O error that
    propagates to the caller (section 4.1). *)
Definition blob_iterate `{Externals} (fd : Z) (bsize : Z)
    (callback : blob_disk_control -> list byte -> Z -> blob_backend ->
                Z * blob_backend)
    (priv : blob_backend) (os : os_state) : Z * blob_backend :=
  match os_files os !! fd with
  | None => (- EBADF, priv)
  | Some f => blob_iterate_loop (S (length f)) f bsize callback 0 priv
  end.

(** Modelled from the spec: [dnet_hash_init] is not among the sources.
    Section 3: the index is created empty at startup and filled by the
    scan. *)
Definition dnet_hash_init (num flags : Z) : gmap (list byte) blob_ram_control := ∅.

Definition dnet_blob_config_init `{Externals} (r : blob_backend) (os : os_state)
  : Z * blob_backend :=
  if (datafd r =? 0) || (historyfd r =? 0) then (- EINVAL, r)
  else
    let r :=
      if hash_size r =? 0 then set_hash_size DNET_BLOB_DEFAULT_HASH_SIZE r
      else r in
    let r := set_hash (dnet_hash_init (hash_size r) (hash_flags r)) r in
    let '(err, r1) := blob_iterate (datafd r) (data_bsize r) dnet_blob_iter_data r os in
    if negb (err =? 0) then (err, r1)
    else
      let '(err, r2) :=
        blob_iterate (historyfd r1) (history_bsize r1) dnet_blob_iter_history r1 os in
      if negb (err =? 0) then (err, r2) else (0, r2).

(** ** cache.cpp *)

Module cache.

(** [raw_data_t]: the cached bytes; [size()] is their number. *)
Definition data_t := list byte.

(** [key_t(id)] copies [DNET_ID_SIZE] bytes of the identifier. *)
Definition key_t `{Externals} (id : list byte) : list byte := memcpy_id id.

Definition write `{Externals} (m_hmap : gmap (list byte) (list byte))
    (id : list byte) (data : list byte) (size : Z)
  : gmap (list byte) (list byte) :=
  <[key_t id := take (Z.to_nat size) data]> m_hmap.

(** [None] is the [std::runtime_error("no record")]. *)
Definition read `{Externals} (m_hmap : gmap (list byte) (list byte))
    (id : list byte) : option (list byte) :=
  m_hmap !! key_t id.

Definition remove `{Externals} (m_hmap : gmap (list byte) (list byte))
    (id : list byte) : gmap (list byte) (list byte) :=
  delete (key_t id) m_hmap.

End cache.

(** The node: [n->cache] is [None] while no cache was created. *)
Record dnet_node := {
  n_cache : option (gmap (list byte) (list byte))
}.

(** [st], [cmd->cmd] and [cmd->id.id] of cache.cpp's [struct dnet_cmd],
    and the request decoded into [io] and the bytes after it.
    [dnet_send_read_data] is the transport's; it gets the [io] it is
    called with and the bytes from [d->data() + io->offset] on. *)
Definition dnet_cmd_cache_io `{Externals}
    (dnet_send_read_data : dnet_io_attr -> list byte -> Z)
    (n : dnet_node) (cmd : dnet_commands) (cmd_id : list byte)
    (io : dnet_io_attr) (data : list byte) : Z * dnet_node :=
  let err := - ENOTSUP in
  match n_cache n with
  | None => (- ENOTSUP, n)
  | Some c =>
    match cmd with
    | DNET_CMD_WRITE =>
      (0, {| n_cache := Some (cache.write c (io_id io) data (to_size_t (io_size io))) |})
    | DNET_CMD_READ =>
      match cache.read c (io_id io) with
      | None => (- ENOENT, n)
      | Some d =>
        if to_size_t (io_offset io + io_size io) >? Z.of_nat (length d) then
          (- EINVAL, n)
        else
          let io :=
            {| io_id := io_id io; io_origin := io_origin io;
               io_flags := io_flags io; io_offset := io_offset io;
               io_size := Z.of_nat (length d) |} in
          (dnet_send_read_data io (drop (Z.to_nat (to_size_t (io_offset io))) d), n)
      end
    | DNET_CMD_DEL =>
      (err, {| n_cache := Some (cache.remove c cmd_id) |})
    | _ => (err, n)
    end
  end.

(** ** recovery/dnet_recovery *)

Module recovery.

Local Open Scope string_scope.

(** The Python objects a recovery routine may hand back. *)
Inductive py_value :=
| PyNone
| PyBool (b : bool)
| PyInt (n : Z)
| PyStr (s : string)
| PyList (l : list Z).

(** Truth value testing, as [not] applies it. *)
Definition py_truth (v : py_value) : bool :=
  match v with
  | PyNone => false
  | PyBool b => b
  | PyInt n => negb (n =? 0)%Z
  | PyStr s => negb (String.eqb s "")
  | PyList l => match l with [] => false | _ :: _ => true end
  end.

(** A step either yields a value or raises. *)
Inductive py_outcome (A : Type) :=
| Returned (a : A)
| Raised (exn : string).

Arguments Returned {A} a.
Arguments Raised {A} exn.

(** How the interpreter ends: [exit(rc)], or an exception nobody caught. *)
Inductive py_exit :=
| SystemExit (rc : Z)
| Uncaught (exn : string).

(** The status the process leaves: the argument of [exit], or 1 after the
    traceback of an uncaught exception. *)
Definition exit_code (e : py_exit) : Z :=
  match e with
  | SystemExit rc => rc
  | Uncaught _ => 1
  end.

Definition TYPE_MERGE : string := "merge".
Definition TYPE_DC : string := "dc".
Definition ALLOWED_TYPES : list string := [TYPE_MERGE; TYPE_DC].

Definition STAT_NONE : string := "none".
Definition STAT_TEXT : string := "text".
Definition ALLOWED_STATS : list string := [STAT_NONE; STAT_TEXT].

(** [str.lower] on ASCII letters *)
Definition lower_ascii (c : ascii) : ascii :=
  let n := nat_of_ascii c in
  if ((65 <=? n) && (n <=? 90))%nat then ascii_of_nat (n + 32) else c.

Fixpoint lower (s : string) : string :=
  match s with
  | EmptyString => EmptyString
  | String c s' => String (lower_ascii c) (lower s')
  end.

(** [x in xs] for strings *)
Definition str_in (x : string) (xs : list string) : bool :=
  existsb (String.eqb x) xs.

(** Lines 118-125: the positional argument. *)
Definition recovery_type_of (args : list string) : py_outcome string :=
  if (1 <? length args)%nat then Raised "ValueError"
  else
    match args with
    | [] => Raised "ValueError"
    | a :: _ =>
      if negb (str_in (lower a) ALLOWED_TYPES) then Raised "ValueError"
      else Returned (lower a)
    end.

(** [int(not result)] *)
Definition rc_of (result : py_value) : Z :=
  if negb (py_truth result) then 1%Z else 0%Z.

(** The routine the type selects; [None] is the [RuntimeError] of the
    final [else]. *)
Definition selected {Ctx : Type} (merge_main dc_main : Ctx -> py_outcome py_value)
    (recovery_type : string) : option (Ctx -> py_outcome py_value) :=
  if String.eqb recovery_type TYPE_MERGE then Some merge_main
  else if String.eqb recovery_type TYPE_DC then Some dc_main
  else None.

(** Lines 278-298.  [merge_main] and [dc_main] are the [main] of
    [elliptics_recovery.types.merge] and [.dc]; shutting the monitor down
    and printing the statistics do not touch [result]. *)
Definition dispatch {Ctx : Type} (merge_main dc_main : Ctx -> py_outcome py_value)
    (recovery_type : string) (ctx : Ctx) : py_exit :=
  match selected merge_main dc_main recovery_type with
  | None => Uncaught "RuntimeError"
  | Some main =>
    match main ctx with
    | Raised e => Uncaught e
    | Returned result =>
      let rc := rc_of result in
      SystemExit rc
    end
  end.

(** The script from the parsed command line on: the type is checked,
    [setup] stands for lines 127-276 (the context is filled in, the routes
    are fetched), and the selected routine runs. *)
Definition dnet_recovery {Ctx : Type} (setup : string -> py_outcome Ctx)
    (merge_main dc_main : Ctx -> py_outcome py_value) (args : list string)
  : py_exit :=
  match recovery_type_of args with
  | Raised e => Uncaught e
  | Returned recovery_type =>
    match setup recovery_type with
    | Raised e => Uncaught e
    | Returned ctx => dispatch merge_main dc_main recovery_type ctx
    end
  end.

End recovery.

(** ** What an append leaves behind *)

(** The tail, descriptor and block size [blob_write_raw] picks for a log. *)
Definition log_tail (b : blob_backend) (hist : Z) : Z :=
  if hist =? 0 then data_offset b else history_offset b.

Definition log_fd (b : blob_backend) (hist : Z) : Z :=
  if hist =? 0 then datafd b else historyfd b.

Definition log_bsize (b : blob_backend) (hist : Z) : Z :=
  if hist =? 0 then data_bsize b else history_bsize b.

Definition set_log_tail (hist : Z) (o : Z) (b : blob_backend) : blob_backend :=
  if hist =? 0 then set_data_offset o b else set_history_offset o b.

(** The bytes of a record: header, payload, [pad] zero bytes. *)
Definition blob_record `{Externals} (io : dnet_io_attr) (data : list byte)
    (pad : nat) : list byte :=
  blob_disk_control_bytes
    {| dc_id := memcpy_id (io_origin io); dc_flags := 0;
       dc_size := to_size_t (io_size io) |}
    ++ take (Z.to_nat (to_size_t (io_size io))) data
    ++ replicate pad Byte.x00.

(** The limit a file can grow to. *)
Definition file_limit (os : os_state) : Z := Z.min (os_max_file os) OFF_MAX.

(** The header with the tombstone bit set, as line 216 leaves it. *)
Definition blob_mark_removed (dc : blob_disk_control) : blob_disk_control :=
  {| dc_id := dc_id dc;
     dc_flags := Z.lor (dc_flags dc) BLOB_DISK_CTL_REMOVE;
     dc_size := dc_size dc |}.

(** The history block the index holds for [origin], if there is one, lies
    inside the history file and below the tail, the file is within the
    limit, and the system moves a header in one call. *)
Definition history_block_ok `{Externals} (b : blob_backend) (os : os_state)
    (origin : list byte) : Prop :=
  match hash b !! blob_key origin 1 with
  | None => True
  | Some ctl =>
    match os_files os !! historyfd b with
    | None => False
    | Some f =>
      0 <= rc_offset ctl /\
      sizeof_blob_disk_control <= rc_size ctl /\
      rc_offset ctl + rc_size ctl <= Z.of_nat (length f) /\
      rc_offset ctl + rc_size ctl <= history_offset b /\
      Z.of_nat (length f) <= file_limit os /\
      sizeof_blob_disk_control <= os_max_io os
    end
  end.

(** The request [blob_write] hands to the history log after a data
    write (lines 286-289). *)
Definition history_io `{Externals} (io : dnet_io_attr) : dnet_io_attr :=
  {| io_id := io_id io; io_origin := io_origin io;
     io_flags :=
       to_uint
         (Z.land
            (Z.lor (io_flags io)
               (Z.lor DNET_IO_FLAGS_APPEND DNET_IO_FLAGS_HISTORY))
            (Z.lnot DNET_IO_FLAGS_META));
     io_offset := 0; io_size := sizeof_dnet_history_entry |}.

(** [io] with another size, as line 240 leaves it. *)
Definition with_size (io : dnet_io_attr) (size : Z) : dnet_io_attr :=
  {| io_id := io_id io; io_origin := io_origin io; io_flags := io_flags io;
     io_offset := io_offset io; io_size := size |}.


(** ** A concrete build

    [IdLen = 64] as in section 3 of the specification.  The record sizes
    and the flag bits are picked for the examples; the general statements
    do not depend on them.  The history hook appends the new entry to the
    old blob, and a request carries no metadata block. *)

Definition sample_externals : Externals := {|
  DNET_ID_SIZE := 64;
  DNET_ID_SIZE_fits := eq_refl;
  sizeof_dnet_io_attr := 148;
  sizeof_dnet_history_entry := 96;
  sizeof_dnet_cmd := 96;
  sizeof_dnet_attr := 16;
  DNET_IO_FLAGS_APPEND := 1;
  DNET_IO_FLAGS_NO_HISTORY_UPDATE := 2;
  DNET_IO_FLAGS_HISTORY := 4;
  DNET_IO_FLAGS_META := 8;
  DNET_FLAGS_NEED_ACK := 1;
  DNET_FLAGS_MORE := 2;
  DNET_TRANS_REPLY := 2 ^ 63;
  dnet_meta := unit;
  dnet_setup_history_entry := fun id size offset flags =>
    resize 64 Byte.x00 id ++ le_split 8 offset ++ le_split 8 size
      ++ le_split 8 0 ++ le_split 8 flags;
  backend_process_meta := fun io hdata size m data =>
    let new := take (Z.to_nat (io_size io)) data in
    Some (take (Z.to_nat size) hdata ++ new, size + Z.of_nat (length new));
  backend_split_meta := fun io data => (None, data);
  backend_stat := 0;
  dnet_req_alloc := fun _ => true;
  dnet_data_ready := fun _ => 0
|}.

(** An empty data file behind descriptor 3 and an empty history file
    behind descriptor 4, on a system that moves [chunk] bytes per call. *)
Definition sample_os (chunk : Z) : os_state :=
  {| os_errno := 0; os_files := <[3 := []]> (<[4 := []]> ∅);
     os_max_io := chunk; os_max_file := 2 ^ 40; os_max_alloc := 2 ^ 30 |}.

Definition sample_backend (data_bs history_bs : Z) : blob_backend :=
  {| hash_size := 0; hash_flags := 0; sync := 0; datafd := 3; historyfd := 4;
     data_bsize := data_bs; history_bsize := history_bs;
     data_offset := 0; history_offset := 0; hash := ∅ |}.

Definition sample_id (x : byte) : list byte := replicate 64 x.

Definition sample_io (x : byte) (flags offset size : Z) : dnet_io_attr :=
  {| io_id := sample_id x; io_origin := sample_id x; io_flags := flags;
     io_offset := offset; io_size := size |}.

Definition hello : list byte :=
  [Byte.x68; Byte.x65; Byte.x6c; Byte.x6c; Byte.x6f].

Definition sample_payload : list byte := replicate 10 Byte.x07.

(** One append of a 10-byte payload to a data log with 64-byte blocks. *)
Definition sample_append : Z * blob_backend * os_state :=
  @blob_write_raw sample_externals (sample_backend 64 0) 0
    (sample_io Byte.x01 0 0 10) sample_payload (sample_os 4096).

Definition sample_payload' : list byte := replicate 10 Byte.x09.

Definition sample_key (x : byte) (kind : Z) : list byte :=
  @blob_key sample_externals (sample_id x) kind.

(** Two records, of two identifiers, in a data log without alignment;
    [NO_HISTORY_UPDATE] keeps the history log out of it. *)
Definition sample_two_ids : Z * blob_backend * os_state :=
  let '(_, b1, os1) :=
    @blob_write sample_externals (sample_backend 0 0)
      (sample_io Byte.x01 2 0 5) hello (sample_os 4096) in
  @blob_write sample_externals b1 (sample_io Byte.x02 2 0 5) hello os1.

(** A READ of 100 bytes at offset 0 of the 5-byte record of identifier 1;
    [attr_size] tells how much room the caller left after the
    [dnet_io_attr]. *)
Definition sample_read (room : Z) : blob_read_result :=
  @blob_read sample_externals (snd (fst sample_two_ids))
    {| cmd_id := sample_id Byte.x01; cmd_flags := 0; cmd_status := 0;
       cmd_trans := 7; cmd_size := 0 |}
    {| attr_size := 148 + room; attr_flags := 0; attr_cmd := DNET_CMD_READ |}
    (sample_io Byte.x01 0 0 100) (replicate (Z.to_nat room) Byte.x00)
    (snd sample_two_ids).

(** A cache that holds the 5 bytes under identifier 1. *)
Definition sample_cache : gmap (list byte) (list byte) :=
  <[sample_id Byte.x01 := hello]> ∅.

(** The same READ against that cache. *)
Definition sample_cache_read : Z * dnet_node :=
  @dnet_cmd_cache_io sample_externals (fun _ _ => 0)
    {| n_cache := Some sample_cache |}
    DNET_CMD_READ (sample_id Byte.x01) (sample_io Byte.x01 0 0 100) [].

(** Two writes of one identifier, each followed by its history update, on
    a data log with block size [data_bs]. *)
Definition sample_two_writes (data_bs : Z) : Z * blob_backend * os_state :=
  let '(_, b1, os1) :=
    @blob_write sample_externals (sample_backend data_bs 0)
      (sample_io Byte.x01 0 0 10) sample_payload (sample_os 4096) in
  @blob_write sample_externals b1 (sample_io Byte.x01 0 0 10) sample_payload' os1.

(** The index rebuilt from the files those two writes leave. *)
Definition sample_rebuilt (data_bs : Z) : Z * blob_backend :=
  @dnet_blob_config_init sample_externals (snd (fst (sample_two_writes data_bs)))
    (snd (sample_two_writes data_bs)).

(** The first of those writes on 64-byte blocks, the state it leaves, and
    the second write and the bare history update run from that state. *)
Definition sample_io10 : dnet_io_attr := sample_io Byte.x01 0 0 10.

Definition sample_first_write : Z * blob_backend * os_state :=
  @blob_write sample_externals (sample_backend 64 0) sample_io10 sample_payload
    (sample_os 4096).

Definition sample_b1 : blob_backend := snd (fst sample_first_write).

Definition sample_os1 : os_state := snd sample_first_write.


Definition sample_hio : dnet_io_attr := @history_io sample_externals sample_io10.

Definition sample_entry : list byte :=
  @dnet_setup_history_entry sample_externals (sample_id Byte.x01) 10 0 0.


Definition sample_history_file : list byte :=
  default [] (os_files sample_os1 !! 4).

Definition sample_history_ctl : blob_ram_control :=
  {| rc_key := sample_key Byte.x01 1; rc_offset := 0; rc_size := 176 |}.

(** The same two writes on a system that moves 16 bytes per call, less
    than a header. *)
Definition sample_slow_first : Z * blob_backend * os_state :=
  @blob_write sample_externals (sample_backend 64 0) sample_io10 sample_payload
    (sample_os 16).

Definition sample_slow_second : Z * blob_backend * os_state :=
  @blob_write sample_externals (snd (fst sample_slow_first)) sample_io10
    sample_payload' (snd sample_slow_first).

(** ** What a command leaves of the files *)

(** [f'] has every byte of [f] below [off] in its place, and is not
    shorter than [f]. *)
Definition file_extends (off : nat) (f f' : list byte) : Prop :=
  (length f <= length f')%nat /\
  forall i, (i < off)%nat -> (i < length f)%nat -> f' !! i = f !! i.

(** The file behind [fd], if there is one, was written at [off] or
    beyond, if at all. *)
Definition fd_extends (fd : Z) (off : nat) (os os' : os_state) : Prop :=
  match os_files os !! fd with
  | None => os_files os' !! fd = None
  | Some f => exists f', os_files os' !! fd = Some f' /\ file_extends off f f'
  end.

(** Between [os] and [os'] only the file behind [fd] was written, at
    [off] or beyond, and the limits of the system stayed. *)
Definition os_extends (fd : Z) (off : nat) (os os' : os_state) : Prop :=
  os_max_io os' = os_max_io os /\ os_max_file os' = os_max_file os /\
  os_max_alloc os' = os_max_alloc os /\
  (forall fd', fd' <> fd -> os_files os' !! fd' = os_files os !! fd') /\
  fd_extends fd off os os'.

(** ** More of the concrete build *)

(** A system whose files cannot grow past 100 bytes. *)
Definition sample_os_full : os_state :=
  {| os_errno := 0; os_files := <[3 := []]> (<[4 := []]> ∅);
     os_max_io := 4096; os_max_file := 100; os_max_alloc := 2 ^ 30 |}.

(** The append of the example on that system: header and payload fit,
    the padding does not. *)
Definition sample_append_full : Z * blob_backend * os_state :=
  @blob_write_raw sample_externals (sample_backend 64 0) 0
    (sample_io Byte.x01 0 0 10) sample_payload sample_os_full.

(** Five bytes sent to descriptor 3 at offset 7, two bytes per call. *)
Definition sample_low_level : Z * os_state :=
  blob_write_low_level 3 hello 5 7 (sample_os 2).

(** The same five bytes sent to a descriptor that is not open. *)
Definition sample_low_level_bad : Z * os_state :=
  blob_write_low_level 9 hello 5 7 (sample_os 2).

(** ** The index and the files *)

(** The tail of a log is a file offset inside the file of the log. *)
Definition log_in_bounds (b : blob_backend) (os : os_state) (hist : Z) : Prop :=
  0 <= log_tail b hist < 2 ^ 63 /\
  exists f, os_files os !! log_fd b hist = Some f /\
            log_tail b hist <= Z.of_nat (length f).

(** Both tails are inside their files, and every entry of the index is
    filed under the key it carries and describes a block, a header at
    least, that ends at or below the tail of its log. *)
Definition index_in_bounds `{Externals} (b : blob_backend) (os : os_state) : Prop :=
  log_in_bounds b os 0 /\ log_in_bounds b os 1 /\
  forall key ctl, hash b !! key = Some ctl ->
    exists origin hist,
      key = blob_key origin (c_bool hist) /\ rc_key ctl = key /\
      0 <= rc_offset ctl /\ sizeof_blob_disk_control <= rc_size ctl /\
      rc_offset ctl + rc_size ctl <= log_tail b (c_bool hist).

(** The attributes of a WRITE and of a READ with room for 200 bytes, and
    the command header of the examples. *)
Definition sample_write_attr : dnet_attr :=
  {| attr_size := 158; attr_flags := 0; attr_cmd := DNET_CMD_WRITE |}.

Definition sample_cmd : dnet_cmd :=
  {| cmd_id := sample_id Byte.x01; cmd_flags := 0; cmd_status := 0;
     cmd_trans := 7; cmd_size := 0 |}.

Definition sample_read_attr : dnet_attr :=
  {| attr_size := 348; attr_flags := 0; attr_cmd := DNET_CMD_READ |}.

(** The state the first write of the example leaves, on a system whose
    files cannot grow past 200 bytes, and the history update of the
    second write run there: the new history record does not fit. *)
Definition sample_os1_full : os_state :=
  {| os_errno := os_errno sample_os1; os_files := os_files sample_os1;
     os_max_io := 4096; os_max_file := 200; os_max_alloc := 2 ^ 30 |}.

Definition sample_failed_update : Z * blob_backend * os_state :=
  @blob_write_history_meta sample_externals sample_b1 sample_hio None
    sample_entry sample_os1_full.

(** The first history update of the example, on the empty store. *)
Definition sample_first_update : Z * blob_backend * os_state :=
  @blob_write_history_meta sample_externals (sample_backend 64 0) sample_hio None
    sample_entry (sample_os 4096).

(** A second append, of another identifier, after the append of the
    example. *)
Definition sample_append_next : Z * blob_backend * os_state :=
  @blob_write_raw sample_externals (snd (fst sample_append)) 0
    (sample_io Byte.x02 0 0 5) hello (snd sample_append).

(** ** cache.cpp: the hash of a key *)

Module cache_hash.

(** [hash ^= ptr[i]] for [num] words of a little-endian host with 64-bit
    [size_t]. *)
Fixpoint hash_words (num : nat) (id : list byte) (hash : Z) : Z :=
  match num with
  | O => hash
  | S num' => hash_words num' (drop 8 id) (Z.lxor hash (le_combine (take 8 id)))
  end.

Definition hash `{Externals} (id : list byte) : Z :=
  hash_words (DNET_ID_SIZE / 8) id 0x883eaf5a.

End cache_hash.

(** Two identifiers made of the same eight words, the first two
    exchanged. *)
Definition sample_words : list (list byte) :=
  replicate 8 Byte.x01 :: replicate 8 Byte.x02 :: replicate 6 (replicate 8 Byte.x00).

Definition sample_words' : list (list byte) :=
  replicate 8 Byte.x02 :: replicate 8 Byte.x01 :: replicate 6 (replicate 8 Byte.x00).

(** ** recovery/dnet_recovery: stale files *)

Module recovery_files.

Import recovery.
Local Open Scope string_scope.

Definition TMP_FILE_PREFIXES : list string := ["iterator_"; "diff_"; "merge_"].

(** What a name of the current directory stands for. *)
Inductive inode := File | Dir.

(** The current directory: the script has changed into [ctx.tmp_dir], and
    [cleanup] hands bare names to [os.path.isfile] and [os.unlink]. *)
Definition directory := string -> option inode.

(** [os.path.isfile(name)] *)
Definition isfile (d : directory) (name : string) : bool :=
  match d name with
  | Some File => true
  | _ => false
  end.

(** [os.unlink(name)]: an [OSError] unless [name] is a file. *)
Definition unlink (d : directory) (name : string) : py_outcome directory :=
  match d name with
  | Some File => Returned (fun n => if String.eqb n name then None else d n)
  | _ => Raised "OSError"
  end.

(** Lines 69-72: the loop over the prefixes, for one name. *)
Fixpoint cleanup_prefixes (file_name : string) (prefixes : list string)
    (d : directory) : py_outcome directory :=
  match prefixes with
  | [] => Returned d
  | prefix :: rest =>
    if String.prefix prefix file_name then
      match unlink d file_name with
      | Raised e => Raised e
      | Returned d' => cleanup_prefixes file_name rest d'
      end
    else cleanup_prefixes file_name rest d
  end.

(** Lines 66-72: the loop over the names [os.listdir] gave. *)
Fixpoint cleanup_names (names : list string) (d : directory)
  : py_outcome directory :=
  match names with
  | [] => Returned d
  | file_name :: rest =>
    if negb (isfile d file_name) then cleanup_names rest d
    else
      match cleanup_prefixes file_name TMP_FILE_PREFIXES d with
      | Raised e => Raised e
      | Returned d' => cleanup_names rest d'
      end
  end.

(** [cleanup(path)], given what [os.listdir(path)] does. *)
Definition cleanup (listdir : string -> py_outcome (list string)) (path : string)
    (d : directory) : py_outcome directory :=
  match listdir path with
  | Raised e => Raised e
  | Returned names => cleanup_names names d
  end.

(** A name that starts with one of the prefixes. *)
Definition stale (file_name : string) : bool :=
  existsb (fun prefix => String.prefix prefix file_name) TMP_FILE_PREFIXES.

End recovery_files.

(** A temporary directory with two stale files, a directory that has a
    stale name, and a log file; the listing also holds a name that is
    gone by the time it is looked at. *)
Definition sample_listing : list string :=
  ["iterator_1"; "diff_x"; "merge_dir"; "keep.log"; "merge_gone"]%string.

Definition sample_directory : recovery_files.directory :=
  fun n =>
    if String.eqb n "iterator_1" then Some recovery_files.File
    else if String.eqb n "diff_x" then Some recovery_files.File
    else if String.eqb n "merge_dir" then Some recovery_files.Dir
    else if String.eqb n "keep.log" then Some recovery_files.File
    else None.

(** The first write of the example on a system whose files cannot grow
    past 150 bytes: the data record fits, the history record does not. *)
Definition sample_os_small : os_state :=
  {| os_errno := 0; os_files := <[3 := []]> (<[4 := []]> ∅);
     os_max_io := 4096; os_max_file := 150; os_max_alloc := 2 ^ 30 |}.

Definition sample_write_small : Z * blob_backend * os_state :=
  @blob_write sample_externals (sample_backend 64 0) sample_io10 sample_payload
    sample_os_small.

(** ** A log as a run of records *)








(** A READ that leaves no room after the [dnet_io_attr]: the zero-copy
    path. *)
Definition sample_zero_copy_attr : dnet_attr :=
  {| attr_size := 148; attr_flags := 0; attr_cmd := DNET_CMD_READ |}.

(** No file is longer than the system lets files grow. *)
Definition files_within_limit (os : os_state) : Prop :=
  forall fd f, os_files os !! fd = Some f -> Z.of_nat (length f) <= file_limit os.

(** * Proofs *)

(** ** C integers *)

Ltac int_simpl :=
  unfold to_off_t, to_size_t, to_int, to_uint, OFF_MAX in *;
  change (2 ^ 64) with 18446744073709551616 in *;
  change (2 ^ 63) with 9223372036854775808 in *;
  change (2 ^ 32) with 4294967296 in *;
  change (2 ^ 31) with 2147483648 in *.

Ltac int_lia := int_simpl; Z.div_mod_to_equations; lia.

Lemma to_off_t_id x : - 2 ^ 63 <= x < 2 ^ 63 -> to_off_t x = x.
Proof. int_lia. Qed.

Lemma to_size_t_id x : 0 <= x < 2 ^ 64 -> to_size_t x = x.
Proof. int_lia. Qed.

Lemma to_size_t_range x : 0 <= to_size_t x < 2 ^ 64.
Proof. int_lia. Qed.

Lemma to_off_t_range x : - 2 ^ 63 <= to_off_t x < 2 ^ 63.
Proof. int_lia. Qed.

Lemma to_off_t_size_t x : to_off_t (to_size_t x) = to_off_t x.
Proof. int_lia. Qed.

Lemma to_size_t_idem x : to_size_t (to_size_t x) = to_size_t x.
Proof. int_lia. Qed.

Lemma to_int_id x : - 2 ^ 31 <= x < 2 ^ 31 -> to_int x = x.
Proof. int_lia. Qed.

Lemma to_uint_id x : 0 <= x < 2 ^ 32 -> to_uint x = x.
Proof. int_lia. Qed.

(** Closed goals are settled by evaluation, away from the hypotheses. *)
Ltac by_evaluation :=
  clear; vm_compute;
  repeat split; try reflexivity;
  try (let Hc := fresh in intros Hc; discriminate Hc).

(** A result whose error code is 0, spelled out. *)
Lemma result_eta {A B : Type} (r : Z * A * B) :
  fst (fst r) = 0 -> r = (0, snd (fst r), snd r).
Proof. destruct r as [[err a] b]. simpl. by intros ->. Defined.

(** ** Files *)

Lemma length_write_at f off bs :
  length (write_at f off bs) = Nat.max (length f) (off + length bs).
Proof.
  unfold write_at. rewrite !length_app, length_resize, length_drop. lia.
Qed.

Lemma write_at_app f off a b :
  write_at (write_at f off a) (off + length a) b = write_at f off (a ++ b).
Proof.
  unfold write_at.
  rewrite (app_assoc (resize off Byte.x00 f) a).
  rewrite resize_app by (rewrite length_app, length_resize; lia).
  rewrite drop_app_ge by (rewrite length_app, length_resize; lia).
  rewrite length_app, length_resize, drop_drop, <- !app_assoc.
  rewrite length_app.
  do 4 f_equal. lia.
Qed.

Lemma write_at_nil f off : (off <= length f)%nat -> write_at f off [] = f.
Proof.
  intros Hle. unfold write_at. simpl.
  rewrite resize_le by lia. rewrite Nat.add_0_r. apply take_drop.
Qed.

Lemma read_at_write_at f off bs :
  read_at (write_at f off bs) off (length bs) = bs.
Proof.
  unfold read_at, write_at.
  rewrite drop_app_length' by (rewrite length_resize; lia).
  apply take_app_length.
Qed.

Lemma read_at_write_at_prefix f off a b :
  read_at (write_at f off (a ++ b)) off (length a) = a.
Proof.
  unfold read_at, write_at.
  rewrite drop_app_length' by (rewrite length_resize; lia).
  rewrite <- app_assoc. apply take_app_length.
Qed.

Lemma read_at_write_at_below f off bs o n :
  (o + n <= off)%nat -> (o + n <= length f)%nat ->
  read_at (write_at f off bs) o n = read_at f o n.
Proof.
  intros Hoff Hlen. unfold read_at, write_at.
  rewrite resize_spec, <- app_assoc.
  rewrite drop_app_le by (rewrite length_take; lia).
  rewrite take_app_le by (rewrite length_drop, length_take; lia).
  rewrite <- (take_drop off f) at 2.
  rewrite drop_app_le by (rewrite length_take; lia).
  rewrite take_app_le by (rewrite length_drop, length_take; lia).
  reflexivity.
Qed.

Lemma read_at_read_at f off n o m :
  (o + m <= n)%nat ->
  read_at (read_at f off n) o m = read_at f (off + o) m.
Proof.
  intros Hle. unfold read_at.
  rewrite skipn_firstn_comm, take_take, drop_drop.
  f_equal. lia.
Qed.

Lemma length_read_at f off n :
  (off + n <= length f)%nat -> length (read_at f off n) = n.
Proof.
  intros Hle. unfold read_at. rewrite length_take, length_drop. lia.
Qed.

(** ** The operating system *)

Lemma set_file_set_file fd f g os :
  set_file fd f (set_file fd g os) = set_file fd f os.
Proof. unfold set_file. simpl. by rewrite insert_insert_eq. Qed.

Lemma os_files_set_file fd f os :
  os_files (set_file fd f os) !! fd = Some f.
Proof. unfold set_file. simpl. apply lookup_insert_eq. Qed.

Lemma os_files_set_file_ne fd fd' f os :
  fd <> fd' -> os_files (set_file fd f os) !! fd' = os_files os !! fd'.
Proof. intros Hne. unfold set_file. simpl. by apply lookup_insert_ne. Qed.

(** A [pwrite] that reports progress stored a prefix of the buffer. *)
Lemma pwrite_pos fd buf count offset os n os' :
  pwrite fd buf count offset os = (n, os') -> 0 < n ->
  exists f,
    os_files os !! fd = Some f /\ 0 <= offset /\
    n <= count /\ n <= Z.of_nat (length buf) /\ n <= os_max_io os /\
    offset + n <= file_limit os /\
    os' = set_file fd (write_at f (Z.to_nat offset) (take (Z.to_nat n) buf)) os.
Proof.
  unfold pwrite, file_limit. intros Hw Hn.
  destruct (os_files os !! fd) as [f|]; [|inversion Hw; lia].
  destruct (offset <? 0) eqn:Hoff; [inversion Hw; lia|].
  destruct (count =? 0) eqn:Hc; [inversion Hw; lia|].
  match type of Hw with context [if ?c then _ else _] => destruct c eqn:Hle end;
    [inversion Hw; lia|].
  inversion Hw; subst; clear Hw.
  exists f. repeat split; try lia. 
Qed.

(** ** [blob_write_low_level] *)

(** A low-level write that reports success has stored the whole buffer
    prefix, however the system chopped it into calls. *)
Lemma blob_write_low_level_loop_ok fuel : forall fd data size offset os os',
  0 <= size < 2 ^ 64 -> 0 <= offset < 2 ^ 64 ->
  blob_write_low_level_loop fuel fd data size offset os = Some (0, os') ->
  size <= Z.of_nat (length data) /\
  (size = 0 -> os' = os) /\
  (0 < size ->
   exists f,
     os_files os !! fd = Some f /\ offset + size <= file_limit os /\
     os' = set_file fd
             (write_at f (Z.to_nat offset) (take (Z.to_nat size) data)) os).
Proof.
  induction fuel as [|fuel IH]; intros fd data size offset os os' Hsize Hoff Hrun;
    simpl in Hrun; destruct (size =? 0) eqn:Hz.
  - apply Z.eqb_eq in Hz. inversion Hrun; subst. repeat split; try lia.
  - discriminate.
  - apply Z.eqb_eq in Hz. inversion Hrun; subst. repeat split; try lia.
  - apply Z.eqb_neq in Hz.
    destruct (pwrite fd data size (to_off_t offset) os) as [err os1] eqn:Hw.
    destruct (err <=? 0) eqn:Herr.
    { exfalso. inversion Hrun as [[Hv Hos]].
      destruct (- os_errno os1 =? 0) eqn:He; [unfold EINVAL in Hv; lia|].
      apply Z.eqb_neq in He. lia. }
    apply Z.leb_gt in Herr.
    destruct (pwrite_pos _ _ _ _ _ _ _ Hw Herr)
      as (f & Hf & Ho & Hcount & Hbuf & _ & Hlim & ->).
    assert (Hoo : to_off_t offset = offset) by int_lia.
    rewrite Hoo in *.
    assert (Hlim' : file_limit os <= 2 ^ 63 - 1) by (unfold file_limit, OFF_MAX; lia).
    apply IH in Hrun; [|int_lia|int_lia].
    rewrite (to_size_t_id (size - err)) in Hrun by int_lia.
    rewrite (to_size_t_id (offset + err)) in Hrun by int_lia.
    destruct Hrun as (Hlen & Hzero & Hpos).
    rewrite length_drop in Hlen.
    split; [lia|]. split; [lia|]. intros _.
    exists f. split; [done|]. 
    destruct (Z.eq_dec (size - err) 0) as [Hdone|Hmore].
    + rewrite (Hzero Hdone). split; [lia|]. do 3 f_equal. lia.
    + destruct Hpos as (f1 & Hf1 & Hlim1 & ->); [lia|].
      rewrite os_files_set_file in Hf1. inversion Hf1; subst f1; clear Hf1.
      unfold file_limit in *; simpl in *.
      split; [lia|].
      rewrite set_file_set_file. f_equal.
      replace (Z.to_nat (offset + err))
        with (Z.to_nat offset + length (take (Z.to_nat err) data))%nat
        by (rewrite length_take; lia).
      rewrite write_at_app, take_take_drop.
      do 2 f_equal. lia.
Qed.

Lemma blob_write_low_level_ok fd data size offset os os' :
  blob_write_low_level fd data size offset os = (0, os') ->
  to_size_t size <= Z.of_nat (length data) /\
  (to_size_t size = 0 -> os' = os) /\
  (0 < to_size_t size ->
   exists f,
     os_files os !! fd = Some f /\
     to_size_t offset + to_size_t size <= file_limit os /\
     os' = set_file fd
             (write_at f (Z.to_nat (to_size_t offset))
                (take (Z.to_nat (to_size_t size)) data)) os).
Proof.
  unfold blob_write_low_level. intros Hrun.
  destruct (blob_write_low_level_loop _ _ _ _ _ _) as [[err os1]|] eqn:Hloop;
    [|unfold EINVAL in Hrun; inversion Hrun].
  inversion Hrun; subst.
  eapply blob_write_low_level_loop_ok; eauto using to_size_t_range.
Qed.

(** The loop never runs out of rounds: it is given one per byte. *)
Lemma blob_write_low_level_loop_total fuel : forall fd data size offset os,
  0 <= size -> (Z.to_nat size <= fuel)%nat ->
  blob_write_low_level_loop fuel fd data size offset os <> None.
Proof.
  induction fuel as [|fuel IH]; intros fd data size offset os Hsize Hfuel; simpl;
    destruct (size =? 0) eqn:Hz; try done.
  - apply Z.eqb_neq in Hz. lia.
  - apply Z.eqb_neq in Hz.
    destruct (pwrite fd data size (to_off_t offset) os) as [err os1] eqn:Hw.
    destruct (err <=? 0) eqn:Herr; [done|].
    apply Z.leb_gt in Herr.
    destruct (pwrite_pos _ _ _ _ _ _ _ Hw Herr) as (f & _ & _ & Hcount & _).
    destruct (Z_lt_le_dec size (2 ^ 64)).
    + apply IH; rewrite to_size_t_id by lia; lia.
    + apply IH; [int_lia|].
      assert (to_size_t (size - err) < size) by int_lia.
      assert (0 <= to_size_t (size - err)) by int_lia. lia.
Qed.

(** The same, for a write that continues a region [pre] stored at [tail]. *)
Lemma blob_write_low_level_append fd data size offset os0 f tail pre os' :
  offset = Z.of_nat tail + Z.of_nat (length pre) -> offset <= file_limit os0 ->
  blob_write_low_level fd data size offset
    (set_file fd (write_at f tail pre) os0) = (0, os') ->
  to_size_t size <= Z.of_nat (length data) /\
  offset + to_size_t size <= file_limit os0 /\
  os' = set_file fd
          (write_at f tail (pre ++ take (Z.to_nat (to_size_t size)) data)) os0.
Proof.
  intros Hoff Hlim Hrun.
  assert (Hlim' : file_limit os0 <= 2 ^ 63 - 1) by (unfold file_limit, OFF_MAX; lia).
  apply blob_write_low_level_ok in Hrun. destruct Hrun as (Hlen & Hzero & Hpos).
  rewrite (to_size_t_id offset) in Hpos by int_lia.
  split; [done|].
  destruct (Z.eq_dec (to_size_t size) 0) as [Hz|Hnz].
  - rewrite (Hzero Hz), Hz. simpl. rewrite app_nil_r. split; [lia|done].
  - pose proof (to_size_t_range size).
    destruct Hpos as (f1 & Hf1 & Hl & ->); [lia|].
    rewrite os_files_set_file in Hf1. inversion Hf1; subst f1.
    split; [exact Hl|].
    rewrite set_file_set_file. f_equal.
    rewrite <- write_at_app. f_equal. lia.
Qed.

(** ** [blob_write_raw] *)

Lemma take_blob_empty_buf n :
  (n <= Z.to_nat sizeof_blob_empty_buf)%nat ->
  take n blob_empty_buf = replicate n Byte.x00.
Proof.
  intros Hle. unfold blob_empty_buf.
  rewrite take_replicate. f_equal. lia.
Qed.

(** The padding loop, once it reports success, has added zero bytes and
    nothing else; when [size] starts inside [0, bsize) it adds exactly
    [size] of them. *)
Lemma blob_write_raw_pad_ok fuel :
  forall fd bsize size offset os0 f tail pre offset' os',
  offset = Z.of_nat tail + Z.of_nat (length pre) -> offset <= file_limit os0 ->
  - 2 ^ 31 <= size < 2 ^ 31 ->
  blob_write_raw_pad fuel fd bsize size offset
    (set_file fd (write_at f tail pre) os0) = Some (0, offset', os') ->
  exists pad : nat,
    offset' = offset + Z.of_nat pad /\ offset' <= file_limit os0 /\
    os' = set_file fd (write_at f tail (pre ++ replicate pad Byte.x00)) os0 /\
    (0 <= size < bsize -> Z.of_nat pad = size) /\
    (size = 0 \/ bsize <= size -> pad = 0%nat).
Proof.
  induction fuel as [|fuel IH];
    intros fd bsize size offset os0 f tail pre offset' os' Hoff Hlim Hsize Hrun;
    simpl in Hrun;
    destruct (negb (size =? 0) && (size <? bsize)) eqn:Hcond;
    try discriminate.
  1,3: inversion Hrun; subst; exists 0%nat; simpl; rewrite app_nil_r;
    apply andb_false_iff in Hcond;
    rewrite negb_false_iff, Z.eqb_eq, Z.ltb_ge in Hcond;
    repeat split; try lia; done.
  apply andb_true_iff in Hcond. rewrite negb_true_iff, Z.eqb_neq, Z.ltb_lt in Hcond.
  destruct Hcond as [Hnz Hlt].
  set (sz := if to_uint size >? sizeof_blob_empty_buf
             then sizeof_blob_empty_buf else to_uint size) in *.
  assert (Hsz : 0 < sz <= sizeof_blob_empty_buf /\ sz <= to_uint size).
  { unfold sz, sizeof_blob_empty_buf. rewrite Z.gtb_ltb.
    destruct (Z.ltb_spec 40960 (to_uint size)); int_lia. }
  destruct (blob_write_low_level fd blob_empty_buf sz offset _) as [err os1] eqn:Hw.
  destruct (negb (err =? 0)) eqn:Herr.
  { apply negb_true_iff, Z.eqb_neq in Herr. inversion Hrun; lia. }
  apply negb_false_iff, Z.eqb_eq in Herr. subst err.
  assert (Hlim' : file_limit os0 <= 2 ^ 63 - 1) by (unfold file_limit, OFF_MAX; lia).
  apply (blob_write_low_level_append _ _ _ _ _ _ _ _ _ Hoff Hlim) in Hw.
  unfold sizeof_blob_empty_buf in Hsz.
  rewrite (to_size_t_id sz) in Hw by int_lia.
  destruct Hw as (_ & Hl & ->).
  rewrite take_blob_empty_buf in Hrun by (unfold sizeof_blob_empty_buf; lia).
  rewrite (to_off_t_id (offset + sz)) in Hrun by int_lia.
  apply IH in Hrun; [|rewrite length_app, length_replicate; lia|lia|int_lia].
  destruct Hrun as (pad & -> & Hl' & -> & Hin & Hout).
  exists (Z.to_nat sz + pad)%nat.
  split; [lia|]. split; [lia|].
  split; [by rewrite <- app_assoc, replicate_add|].
  split; [|lia].
  intros Hrange.
  assert (Hu : to_uint size = size) by int_lia.
  assert (Hs : to_int (size - sz) = size - sz) by int_lia.
  rewrite Hs in Hin, Hout.
  destruct (Z.eq_dec (size - sz) 0) as [Hd|Hd].
  - rewrite Hout by lia. lia.
  - lia.
Qed.

Section blob.
Context `{E : Externals}.

Lemma sizeof_blob_disk_control_range :
  16 <= sizeof_blob_disk_control < 2 ^ 33.
Proof.
  unfold sizeof_blob_disk_control. pose proof DNET_ID_SIZE_fits.
  change (2 ^ 33) with 8589934592. change (2 ^ 32) with 4294967296 in *. lia.
Qed.

Lemma length_memcpy_id src : length (memcpy_id src) = DNET_ID_SIZE.
Proof. apply length_resize. Qed.

Lemma length_blob_disk_control_bytes dc :
  Z.of_nat (length (blob_disk_control_bytes dc)) = sizeof_blob_disk_control.
Proof.
  unfold blob_disk_control_bytes, sizeof_blob_disk_control.
  rewrite !length_app, length_memcpy_id, !length_le_split. lia.
Qed.

Lemma length_blob_record io data pad :
  to_size_t (io_size io) <= Z.of_nat (length data) ->
  Z.of_nat (length (blob_record io data pad)) =
  sizeof_blob_disk_control + to_size_t (io_size io) + Z.of_nat pad.
Proof.
  intros Hlen. unfold blob_record. pose proof (to_size_t_range (io_size io)).
  rewrite !length_app, length_take, length_replicate.
  pose proof (length_blob_disk_control_bytes
    {| dc_id := memcpy_id (io_origin io); dc_flags := 0;
       dc_size := to_size_t (io_size io) |}). lia.
Qed.

(** What a successful [blob_write_raw] has done: one record, header,
    payload and zero padding, stored at the tail; the index entry of the
    key pointing at it; the tail moved past it. *)
Lemma blob_write_raw_ok b hist io data os b' os' :
  blob_write_raw b hist io data os = (0, b', os') ->
  exists (f : list byte) (pad : nat),
    let tail := to_size_t (log_tail b hist) in
    let sz := to_size_t (io_size io) in
    let len := sizeof_blob_disk_control + sz + Z.of_nat pad in
    let key := blob_key (io_origin io) (c_bool hist) in
    os_files os !! log_fd b hist = Some f /\
    sz <= Z.of_nat (length data) /\
    tail + len <= file_limit os /\
    os' = set_file (log_fd b hist)
            (write_at f (Z.to_nat tail) (blob_record io data pad)) os /\
    b' = set_log_tail hist (tail + len)
           (set_hash
              (<[key := {| rc_key := key; rc_offset := tail; rc_size := len |}]>
                 (hash b)) b) /\
    (to_int (log_bsize b hist) = 0 -> pad = 0%nat) /\
    (0 < to_int (log_bsize b hist) ->
     Z.of_nat pad =
     blob_padding (to_int (log_bsize b hist)) (sizeof_blob_disk_control + sz)).
Proof.
  unfold blob_write_raw, log_tail, log_fd, log_bsize, set_log_tail.
  set (tf := if hist =? 0 then data_offset b else history_offset b).
  set (fd := if hist =? 0 then datafd b else historyfd b).
  set (bs := to_int (if hist =? 0 then data_bsize b else history_bsize b)).
  set (hdr := blob_disk_control_bytes _).
  set (key := blob_key _ _).
  set (sz := to_size_t (io_size io)).
  pose proof sizeof_blob_disk_control_range as Hso.
  assert (Hhdr : Z.of_nat (length hdr) = sizeof_blob_disk_control)
    by apply length_blob_disk_control_bytes.
  pose proof (to_size_t_range tf) as Htf.
  pose proof (to_size_t_range (io_size io)) as Hsz. fold sz in Hsz.
  assert (Hlimit : file_limit os <= 2 ^ 63 - 1) by (unfold file_limit, OFF_MAX; lia).
  intros Hrun.
  (* the header *)
  destruct (blob_write_low_level fd hdr _ _ os) as [err os1] eqn:Hw1.
  destruct (negb (err =? 0)) eqn:Herr.
  { apply negb_true_iff, Z.eqb_neq in Herr. inversion Hrun; lia. }
  apply negb_false_iff, Z.eqb_eq in Herr. subst err.
  apply blob_write_low_level_ok in Hw1. destruct Hw1 as (_ & _ & Hw1).
  rewrite (to_size_t_id sizeof_blob_disk_control) in Hw1 by int_lia.
  destruct Hw1 as (f & Hf & Hl1 & ->); [lia|].
  assert (Hofs : to_off_t (to_size_t tf) = to_size_t tf) by int_lia.
  rewrite Hofs in *. rewrite to_size_t_idem in *.
  rewrite (take_ge hdr) in Hrun by lia.
  set (tail := Z.to_nat (to_size_t tf)) in *.
  (* the payload *)
  rewrite (to_off_t_id (to_size_t tf + _)) in Hrun by int_lia.
  destruct (blob_write_low_level fd data _ _ _) as [err os2] eqn:Hw2.
  destruct (negb (err =? 0)) eqn:Herr.
  { apply negb_true_iff, Z.eqb_neq in Herr. inversion Hrun; lia. }
  apply negb_false_iff, Z.eqb_eq in Herr. subst err.
  apply blob_write_low_level_append in Hw2; [|unfold tail; lia|lia].
  fold sz in Hw2. destruct Hw2 as (Hdata & Hl2 & ->).
  rewrite (to_off_t_id (_ + sz)) in Hrun by int_lia.
  set (pre := hdr ++ take (Z.to_nat sz) data) in *.
  assert (Hpre : Z.of_nat (length pre) = sizeof_blob_disk_control + sz).
  { unfold pre. rewrite length_app, length_take. lia. }
  (* the padding *)
  match type of Hrun with
  | context [match ?p with Some _ => _ | None => _ end] =>
    destruct p as [[[err offset'] os3]|] eqn:Hpad
  end; [|unfold EINVAL in Hrun; inversion Hrun].
  destruct (negb (err =? 0)) eqn:Herr.
  { apply negb_true_iff, Z.eqb_neq in Herr. inversion Hrun; lia. }
  apply negb_false_iff, Z.eqb_eq in Herr. subst err.
  assert (Hp : exists pad : nat,
    offset' = to_size_t tf + sizeof_blob_disk_control + sz + Z.of_nat pad /\
    offset' <= file_limit os /\
    os3 = set_file fd (write_at f tail (pre ++ replicate pad Byte.x00)) os /\
    (bs = 0 -> pad = 0%nat) /\
    (0 < bs -> Z.of_nat pad = blob_padding bs (sizeof_blob_disk_control + sz))).
  { destruct (bs =? 0) eqn:Hbs.
    - apply Z.eqb_eq in Hbs. inversion Hpad; subst offset' os3.
      exists 0%nat. simpl. rewrite app_nil_r. repeat split; try lia; done.
    - apply Z.eqb_neq in Hbs.
      assert (Hbsr : - 2 ^ 31 <= bs < 2 ^ 31) by (unfold bs; int_lia).
      apply blob_write_raw_pad_ok in Hpad; [|unfold tail; lia|lia|int_lia].
      destruct Hpad as (pad & -> & Hl3 & -> & Hin & Hout).
      exists pad. split; [lia|]. split; [done|]. split; [done|].
      split; [lia|]. intros Hpos.
      replace (to_size_t tf + sizeof_blob_disk_control + sz - to_size_t tf)
        with (sizeof_blob_disk_control + sz) in * by lia.
      rewrite (to_size_t_id (sizeof_blob_disk_control + sz)) in * by int_lia.
      rewrite (to_size_t_id bs) in * by int_lia.
      pose proof (Z.mod_pos_bound (sizeof_blob_disk_control + sz) bs Hpos) as Hm.
      rewrite (to_int_id (bs - _)) in * by int_lia.
      unfold blob_padding. rewrite (proj2 (Z.eqb_neq bs 0) Hbs).
      destruct (_ mod bs =? 0) eqn:Hz.
      + apply Z.eqb_eq in Hz. rewrite Hout; [done|lia].
      + apply Z.eqb_neq in Hz. apply Hin. lia. }
  destruct Hp as (pad & -> & Hl3 & -> & Hbs0 & Hbspos).
  exists f, pad. simpl.
  unfold dnet_hash_replace in Hrun. simpl in Hrun.
  replace (to_size_t tf + sizeof_blob_disk_control + sz + Z.of_nat pad - to_size_t tf)
    with (sizeof_blob_disk_control + sz + Z.of_nat pad) in Hrun by lia.
  rewrite (to_off_t_id (sizeof_blob_disk_control + sz + Z.of_nat pad)) in Hrun
    by int_lia.
  assert (Htail : forall x, to_size_t x = to_size_t tf ->
    to_off_t (x + (sizeof_blob_disk_control + sz + Z.of_nat pad)) =
    to_size_t tf + (sizeof_blob_disk_control + sz + Z.of_nat pad)).
  { intros x Hx. int_lia. }
  split; [done|]. split; [done|]. split; [lia|].
  split.
  { inversion Hrun. unfold blob_record, pre. fold sz hdr.
    by rewrite <- app_assoc. }
  split; [|by split].
  inversion Hrun. unfold tf. destruct (hist =? 0); simpl; rewrite Htail; done.
Qed.

End blob.

Section appends.
Context `{E : Externals}.

Lemma log_tail_set_log_tail hist o b : log_tail (set_log_tail hist o b) hist = o.
Proof. unfold log_tail, set_log_tail. by destruct (hist =? 0). Qed.

Lemma hash_set_log_tail hist o b : hash (set_log_tail hist o b) = hash b.
Proof. unfold set_log_tail. by destruct (hist =? 0). Qed.

(** C1: after a successful append of a record for a key on either log,
    the index entry of the key has the old tail as its offset and the full
    on-disk size of the record (header, payload and padding, as stored in
    the file) as its size, and offset plus size is the new tail. *)
Theorem append_index_meets_tail b hist io data os b' os' :
  - 2 ^ 63 <= log_tail b hist < 2 ^ 63 ->
  blob_write_raw b hist io data os = (0, b', os') ->
  exists (ctl : blob_ram_control) (f : list byte) (pad : nat),
    hash b' !! blob_key (io_origin io) (c_bool hist) = Some ctl /\
    rc_offset ctl = log_tail b hist /\
    os_files os !! log_fd b hist = Some f /\
    os_files os' !! log_fd b hist =
      Some (write_at f (Z.to_nat (log_tail b hist)) (blob_record io data pad)) /\
    rc_size ctl = Z.of_nat (length (blob_record io data pad)) /\
    rc_size ctl =
      sizeof_blob_disk_control + to_size_t (io_size io) + Z.of_nat pad /\
    rc_offset ctl + rc_size ctl = log_tail b' hist.
Proof.
  intros Htail Hrun.
  destruct (blob_write_raw_ok _ _ _ _ _ _ _ Hrun)
    as (f & pad & Hf & Hdata & Hlim & -> & -> & _).
  assert (Hlimit : file_limit os <= 2 ^ 63 - 1) by (unfold file_limit, OFF_MAX; lia).
  pose proof sizeof_blob_disk_control_range.
  pose proof (to_size_t_range (io_size io)).
  assert (Ht : to_size_t (log_tail b hist) = log_tail b hist) by int_lia.
  rewrite Ht in *.
  eexists _, f, pad.
  rewrite hash_set_log_tail, log_tail_set_log_tail, os_files_set_file,
    length_blob_record by done.
  unfold set_hash; simpl. rewrite lookup_insert_eq.
  repeat split; reflexivity || done.
Qed.



End appends.


(** ** Reading *)

Section reading.
Context `{E : Externals}.

(** [blob_read] never answers [-EINVAL] on the zero-copy path: whatever
    [io_offset] and [io_size] are, an indexed record is handed to the
    transport, with the requested size when that is not zero and the size
    of the index entry less the header when it is. *)
Lemma blob_read_zero_copy b cmd attr io data os ctl :
  hash b !! blob_key (io_origin io)
              (c_bool (Z.land (io_flags io) DNET_IO_FLAGS_HISTORY)) = Some ctl ->
  attr_size attr = sizeof_dnet_io_attr ->
  dnet_req_alloc (sizeof_dnet_cmd + sizeof_dnet_attr + sizeof_dnet_io_attr) = true ->
  exists r,
    rd_req (blob_read b cmd attr io data os) = Some r /\
    rd_err (blob_read b cmd attr io data os) = dnet_data_ready r /\
    rq_offset r =
      to_off_t (rc_offset ctl + sizeof_blob_disk_control + io_offset io) /\
    rq_size r =
      (if to_size_t (io_size io) =? 0
       then to_size_t (rc_size ctl - sizeof_blob_disk_control)
       else to_size_t (io_size io)).
Proof.
  intros Hctl Hattr Halloc. unfold blob_read, dnet_hash_lookup.
  rewrite Hctl. simpl. rewrite Hattr, Z.eqb_refl, Halloc. simpl.
  eexists. repeat split.
Qed.

End reading.

(** C2: the blob handler does not check a READ against the stored size.
    The record of identifier 1 takes 85 bytes, 5 of them payload; a READ
    of 100 bytes at offset 0 is queued as asked on the zero-copy path and,
    on the copying path, comes back with status 0 and 90 bytes, the
    payload followed by the record of identifier 2.  The cache handler
    answers the same request with [-EINVAL]. *)
Theorem blob_read_ignores_record_bounds :
  fst (fst sample_two_ids) = 0 /\
  (rc_size <$> hash (snd (fst sample_two_ids)) !! sample_key Byte.x01 0) = Some 85 /\
  rd_err (sample_read 0) = 0 /\
  ((fun r => (rq_offset r, rq_size r)) <$> rd_req (sample_read 0)) = Some (80, 100) /\
  rd_err (sample_read 200) = 0 /\
  io_size (rd_io (sample_read 200)) = 90 /\
  take 90 (rd_data (sample_read 200)) =
    hello ++ blob_record (H := sample_externals) (sample_io Byte.x02 2 0 5) hello 0 /\
  fst sample_cache_read = - EINVAL.
Proof. by_evaluation. Qed.

(** ** The rebuild scan *)

Section scan.
Context `{E : Externals}.

(** The entry [dnet_blob_iter] makes for a live record has the header
    size plus the payload size; no block size enters it. *)
Lemma dnet_blob_iter_live dc data position b hist :
  Z.land (dc_flags dc) BLOB_DISK_CTL_REMOVE = 0 ->
  dnet_blob_iter dc data position b hist =
    (0, set_hash
          (<[memcpy_id (dc_id dc) ++ [byte.of_Z hist] :=
               {| rc_key := memcpy_id (dc_id dc) ++ [byte.of_Z hist];
                  rc_offset := to_size_t position;
                  rc_size := to_off_t (dc_size dc + sizeof_blob_disk_control) |}]>
             (hash b)) b).
Proof. intros Hlive. unfold dnet_blob_iter. by rewrite Hlive. Qed.

Lemma dnet_blob_iter_removed dc data position b hist :
  Z.land (dc_flags dc) BLOB_DISK_CTL_REMOVE <> 0 ->
  dnet_blob_iter dc data position b hist = (0, b).
Proof.
  intros Hrem. unfold dnet_blob_iter.
  by rewrite (proj2 (Z.eqb_neq _ _) Hrem).
Qed.

End scan.

(** C3: the scan does not record the padding.  For the 10-byte record
    appended to a data log with 64-byte blocks the write path indexes 128
    bytes; [dnet_blob_iter], given the header read back from offset 0,
    indexes 90, and so does the whole rebuild. *)
Theorem rebuild_scan_drops_padding :
  fst (fst sample_append) = 0 /\
  (rc_size <$> hash (snd (fst sample_append)) !! sample_key Byte.x01 0) = Some 128 /\
  (forall f, os_files (snd sample_append) !! 3 = Some f ->
     let dc := blob_disk_control_of_bytes (H := sample_externals) (read_at f 0 80) in
     dc_size dc = 10 /\ Z.land (dc_flags dc) BLOB_DISK_CTL_REMOVE = 0 /\
     (rc_size <$>
        hash (snd (dnet_blob_iter_data (H := sample_externals) dc (read_at f 80 10) 0
                     (set_hash ∅ (snd (fst sample_append)))))
          !! sample_key Byte.x01 0) = Some 90) /\
  (let rebuilt :=
     dnet_blob_config_init (H := sample_externals) (snd (fst sample_append))
       (snd sample_append) in
   fst rebuilt = 0 /\
   (rc_size <$> hash (snd rebuilt) !! sample_key Byte.x01 0) = Some 90).
Proof.
  split; [by_evaluation|]. split; [by_evaluation|]. split; [|by_evaluation].
  intros f Hf. vm_compute in Hf. inversion Hf; subst f. by_evaluation.
Qed.

(** C4: the rebuilt index is not the index held at shutdown.  After two
    writes of one identifier on a data log with 64-byte blocks, both
    indexes point at the second data record, at offset 128, and at the
    second history record; the first history record is a tombstone and is
    skipped; but the data entry held at shutdown has size 128 and the
    rebuilt one has size 90.  With block size 0 the two indexes are
    equal. *)
Theorem rebuilt_index_differs_from_shutdown :
  fst (fst (sample_two_writes 64)) = 0 /\ fst (sample_rebuilt 64) = 0 /\
  ((fun c => (rc_offset c, rc_size c)) <$>
     hash (snd (fst (sample_two_writes 64))) !! sample_key Byte.x01 0) =
    Some (128, 128) /\
  ((fun c => (rc_offset c, rc_size c)) <$>
     hash (snd (sample_rebuilt 64)) !! sample_key Byte.x01 0) = Some (128, 90) /\
  hash (snd (sample_rebuilt 64)) !! sample_key Byte.x01 1 =
    hash (snd (fst (sample_two_writes 64))) !! sample_key Byte.x01 1 /\
  (rc_offset <$> hash (snd (sample_rebuilt 64)) !! sample_key Byte.x01 1) = Some 176 /\
  hash (snd (sample_rebuilt 64)) <> hash (snd (fst (sample_two_writes 64))) /\
  hash (snd (sample_rebuilt 0)) = hash (snd (fst (sample_two_writes 0))).
Proof.
  split; [by_evaluation|]. split; [by_evaluation|]. split; [by_evaluation|].
  split; [by_evaluation|]. split; [by_evaluation|]. split; [by_evaluation|].
  split; [|apply (bool_decide_unpack _); by_evaluation].
  intros Heq.
  apply (f_equal (fun h : gmap (list byte) blob_ram_control =>
                    rc_size <$> h !! sample_key Byte.x01 0)) in Heq.
  vm_compute in Heq. discriminate.
Qed.

(** ** DEL *)

(** C8: a DEL handed to the blob backend comes back as -1, from
    [blob_del], with the index, the tails and the files as they were. *)
Theorem blob_del_is_not_implemented `{E : Externals} r cmd asize aflags io data os :
  blob_del r cmd {| attr_size := asize; attr_flags := aflags;
                    attr_cmd := DNET_CMD_DEL |} data = -1 /\
  blob_backend_command_handler r cmd
    {| attr_size := asize; attr_flags := aflags; attr_cmd := DNET_CMD_DEL |}
    io data os = (-1, r, os).
Proof. split; reflexivity. Qed.

(** C10: a DEL handed to the cache erases the key and still answers
    [-ENOTSUP], the value [err] starts with; the other keys stay. *)
Theorem cache_del_erases_and_says_unsupported `{E : Externals}
    send c cmd_id io data d :
  c !! cache.key_t cmd_id = Some d ->
  exists c',
    dnet_cmd_cache_io send {| n_cache := Some c |} DNET_CMD_DEL cmd_id io data =
      (- ENOTSUP, {| n_cache := Some c' |}) /\
    c' = delete (cache.key_t cmd_id) c /\
    c' !! cache.key_t cmd_id = None /\
    (forall k, k <> cache.key_t cmd_id -> c' !! k = c !! k).
Proof.
  intros _. exists (delete (cache.key_t cmd_id) c).
  split; [reflexivity|]. split; [reflexivity|].
  split; [apply lookup_delete_eq|].
  intros k Hk. by apply lookup_delete_ne.
Qed.

Lemma cache_del_erases_and_says_unsupported_witness :
  sample_cache !! cache.key_t (H := sample_externals) (sample_id Byte.x01)
    = Some hello /\
  exists c',
    dnet_cmd_cache_io (H := sample_externals) (fun _ _ => 0)
      {| n_cache := Some sample_cache |}
      DNET_CMD_DEL (sample_id Byte.x01) (sample_io Byte.x01 0 0 0) [] =
      (- ENOTSUP, {| n_cache := Some c' |}) /\
    c' = delete (cache.key_t (H := sample_externals) (sample_id Byte.x01))
           sample_cache /\
    c' !! cache.key_t (H := sample_externals) (sample_id Byte.x01) = None /\
    (forall k, k <> cache.key_t (H := sample_externals) (sample_id Byte.x01) ->
       c' !! k = sample_cache !! k).
Proof.
  assert (H1 : sample_cache
                 !! cache.key_t (H := sample_externals) (sample_id Byte.x01)
               = Some hello) by by_evaluation.
  split; [exact H1|].
  exact (cache_del_erases_and_says_unsupported (E := sample_externals)
           (fun _ _ => 0) sample_cache (sample_id Byte.x01)
           (sample_io Byte.x01 0 0 0) [] hello H1).
Defined.

(** ** The recovery driver *)

(** The type that passes the check of lines 123-124 is one of the two the
    dispatch knows. *)
Lemma recovery_type_of_allowed args t :
  recovery.recovery_type_of args = recovery.Returned t ->
  t = recovery.TYPE_MERGE \/ t = recovery.TYPE_DC.
Proof.
  unfold recovery.recovery_type_of.
  destruct (1 <? length args)%nat; [discriminate|].
  destruct args as [|a args]; [discriminate|].
  destruct (negb _) eqn:Hin; [discriminate|].
  intros [= <-]. apply negb_false_iff in Hin.
  unfold recovery.str_in, recovery.ALLOWED_TYPES in Hin. simpl in Hin.
  rewrite orb_false_r in Hin. apply orb_true_iff in Hin.
  destruct Hin as [H|H]; apply String.eqb_eq in H; auto.
Qed.


(** ** Failed writes *)

(** A [pwrite] that makes no progress on a nonempty request sets [errno]. *)
Lemma pwrite_nonpos fd buf count offset os n os' :
  pwrite fd buf count offset os = (n, os') -> n <= 0 -> count <> 0 ->
  os_errno os' <> 0 /\ os_files os' = os_files os.
Proof.
  unfold pwrite. intros Hw Hn Hc.
  destruct (os_files os !! fd) as [f|]; [|by inversion Hw].
  destruct (offset <? 0); [by inversion Hw|].
  rewrite (proj2 (Z.eqb_neq count 0) Hc) in Hw.
  match type of Hw with context [if ?c then _ else _] => destruct c eqn:Hle end.
  - inversion Hw; subst. simpl. split; [|done].
    by destruct (Z.of_nat (length buf) =? 0).
  - apply Z.leb_gt in Hle. inversion Hw; subst. lia.
Qed.

Lemma blob_write_low_level_loop_err fuel : forall fd data size offset os err os',
  blob_write_low_level_loop fuel fd data size offset os = Some (err, os') ->
  err <> 0 -> os_errno os' <> 0 /\ err = - os_errno os'.
Proof.
  induction fuel as [|fuel IH]; intros fd data size offset os err os' Hrun Herr;
    simpl in Hrun; destruct (size =? 0) eqn:Hz; try discriminate;
    try (inversion Hrun; subst; lia).
  apply Z.eqb_neq in Hz.
  destruct (pwrite fd data size (to_off_t offset) os) as [n os1] eqn:Hw.
  destruct (n <=? 0) eqn:Hn; [|by eapply IH].
  apply Z.leb_le in Hn.
  destruct (pwrite_nonpos _ _ _ _ _ _ _ Hw Hn Hz) as [Hno _].
  inversion Hrun; subst.
  rewrite (proj2 (Z.eqb_neq (- os_errno os') 0)) by lia. split; [done|reflexivity].
Qed.

(** A failed low-level write leaves a nonzero [errno] and returns its
    negation. *)
Lemma blob_write_low_level_err fd data size offset os err os' :
  blob_write_low_level fd data size offset os = (err, os') ->
  err <> 0 -> os_errno os' <> 0 /\ err = - os_errno os'.
Proof.
  unfold blob_write_low_level. intros Hrun Herr.
  destruct (blob_write_low_level_loop _ _ _ _ _ _) as [[e o]|] eqn:Hloop.
  - inversion Hrun; subst. by eapply blob_write_low_level_loop_err.
  - exfalso. revert Hloop. apply blob_write_low_level_loop_total.
    + pose proof (to_size_t_range size). lia.
    + lia.
Qed.

(** The padding loop has rounds enough. *)
Lemma blob_write_raw_pad_total fuel : forall fd bsize size offset os,
  - 2 ^ 31 <= size < 2 ^ 31 -> (Z.to_nat (to_uint size) <= fuel)%nat ->
  blob_write_raw_pad fuel fd bsize size offset os <> None.
Proof.
  induction fuel as [|fuel IH]; intros fd bsize size offset os Hsize Hfuel; simpl;
    destruct (negb (size =? 0) && (size <? bsize)) eqn:Hcond; try done.
  - apply andb_true_iff in Hcond. rewrite negb_true_iff, Z.eqb_neq in Hcond.
    exfalso. assert (0 < to_uint size) by int_lia. lia.
  - apply andb_true_iff in Hcond. rewrite negb_true_iff, Z.eqb_neq in Hcond.
    set (sz := if to_uint size >? sizeof_blob_empty_buf
               then sizeof_blob_empty_buf else to_uint size).
    assert (Hsz : 0 < sz <= to_uint size).
    { unfold sz, sizeof_blob_empty_buf. rewrite Z.gtb_ltb.
      destruct (Z.ltb_spec 40960 (to_uint size)); int_lia. }
    destruct (blob_write_low_level _ _ _ _ _) as [err os1].
    destruct (negb (err =? 0)); [done|].
    apply IH; [int_lia|].
    assert (to_uint (to_int (size - sz)) = to_uint size - sz) by int_lia. lia.
Qed.

Lemma blob_write_raw_pad_err fuel : forall fd bsize size offset os err offset' os',
  blob_write_raw_pad fuel fd bsize size offset os = Some (err, offset', os') ->
  err <> 0 -> os_errno os' <> 0.
Proof.
  induction fuel as [|fuel IH]; intros fd bsize size offset os err offset' os' Hrun Herr;
    simpl in Hrun; destruct (negb (size =? 0) && (size <? bsize));
    try discriminate; try (inversion Hrun; subst; lia).
  destruct (blob_write_low_level _ _ _ _ _) as [e os1] eqn:Hw.
  destruct (negb (e =? 0)) eqn:He; [|by eapply IH].
  apply negb_true_iff, Z.eqb_neq in He. inversion Hrun; subst.
  by apply (blob_write_low_level_err _ _ _ _ _ _ _ Hw).
Qed.

(** A failed [blob_write_raw] leaves [errno] nonzero, and the tail and the
    index as they were. *)
Lemma blob_write_raw_err `{E : Externals} b hist io data os err b' os' :
  blob_write_raw b hist io data os = (err, b', os') ->
  err <> 0 -> os_errno os' <> 0 /\ b' = b.
Proof.
  unfold blob_write_raw. intros Hrun Herr.
  destruct (blob_write_low_level _ _ _ _ os) as [e1 os1] eqn:Hw1.
  destruct (negb (e1 =? 0)) eqn:He1.
  { apply negb_true_iff, Z.eqb_neq in He1. inversion Hrun; subst.
    split; [|done]. by apply (blob_write_low_level_err _ _ _ _ _ _ _ Hw1). }
  destruct (blob_write_low_level _ data _ _ os1) as [e2 os2] eqn:Hw2.
  destruct (negb (e2 =? 0)) eqn:He2.
  { apply negb_true_iff, Z.eqb_neq in He2. inversion Hrun; subst.
    split; [|done]. by apply (blob_write_low_level_err _ _ _ _ _ _ _ Hw2). }
  match type of Hrun with
  | context [match ?p with Some _ => _ | None => _ end] =>
    destruct p as [[[e3 offset'] os3]|] eqn:Hpad
  end.
  - destruct (negb (e3 =? 0)) eqn:He3.
    + apply negb_true_iff, Z.eqb_neq in He3. inversion Hrun; subst.
      split; [|done].
      destruct (to_int _ =? 0); [inversion Hpad; subst; lia|].
      by eapply blob_write_raw_pad_err.
    + unfold dnet_hash_replace in Hrun. simpl in Hrun. inversion Hrun; lia.
  - exfalso. destruct (to_int _ =? 0); [discriminate|].
    revert Hpad. apply blob_write_raw_pad_total; [int_lia|lia].
Qed.

(** ** Headers *)

Section headers.
Context `{E : Externals}.

(** Only the first [sizeof (struct blob_disk_control)] bytes of a buffer
    make the header. *)
Lemma blob_disk_control_of_bytes_take bs n :
  (DNET_ID_SIZE + 16 <= n)%nat ->
  blob_disk_control_of_bytes (take n bs) = blob_disk_control_of_bytes bs.
Proof.
  intros Hn. unfold blob_disk_control_of_bytes.
  rewrite take_take, !skipn_firstn_comm, !take_take.
  repeat f_equal; lia.
Qed.

Lemma blob_disk_control_of_bytes_app hdr rest :
  length hdr = (DNET_ID_SIZE + 16)%nat ->
  blob_disk_control_of_bytes (hdr ++ rest) = blob_disk_control_of_bytes hdr.
Proof.
  intros Hlen.
  rewrite <- (blob_disk_control_of_bytes_take (hdr ++ rest) (DNET_ID_SIZE + 16)),
    take_app_length' by done. done.
Qed.

(** Reading back a header that was stored. *)
Lemma blob_disk_control_of_bytes_bytes dc :
  blob_disk_control_of_bytes (blob_disk_control_bytes dc) =
    {| dc_id := memcpy_id (dc_id dc);
       dc_flags := dc_flags dc mod 2 ^ 64;
       dc_size := dc_size dc mod 2 ^ 64 |}.
Proof.
  unfold blob_disk_control_of_bytes, blob_disk_control_bytes.
  rewrite take_app_length' by (by rewrite length_memcpy_id).
  rewrite drop_app_length' by (by rewrite length_memcpy_id).
  rewrite take_app_length' by (by rewrite length_le_split).
  rewrite app_assoc, drop_app_length'
    by (rewrite length_app, length_memcpy_id, length_le_split; lia).
  rewrite take_ge by (rewrite length_le_split; lia).
  by rewrite !le_combine_split.
Qed.

Lemma dc_size_of_bytes_range bs :
  0 <= dc_size (blob_disk_control_of_bytes bs) < 2 ^ 64.
Proof.
  unfold blob_disk_control_of_bytes. simpl.
  pose proof (le_combine_bound (take 8 (drop (DNET_ID_SIZE + 8) bs))) as Hb.
  rewrite length_take in Hb.
  assert (2 ^ (8 * Z.of_nat (8 `min` length (drop (DNET_ID_SIZE + 8) bs))) <= 2 ^ 64).
  { apply Z.pow_le_mono_r; lia. }
  lia.
Qed.

Lemma dc_id_of_bytes_length bs :
  (DNET_ID_SIZE <= length bs)%nat ->
  length (dc_id (blob_disk_control_of_bytes bs)) = DNET_ID_SIZE.
Proof. intros Hlen. unfold blob_disk_control_of_bytes. simpl. rewrite length_take. lia. Qed.

Lemma memcpy_id_exact id : length id = DNET_ID_SIZE -> memcpy_id id = id.
Proof. intros Hlen. unfold memcpy_id. by rewrite resize_all_alt. Qed.

(** The tombstone bit survives the trip to the file and back. *)
Lemma blob_mark_removed_read_back bs :
  (DNET_ID_SIZE <= length bs)%nat ->
  let old := blob_disk_control_of_bytes bs in
  let marked :=
    blob_disk_control_of_bytes (blob_disk_control_bytes (blob_mark_removed old)) in
  dc_id marked = dc_id old /\ dc_size marked = dc_size old /\
  Z.land (dc_flags marked) BLOB_DISK_CTL_REMOVE = BLOB_DISK_CTL_REMOVE.
Proof.
  intros Hlen old marked. unfold marked.
  rewrite blob_disk_control_of_bytes_bytes. simpl.
  split; [apply memcpy_id_exact, dc_id_of_bytes_length, Hlen|].
  split; [apply Z.mod_small, dc_size_of_bytes_range|].
  unfold BLOB_DISK_CTL_REMOVE.
  apply Z.bits_inj'. intros n Hn.
  rewrite Z.land_spec.
  destruct (Z.eq_dec n 0) as [->|Hne].
  - rewrite Z.mod_pow2_bits_low by lia. rewrite Z.lor_spec. simpl.
    by rewrite orb_true_r.
  - replace (Z.testbit 1 n) with false; [by rewrite andb_false_r|].
    symmetry. apply (Z.bits_above_log2 1 n); simpl; lia.
Qed.

End headers.

(** ** Whole transfers *)

Lemma pread_full fd count offset os f :
  os_files os !! fd = Some f -> 0 <= offset -> 0 <= count ->
  offset + count <= Z.of_nat (length f) ->
  pread fd count offset os =
    (count, read_at f (Z.to_nat offset) (Z.to_nat count), os).
Proof.
  intros Hf Ho Hc Hlen. unfold pread. rewrite Hf.
  rewrite (proj2 (Z.ltb_ge offset 0)) by lia.
  rewrite length_read_at by lia. by rewrite Z2Nat.id by lia.
Qed.

Lemma pwrite_full fd buf count offset os f :
  os_files os !! fd = Some f -> 0 <= offset -> 0 < count ->
  count <= Z.of_nat (length buf) -> count <= os_max_io os ->
  offset + count <= file_limit os ->
  pwrite fd buf count offset os =
    (count, set_file fd (write_at f (Z.to_nat offset) (take (Z.to_nat count) buf)) os).
Proof.
  intros Hf Ho Hc Hbuf Hio Hlim. unfold pwrite, file_limit in *. rewrite Hf.
  rewrite (proj2 (Z.ltb_ge offset 0)) by lia.
  rewrite (proj2 (Z.eqb_neq count 0)) by lia.
  replace (Z.min (Z.min count (Z.of_nat (length buf))) _) with count by lia.
  by rewrite (proj2 (Z.leb_gt count 0)) by lia.
Qed.

(** ** [blob_write_history_meta] *)

Section history.
Context `{E : Externals}.

(** Lines 199-229 on a block that lies inside the file: the block is
    read, its header goes back to the same place with the tombstone bit
    set, and the buffer starts with the old payload. *)
Lemma blob_write_history_meta_old_ok b ctl os f :
  os_files os !! historyfd b = Some f ->
  0 <= rc_offset ctl -> sizeof_blob_disk_control <= rc_size ctl ->
  rc_offset ctl + rc_size ctl <= Z.of_nat (length f) ->
  Z.of_nat (length f) <= file_limit os ->
  sizeof_blob_disk_control <= os_max_io os ->
  let off := Z.to_nat (rc_offset ctl) in
  let old :=
    blob_disk_control_of_bytes (read_at f off (Z.to_nat sizeof_blob_disk_control)) in
  exists hdata,
    blob_write_history_meta_old b ctl (to_size_t (rc_size ctl)) os =
      inr (hdata, dc_size old,
           set_file (historyfd b)
             (write_at f off (blob_disk_control_bytes (blob_mark_removed old))) os) /\
    (sizeof_blob_disk_control + dc_size old <= rc_size ctl ->
     take (Z.to_nat (dc_size old)) hdata =
       read_at f (off + Z.to_nat sizeof_blob_disk_control) (Z.to_nat (dc_size old))).
Proof.
  intros Hf Hoff Hsize Hlen Hlim Hio off old.
  pose proof sizeof_blob_disk_control_range as Hso.
  assert (Hlimit : file_limit os <= 2 ^ 63 - 1) by (unfold file_limit, OFF_MAX; lia).
  unfold blob_write_history_meta_old.
  rewrite (to_size_t_id (rc_size ctl)) by int_lia.
  rewrite (to_off_t_id (rc_offset ctl)) by int_lia.
  rewrite (pread_full _ _ _ _ f) by (done || lia).
  fold off. set (hdata := read_at f off (Z.to_nat (rc_size ctl))).
  assert (Hhlen : length hdata = Z.to_nat (rc_size ctl))
    by (apply length_read_at; lia).
  rewrite Z.eqb_refl. simpl negb. cbv iota.
  assert (Hold : blob_disk_control_of_bytes hdata = old).
  { unfold old.
    replace (read_at f off (Z.to_nat sizeof_blob_disk_control))
      with (take (Z.to_nat sizeof_blob_disk_control) hdata)
      by (unfold hdata, read_at; rewrite take_take; f_equal; lia).
    symmetry. apply blob_disk_control_of_bytes_take.
    unfold sizeof_blob_disk_control. lia. }
  rewrite Hold. fold (blob_mark_removed old).
  set (hdr := blob_disk_control_bytes (blob_mark_removed old)).
  assert (Hhdr : Z.of_nat (length hdr) = sizeof_blob_disk_control)
    by apply length_blob_disk_control_bytes.
  rewrite (pwrite_full _ _ _ _ _ f)
    by (done || rewrite ?length_app, ?length_drop; lia).
  rewrite Z.eqb_refl. simpl negb. cbv iota.
  rewrite take_app_length' by lia.
  rewrite drop_app_length' by lia.
  eexists. split; [reflexivity|].
  intros Hfits. pose proof (dc_size_of_bytes_range hdata) as Hr. rewrite Hold in Hr.
  change (dc_size (blob_mark_removed old)) with (dc_size old).
  set (moved := take (Z.to_nat (dc_size old))
                  (drop (Z.to_nat sizeof_blob_disk_control) hdata)).
  assert (Hm : length moved = Z.to_nat (dc_size old)).
  { unfold moved. rewrite length_take, length_drop. lia. }
  rewrite take_app_length' by lia.
  unfold moved, hdata. fold (read_at (read_at f off (Z.to_nat (rc_size ctl)))
    (Z.to_nat sizeof_blob_disk_control) (Z.to_nat (dc_size old))).
  apply read_at_read_at. lia.
Qed.

(** A history update that reports success, on a state whose history
    block is sound, has run the hook on the old blob and has appended the
    hook's result with one [blob_write_raw]. *)
Lemma blob_write_history_meta_ok b io m data os b' os' :
  history_block_ok b os (io_origin io) ->
  blob_write_history_meta b io m data os = (0, b', os') ->
  exists hdata size os1 new_hdata size',
    backend_process_meta io hdata size m data = Some (new_hdata, size') /\
    blob_write_raw b 1 (with_size io size') new_hdata os1 = (0, b', os') /\
    match hash b !! blob_key (io_origin io) 1 with
    | None => hdata = [] /\ size = 0 /\ os1 = os
    | Some ctl =>
      exists f,
        os_files os !! historyfd b = Some f /\
        let off := Z.to_nat (rc_offset ctl) in
        let old :=
          blob_disk_control_of_bytes
            (read_at f off (Z.to_nat sizeof_blob_disk_control)) in
        size = dc_size old /\
        os1 = set_file (historyfd b)
                (write_at f off (blob_disk_control_bytes (blob_mark_removed old)))
                os /\
        (sizeof_blob_disk_control + dc_size old <= rc_size ctl ->
         take (Z.to_nat size) hdata =
           read_at f (off + Z.to_nat sizeof_blob_disk_control)
             (Z.to_nat (dc_size old)))
    end.
Proof.
  unfold history_block_ok, blob_write_history_meta, dnet_hash_lookup.
  intros Hok Hrun.
  assert (Htail : forall hdata size os1,
    match backend_process_meta io hdata size m data with
    | Some (new_hdata, size0) =>
        let
        '(err, b1, os2) :=
         blob_write_raw b 1
           {| io_id := io_id io; io_origin := io_origin io;
              io_flags := io_flags io; io_offset := io_offset io;
              io_size := size0 |} new_hdata os1 in
         if negb (err =? 0) then (- os_errno os2, b1, os2) else (0, b1, os2)
    | None => (- ENOMEM, b, os1)
    end = (0, b', os') ->
    exists new_hdata size',
      backend_process_meta io hdata size m data = Some (new_hdata, size') /\
      blob_write_raw b 1 (with_size io size') new_hdata os1 = (0, b', os')).
  { intros hdata size os1 Hk.
    destruct (backend_process_meta io hdata size m data) as [[new_hdata size']|];
      [|unfold ENOMEM in Hk; inversion Hk].
    exists new_hdata, size'. split; [done|]. fold (with_size io size') in Hk.
    destruct (blob_write_raw b 1 (with_size io size') new_hdata os1)
      as [[err b1] os2] eqn:Hw.
    destruct (negb (err =? 0)) eqn:Herr; [|apply negb_false_iff, Z.eqb_eq in Herr;
                                           inversion Hk; by subst].
    apply negb_true_iff, Z.eqb_neq in Herr.
    destruct (blob_write_raw_err _ _ _ _ _ _ _ _ Hw Herr) as [Hno _].
    inversion Hk. lia. }
  destruct (hash b !! blob_key (io_origin io) 1) as [ctl|] eqn:Hctl.
  - destruct (os_files os !! historyfd b) as [f|] eqn:Hf; [|done].
    destruct Hok as (Hoff & Hsize & Hlen & Hbelow & Hlim & Hio).
    rewrite Z.eqb_refl in Hrun.
    destruct (negb (malloc_ok _ os)); [unfold ENOMEM in Hrun; inversion Hrun|].
    destruct (blob_write_history_meta_old_ok b ctl os f Hf Hoff Hsize Hlen Hlim Hio)
      as (hdata & Hold & Hpayload).
    rewrite Hold in Hrun.
    destruct (Htail _ _ _ Hrun) as (new_hdata & size' & Hhook & Hw).
    eexists hdata, _, _, new_hdata, size'.
    split; [exact Hhook|]. split; [exact Hw|].
    exists f. split; [done|]. simpl. repeat split; done.
  - change (- ENOENT =? 0) with false in Hrun. cbv iota in Hrun.
    destruct (negb (malloc_ok 0 os)); [unfold ENOMEM in Hrun; inversion Hrun|].
    destruct (Htail _ _ _ Hrun) as (new_hdata & size' & Hhook & Hw).
    exists [], 0, os, new_hdata, size'. repeat split; done.
Qed.

End history.

(** Why the statements on the history log ask for a system that moves a
    header in one call: line 220 takes a short [pwrite] for a failure and returns
    [-errno], which is 0 when nothing has failed before.  With 16-byte
    transfers the second write of the example returns 0 and appends its
    data record, but the history log, its tail and its index entry stay
    as the first write left them. *)
Lemma short_header_write_goes_unreported :
  fst (fst sample_slow_first) = 0 /\
  fst (fst sample_slow_second) = 0 /\
  data_offset (snd (fst sample_slow_first)) = 128 /\
  data_offset (snd (fst sample_slow_second)) = 256 /\
  history_offset (snd (fst sample_slow_second)) =
    history_offset (snd (fst sample_slow_first)) /\
  hash (snd (fst sample_slow_second)) !! sample_key Byte.x01 1 =
    hash (snd (fst sample_slow_first)) !! sample_key Byte.x01 1 /\
  os_files (snd sample_slow_second) !! 4 = os_files (snd sample_slow_first) !! 4.
Proof. by_evaluation. Qed.

Section history_update.
Context `{E : Externals}.

Lemma log_fd_history b : log_fd b 1 = historyfd b.
Proof. reflexivity. Qed.

Lemma log_tail_history b : log_tail b 1 = history_offset b.
Proof. reflexivity. Qed.


End history_update.

Section write_command.
Context `{E : Externals}.




End write_command.

(** C1 at the append of the example. *)
Lemma append_index_meets_tail_witness :
  - 2 ^ 63 <= log_tail (sample_backend 64 0) 0 < 2 ^ 63 /\
  blob_write_raw (H := sample_externals) (sample_backend 64 0) 0
    (sample_io Byte.x01 0 0 10) sample_payload (sample_os 4096) =
    (0, snd (fst sample_append), snd sample_append) /\
  exists (ctl : blob_ram_control) (f : list byte) (pad : nat),
    hash (snd (fst sample_append))
      !! blob_key (H := sample_externals)
           (io_origin (sample_io Byte.x01 0 0 10)) (c_bool 0) = Some ctl /\
    rc_offset ctl = log_tail (sample_backend 64 0) 0 /\
    os_files (sample_os 4096) !! log_fd (sample_backend 64 0) 0 = Some f /\
    os_files (snd sample_append) !! log_fd (sample_backend 64 0) 0 =
      Some (write_at f (Z.to_nat (log_tail (sample_backend 64 0) 0))
              (blob_record (H := sample_externals) (sample_io Byte.x01 0 0 10)
                 sample_payload pad)) /\
    rc_size ctl =
      Z.of_nat (length (blob_record (H := sample_externals)
                          (sample_io Byte.x01 0 0 10) sample_payload pad)) /\
    rc_size ctl =
      sizeof_blob_disk_control (H := sample_externals) +
      to_size_t (io_size (sample_io Byte.x01 0 0 10)) + Z.of_nat pad /\
    rc_offset ctl + rc_size ctl = log_tail (snd (fst sample_append)) 0.
Proof.
  assert (H1 : - 2 ^ 63 <= log_tail (sample_backend 64 0) 0 < 2 ^ 63)
    by by_evaluation.
  assert (H2 : blob_write_raw (H := sample_externals) (sample_backend 64 0) 0
                 (sample_io Byte.x01 0 0 10) sample_payload (sample_os 4096) =
               (0, snd (fst sample_append), snd sample_append))
    by (apply (result_eta sample_append); by_evaluation).
  split; [exact H1|]. split; [exact H2|].
  exact (append_index_meets_tail (E := sample_externals) _ _ _ _ _ _ _ H1 H2).
Defined.

(** The state the first write of the example leaves: the history block
    of identifier 1 is indexed at offset 0 with 176 bytes, inside the
    history file. *)
Lemma sample_history_indexed :
  hash sample_b1 !! blob_key (H := sample_externals) (io_origin sample_hio) 1 =
    Some sample_history_ctl.
Proof. by_evaluation. Qed.

Lemma sample_history_open :
  os_files sample_os1 !! historyfd sample_b1 = Some sample_history_file.
Proof. by_evaluation. Qed.




(** ** The scan has rounds enough *)

Section scan_rounds.
Context `{E : Externals}.

Lemma blob_padding_nonneg bsize len : 0 <= bsize -> 0 <= blob_padding bsize len.
Proof.
  intros Hb. unfold blob_padding.
  destruct (bsize =? 0) eqn:Hz; [lia|]. apply Z.eqb_neq in Hz.
  destruct (len mod bsize =? 0); [lia|].
  pose proof (Z.mod_pos_bound len bsize). lia.
Qed.

Lemma blob_iterate_loop_S fuel f bsize callback position priv :
  blob_iterate_loop (S fuel) f bsize callback position priv =
    let remaining := Z.of_nat (length f) - position in
    if remaining <? sizeof_blob_disk_control then (0, priv)
    else
      let dc :=
        blob_disk_control_of_bytes
          (read_at f (Z.to_nat position) (Z.to_nat sizeof_blob_disk_control)) in
      if remaining - sizeof_blob_disk_control <? dc_size dc then (0, priv)
      else
        let data :=
          read_at f (Z.to_nat (position + sizeof_blob_disk_control))
            (Z.to_nat (dc_size dc)) in
        let '(err, priv1) := callback dc data position priv in
        if negb (err =? 0) then (err, priv1)
        else
          let len := sizeof_blob_disk_control + dc_size dc in
          blob_iterate_loop fuel f bsize callback
            (position + len + blob_padding bsize len) priv1.
Proof. reflexivity. Qed.

(** Every round moves past a header, so any two supplies of rounds larger
    than what is left of the file give the same scan. *)
Lemma blob_iterate_loop_rounds f bsize callback :
  0 <= bsize ->
  forall fuel fuel' position priv,
    0 <= position ->
    Z.of_nat (length f) - position < Z.of_nat fuel ->
    Z.of_nat (length f) - position < Z.of_nat fuel' ->
    blob_iterate_loop fuel f bsize callback position priv =
    blob_iterate_loop fuel' f bsize callback position priv.
Proof.
  intros Hb. pose proof sizeof_blob_disk_control_range as Hso.
  induction fuel as [|fuel IH]; intros fuel' position priv Hpos Hf Hf'.
  - destruct fuel' as [|fuel']; [done|]. rewrite blob_iterate_loop_S. cbv zeta.
    by rewrite (proj2 (Z.ltb_lt _ _)) by lia.
  - destruct fuel' as [|fuel'].
    + rewrite blob_iterate_loop_S. cbv zeta.
      by rewrite (proj2 (Z.ltb_lt _ _)) by lia.
    + rewrite !blob_iterate_loop_S. cbv zeta.
      destruct (_ <? sizeof_blob_disk_control) eqn:Hrem; [done|].
      apply Z.ltb_ge in Hrem.
      set (dc := blob_disk_control_of_bytes _).
      destruct (_ - _ <? dc_size dc) eqn:Hfit; [done|].
      destruct (callback dc _ position priv) as [err priv1].
      destruct (negb (err =? 0)); [done|].
      pose proof (dc_size_of_bytes_range
        (read_at f (Z.to_nat position) (Z.to_nat sizeof_blob_disk_control))) as Hr.
      fold dc in Hr.
      pose proof (blob_padding_nonneg bsize
        (sizeof_blob_disk_control + dc_size dc) Hb).
      apply IH; lia.
Qed.

End scan_rounds.

(** ** Files that only grow *)

Lemma file_extends_refl off f : file_extends off f f.
Proof. by split. Qed.

Lemma file_extends_trans off f g h :
  file_extends off f g -> file_extends off g h -> file_extends off f h.
Proof.
  intros [Hl1 H1] [Hl2 H2]. split; [lia|].
  intros i Hi Hlen. rewrite H2 by lia. by apply H1.
Qed.

Lemma file_extends_le off off' f g :
  (off' <= off)%nat -> file_extends off f g -> file_extends off' f g.
Proof. intros Hle [Hl H]. split; [done|]. intros i Hi Hlen. apply H; lia. Qed.

Lemma file_extends_write_at f off o bs :
  (off <= o)%nat -> file_extends off f (write_at f o bs).
Proof.
  intros Hle. split; [rewrite length_write_at; lia|].
  intros i Hi Hlen. unfold write_at.
  rewrite lookup_app_l by (rewrite length_resize; lia).
  apply lookup_resize; lia.
Qed.

(** Below [off] and inside the old file the two files read the same. *)
Lemma file_extends_read_at off f f' o n :
  file_extends off f f' -> (o + n <= off)%nat -> (o + n <= length f)%nat ->
  read_at f' o n = read_at f o n.
Proof.
  intros [Hl H] Hoff Hlen. unfold read_at.
  apply list_eq. intros i.
  destruct (decide (i < n)%nat) as [Hi|Hi].
  - rewrite !lookup_take_lt, !lookup_drop by done. apply H; lia.
  - rewrite !lookup_take_ge by lia. done.
Qed.

Lemma fd_extends_refl fd off os : fd_extends fd off os os.
Proof.
  unfold fd_extends. destruct (os_files os !! fd) as [f|] eqn:Hf; [|done].
  exists f. split; [done|apply file_extends_refl].
Qed.

Lemma fd_extends_trans fd off os1 os2 os3 :
  fd_extends fd off os1 os2 -> fd_extends fd off os2 os3 ->
  fd_extends fd off os1 os3.
Proof.
  unfold fd_extends. intros H12 H23.
  destruct (os_files os1 !! fd) as [f|].
  - destruct H12 as (g & Hg & Hfg). rewrite Hg in H23.
    destruct H23 as (h & Hh & Hgh). exists h. split; [done|].
    by apply (file_extends_trans _ _ g).
  - by rewrite H12 in H23.
Qed.

Lemma fd_extends_le fd off off' os os' :
  (off' <= off)%nat -> fd_extends fd off os os' -> fd_extends fd off' os os'.
Proof.
  unfold fd_extends. intros Hle H.
  destruct (os_files os !! fd) as [f|]; [|done].
  destruct H as (g & Hg & Hfg). exists g. split; [done|].
  by apply (file_extends_le off).
Qed.

(** A descriptor whose file is as it was. *)
Lemma fd_extends_same fd off os os' :
  os_files os' !! fd = os_files os !! fd -> fd_extends fd off os os'.
Proof.
  unfold fd_extends. intros Heq.
  destruct (os_files os !! fd) as [f|]; [|done].
  exists f. split; [done|apply file_extends_refl].
Qed.

Lemma os_extends_refl fd off os : os_extends fd off os os.
Proof. unfold os_extends. repeat split; try done. apply fd_extends_refl. Qed.

Lemma os_extends_trans fd off os1 os2 os3 :
  os_extends fd off os1 os2 -> os_extends fd off os2 os3 ->
  os_extends fd off os1 os3.
Proof.
  intros (Ha & Hb & Hc & Ho & Hf) (Ha' & Hb' & Hc' & Ho' & Hf').
  unfold os_extends. repeat split; try congruence.
  - intros fd' Hne. rewrite Ho' by done. by apply Ho.
  - by apply (fd_extends_trans _ _ _ os2).
Qed.

Lemma os_extends_le fd off off' os os' :
  (off' <= off)%nat -> os_extends fd off os os' -> os_extends fd off' os os'.
Proof.
  intros Hle (Ha & Hb & Hc & Ho & Hf). unfold os_extends.
  repeat split; try done. by apply (fd_extends_le _ off).
Qed.

(** What [os_extends] says of any descriptor. *)
Lemma os_extends_fd fd off os os' fd' off' :
  os_extends fd off os os' -> fd' <> fd \/ (off' <= off)%nat ->
  fd_extends fd' off' os os'.
Proof.
  intros (_ & _ & _ & Ho & Hf) Hor.
  destruct (decide (fd' = fd)) as [->|Hne].
  - destruct Hor as [Hne|Hle]; [done|]. by apply (fd_extends_le _ off).
  - apply fd_extends_same. by apply Ho.
Qed.

Lemma os_extends_file_limit fd off os os' :
  os_extends fd off os os' -> file_limit os' = file_limit os.
Proof. intros (_ & Hb & _). unfold file_limit. by rewrite Hb. Qed.

Lemma os_extends_set_errno fd off e os : os_extends fd off os (set_errno e os).
Proof.
  unfold os_extends, set_errno. simpl. repeat split; try done.
  by apply fd_extends_same.
Qed.

Lemma os_extends_set_file fd off o f bs os :
  os_files os !! fd = Some f -> (off <= o)%nat ->
  os_extends fd off os (set_file fd (write_at f o bs) os).
Proof.
  intros Hf Hle. unfold os_extends. repeat split; try done.
  - intros fd' Hne. by apply os_files_set_file_ne.
  - unfold fd_extends. rewrite Hf, os_files_set_file.
    eexists. split; [done|]. by apply file_extends_write_at.
Qed.

(** ** [pwrite] and [pread] *)

Lemma pwrite_extends fd buf count offset os (off : nat) :
  (0 <= offset -> Z.of_nat off <= offset) ->
  os_extends fd off os (snd (pwrite fd buf count offset os)).
Proof.
  intros Hoff. unfold pwrite.
  destruct (os_files os !! fd) as [f|] eqn:Hf; [|apply os_extends_set_errno].
  destruct (offset <? 0) eqn:Hneg; [apply os_extends_set_errno|].
  apply Z.ltb_ge in Hneg.
  destruct (count =? 0); [apply os_extends_refl|].
  match goal with |- context [if ?c then _ else _] => destruct c end;
    [apply os_extends_set_errno|].
  simpl. apply os_extends_set_file; [done|]. lia.
Qed.

(** A [pwrite] that fails leaves one of four error numbers. *)
Lemma pwrite_nonpos_errno fd buf count offset os n os' :
  pwrite fd buf count offset os = (n, os') -> n <= 0 -> count <> 0 ->
  0 < os_errno os'.
Proof.
  unfold pwrite. intros Hw Hn Hc.
  destruct (os_files os !! fd) as [f|]; [|by inversion Hw].
  destruct (offset <? 0); [by inversion Hw|].
  rewrite (proj2 (Z.eqb_neq count 0) Hc) in Hw.
  match type of Hw with context [if ?c then _ else _] => destruct c eqn:Hle end.
  - inversion Hw; subst. simpl. by destruct (Z.of_nat (length buf) =? 0).
  - apply Z.leb_gt in Hle. inversion Hw; subst. lia.
Qed.

Lemma pread_files fd count offset os :
  os_files (snd (pread fd count offset os)) = os_files os /\
  os_max_io (snd (pread fd count offset os)) = os_max_io os /\
  os_max_file (snd (pread fd count offset os)) = os_max_file os /\
  os_max_alloc (snd (pread fd count offset os)) = os_max_alloc os.
Proof.
  unfold pread. destruct (os_files os !! fd); [|done].
  by destruct (offset <? 0).
Qed.

(** ** [blob_write_low_level], whatever it returns *)

Lemma blob_write_low_level_loop_extends fuel :
  forall fd data size offset os r (off : nat),
  0 <= offset < 2 ^ 64 -> Z.of_nat off <= offset ->
  blob_write_low_level_loop fuel fd data size offset os = Some r ->
  os_extends fd off os (snd r).
Proof.
  induction fuel as [|fuel IH]; intros fd data size offset os r off Ho Hoff Hrun;
    simpl in Hrun; destruct (size =? 0) eqn:Hz; try discriminate;
    try (inversion Hrun; subst; apply os_extends_refl).
  destruct (pwrite fd data size (to_off_t offset) os) as [err os1] eqn:Hw.
  assert (Hstep : os_extends fd off os os1).
  { change os1 with (snd (err, os1)). rewrite <- Hw. apply pwrite_extends.
    intros Hpos. assert (to_off_t offset = offset) by int_lia. lia. }
  destruct (err <=? 0) eqn:Herr; [by inversion Hrun; subst|].
  apply Z.leb_gt in Herr.
  destruct (pwrite_pos _ _ _ _ _ _ _ Hw Herr)
    as (f & Hf & Hpos & Hcount & Hbuf & _ & Hlim & _).
  assert (Hlimit : file_limit os <= 2 ^ 63 - 1) by (unfold file_limit, OFF_MAX; lia).
  assert (Hoo : to_off_t offset = offset) by int_lia.
  apply (os_extends_trans _ _ _ os1); [done|].
  apply (IH fd (drop (Z.to_nat err) data) (to_size_t (size - err))
           (to_size_t (offset + err)) os1 r off); [int_lia|int_lia|done].
Qed.

Lemma blob_write_low_level_extends fd data size offset os (off : nat) :
  Z.of_nat off <= to_size_t offset ->
  os_extends fd off os (snd (blob_write_low_level fd data size offset os)).
Proof.
  intros Hoff. unfold blob_write_low_level.
  destruct (blob_write_low_level_loop _ _ _ _ _ _) as [r|] eqn:Hloop;
    [|apply os_extends_refl].
  eapply blob_write_low_level_loop_extends; eauto using to_size_t_range.
Qed.

Lemma blob_write_low_level_loop_neg fuel : forall fd data size offset os err os',
  blob_write_low_level_loop fuel fd data size offset os = Some (err, os') ->
  err <> 0 -> err < 0.
Proof.
  induction fuel as [|fuel IH]; intros fd data size offset os err os' Hrun Herr;
    simpl in Hrun; destruct (size =? 0) eqn:Hz; try discriminate;
    try (inversion Hrun; subst; lia).
  apply Z.eqb_neq in Hz.
  destruct (pwrite fd data size (to_off_t offset) os) as [n os1] eqn:Hw.
  destruct (n <=? 0) eqn:Hn; [|by eapply IH].
  apply Z.leb_le in Hn.
  pose proof (pwrite_nonpos_errno _ _ _ _ _ _ _ Hw Hn Hz) as Hpos.
  inversion Hrun; subst.
  rewrite (proj2 (Z.eqb_neq (- os_errno os') 0)) by lia. lia.
Qed.

Lemma blob_write_low_level_neg fd data size offset os err os' :
  blob_write_low_level fd data size offset os = (err, os') ->
  err <> 0 -> err < 0.
Proof.
  unfold blob_write_low_level. intros Hrun Herr.
  destruct (blob_write_low_level_loop _ _ _ _ _ _) as [[e o]|] eqn:Hloop.
  - inversion Hrun; subst. by eapply blob_write_low_level_loop_neg.
  - inversion Hrun. unfold EINVAL. lia.
Qed.

(** X1: a low-level write that returns 0 has stored the first [size]
    bytes of the buffer at [offset], however many [pwrite] calls the
    system needed; no other file has changed and [errno] is as it was. *)
Theorem low_level_write_stores_whole_buffer fd data size offset os os' :
  blob_write_low_level fd data size offset os = (0, os') ->
  0 < to_size_t size ->
  exists f,
    os_files os !! fd = Some f /\
    to_size_t size <= Z.of_nat (length data) /\
    os_files os' !! fd =
      Some (write_at f (Z.to_nat (to_size_t offset))
              (take (Z.to_nat (to_size_t size)) data)) /\
    (forall fd', fd' <> fd -> os_files os' !! fd' = os_files os !! fd') /\
    os_errno os' = os_errno os.
Proof.
  intros Hrun Hsize.
  destruct (blob_write_low_level_ok _ _ _ _ _ _ Hrun) as (Hlen & _ & Hpos).
  destruct (Hpos Hsize) as (f & Hf & _ & ->).
  exists f. split; [done|]. split; [done|].
  split; [apply os_files_set_file|]. split; [|done].
  intros fd' Hne. by apply os_files_set_file_ne.
Qed.

Lemma low_level_write_stores_whole_buffer_witness :
  exists f,
    os_files (sample_os 2) !! 3 = Some f /\
    to_size_t 5 <= Z.of_nat (length hello) /\
    os_files (snd sample_low_level) !! 3 =
      Some (write_at f (Z.to_nat (to_size_t 7))
              (take (Z.to_nat (to_size_t 5)) hello)) /\
    (forall fd', fd' <> 3 -> os_files (snd sample_low_level) !! fd' =
                             os_files (sample_os 2) !! fd') /\
    os_errno (snd sample_low_level) = os_errno (sample_os 2).
Proof.
  assert (H1 : blob_write_low_level 3 hello 5 7 (sample_os 2) =
               (0, snd sample_low_level)) by by_evaluation.
  assert (H2 : 0 < to_size_t 5) by by_evaluation.
  exact (low_level_write_stores_whole_buffer 3 hello 5 7 (sample_os 2)
           (snd sample_low_level) H1 H2).
Defined.

(** X2: a low-level write that fails returns the negated [errno] of the
    [pwrite] that failed, a negative number; what it stored before
    failing lies at [offset] or beyond, and only in its own file. *)
Theorem low_level_write_failure_is_negated_errno fd data size offset os err os' :
  blob_write_low_level fd data size offset os = (err, os') -> err <> 0 ->
  err = - os_errno os' /\ err < 0 /\
  os_extends fd (Z.to_nat (to_size_t offset)) os os'.
Proof.
  intros Hrun Herr.
  split; [by apply (blob_write_low_level_err _ _ _ _ _ _ _ Hrun)|].
  split; [by apply (blob_write_low_level_neg _ _ _ _ _ _ _ Hrun)|].
  change os' with (snd (err, os')). rewrite <- Hrun.
  apply blob_write_low_level_extends.
  pose proof (to_size_t_range offset). lia.
Qed.

Lemma low_level_write_failure_is_negated_errno_witness :
  - EBADF = - os_errno (snd sample_low_level_bad) /\ - EBADF < 0 /\
  os_extends 9 (Z.to_nat (to_size_t 7)) (sample_os 2) (snd sample_low_level_bad).
Proof.
  assert (H1 : blob_write_low_level 9 hello 5 7 (sample_os 2) =
               (- EBADF, snd sample_low_level_bad)) by by_evaluation.
  assert (H2 : - EBADF <> 0) by by_evaluation.
  exact (low_level_write_failure_is_negated_errno 9 hello 5 7 (sample_os 2)
           (- EBADF) (snd sample_low_level_bad) H1 H2).
Defined.

(** ** [blob_write_raw], whatever it returns *)

Lemma blob_write_raw_pad_extends fuel :
  forall fd bsize size offset os r (off : nat),
  - 2 ^ 31 <= size < 2 ^ 31 -> Z.of_nat off <= to_size_t offset ->
  blob_write_raw_pad fuel fd bsize size offset os = Some r ->
  os_extends fd off os (snd r).
Proof.
  induction fuel as [|fuel IH];
    intros fd bsize size offset os r off Hsize Hoff Hrun;
    simpl in Hrun; destruct (negb (size =? 0) && (size <? bsize)) eqn:Hcond;
    try discriminate; try (inversion Hrun; subst; apply os_extends_refl).
  apply andb_true_iff in Hcond. rewrite negb_true_iff, Z.eqb_neq in Hcond.
  set (sz := if to_uint size >? sizeof_blob_empty_buf
             then sizeof_blob_empty_buf else to_uint size) in *.
  assert (Hsz : 0 < sz <= 40960).
  { unfold sz, sizeof_blob_empty_buf. rewrite Z.gtb_ltb.
    destruct (Z.ltb_spec 40960 (to_uint size)); int_lia. }
  destruct (blob_write_low_level fd blob_empty_buf sz offset os) as [err os1] eqn:Hw.
  assert (Hstep : os_extends fd off os os1).
  { change os1 with (snd (err, os1)). rewrite <- Hw.
    by apply blob_write_low_level_extends. }
  destruct (negb (err =? 0)) eqn:Herr; [by inversion Hrun; subst|].
  apply negb_false_iff, Z.eqb_eq in Herr. subst err.
  apply blob_write_low_level_ok in Hw. destruct Hw as (_ & _ & Hw).
  rewrite (to_size_t_id sz) in Hw by int_lia.
  destruct Hw as (f & _ & Hlim & _); [lia|].
  assert (Hlimit : file_limit os <= 2 ^ 63 - 1) by (unfold file_limit, OFF_MAX; lia).
  apply (os_extends_trans _ _ _ os1); [done|].
  apply (IH fd bsize (to_int (size - sz)) (to_off_t (offset + sz)) os1 r off);
    [int_lia|int_lia|done].
Qed.

Lemma blob_write_raw_pad_neg fuel : forall fd bsize size offset os err offset' os',
  blob_write_raw_pad fuel fd bsize size offset os = Some (err, offset', os') ->
  err <> 0 -> err < 0.
Proof.
  induction fuel as [|fuel IH]; intros fd bsize size offset os err offset' os' Hrun Herr;
    simpl in Hrun; destruct (negb (size =? 0) && (size <? bsize));
    try discriminate; try (inversion Hrun; subst; lia).
  destruct (blob_write_low_level _ _ _ _ _) as [e os1] eqn:Hw.
  destruct (negb (e =? 0)) eqn:He; [|by eapply IH].
  apply negb_true_iff, Z.eqb_neq in He. inversion Hrun; subst.
  by apply (blob_write_low_level_neg _ _ _ _ _ _ _ Hw).
Qed.

Section raw.
Context `{E : Externals}.

Lemma log_fd_set_log_tail hist o b : log_fd (set_log_tail hist o b) hist = log_fd b hist.
Proof. unfold log_fd, set_log_tail. by destruct (hist =? 0). Qed.

Lemma blob_write_raw_extends b hist io data os :
  os_extends (log_fd b hist) (Z.to_nat (to_size_t (log_tail b hist))) os
    (snd (blob_write_raw b hist io data os)).
Proof.
  unfold blob_write_raw, log_tail, log_fd.
  set (tf := if hist =? 0 then data_offset b else history_offset b).
  set (fd := if hist =? 0 then datafd b else historyfd b).
  set (hdr := blob_disk_control_bytes _).
  pose proof sizeof_blob_disk_control_range as Hso.
  pose proof (to_size_t_range tf) as Htf.
  pose proof (to_size_t_range (io_size io)) as Hsz.
  set (off := Z.to_nat (to_size_t tf)).
  (* the header *)
  destruct (blob_write_low_level fd hdr _ _ os) as [e1 os1] eqn:Hw1.
  assert (H1 : os_extends fd off os os1).
  { change os1 with (snd (e1, os1)). rewrite <- Hw1.
    apply blob_write_low_level_extends. unfold off.
    rewrite to_off_t_size_t. assert (to_size_t (to_off_t tf) = to_size_t tf) by int_lia.
    lia. }
  destruct (negb (e1 =? 0)) eqn:He1; [done|].
  apply negb_false_iff, Z.eqb_eq in He1. subst e1.
  apply blob_write_low_level_ok in Hw1. destruct Hw1 as (_ & _ & Hw1).
  rewrite (to_size_t_id sizeof_blob_disk_control) in Hw1 by int_lia.
  destruct Hw1 as (f & _ & Hl1 & _); [lia|].
  assert (Hlimit : file_limit os <= 2 ^ 63 - 1) by (unfold file_limit, OFF_MAX; lia).
  assert (Hofs : to_size_t (to_off_t (to_size_t tf)) = to_size_t tf) by int_lia.
  rewrite Hofs in Hl1.
  assert (Hlim1 : file_limit os1 = file_limit os) by by apply (os_extends_file_limit fd off).
  (* the payload *)
  set (o2 := to_off_t (to_off_t (to_size_t tf) + sizeof_blob_disk_control)).
  assert (Ho2 : to_size_t o2 = to_size_t tf + sizeof_blob_disk_control)
    by (unfold o2; int_lia).
  destruct (blob_write_low_level fd data _ o2 os1) as [e2 os2] eqn:Hw2.
  assert (H2 : os_extends fd off os1 os2).
  { change os2 with (snd (e2, os2)). rewrite <- Hw2.
    apply blob_write_low_level_extends. unfold off. lia. }
  assert (H12 : os_extends fd off os os2) by by apply (os_extends_trans _ _ _ os1).
  destruct (negb (e2 =? 0)) eqn:He2; [done|].
  apply negb_false_iff, Z.eqb_eq in He2. subst e2.
  assert (Hl2 : to_size_t o2 + to_size_t (io_size io) <= file_limit os).
  { apply blob_write_low_level_ok in Hw2. destruct Hw2 as (_ & _ & Hw2).
    destruct (Z.eq_dec (to_size_t (io_size io)) 0) as [Hz|Hnz]; [lia|].
    destruct Hw2 as (f2 & _ & Hl2 & _); lia. }
  (* the padding *)
  set (o3 := to_off_t (o2 + to_size_t (io_size io))).
  assert (Ho3 : to_size_t o3 = to_size_t o2 + to_size_t (io_size io)).
  { unfold o3. clear - Hl2 Hlimit Ho2 Hso Htf Hsz. int_lia. }
  match goal with
  | |- context [match ?p with Some _ => _ | None => _ end] =>
    destruct p as [[[e3 offset'] os3]|] eqn:Hpad
  end; [|done].
  assert (H3 : os_extends fd off os2 os3).
  { destruct (to_int _ =? 0).
    - inversion Hpad; subst. apply os_extends_refl.
    - change os3 with (snd (e3, offset', os3)).
      eapply blob_write_raw_pad_extends; [| |exact Hpad]; [int_lia|].
      unfold off. lia. }
  assert (H123 : os_extends fd off os os3) by by apply (os_extends_trans _ _ _ os2).
  destruct (negb (e3 =? 0)); [done|].
  unfold dnet_hash_replace. simpl. done.
Qed.

Lemma blob_write_raw_neg b hist io data os err b' os' :
  blob_write_raw b hist io data os = (err, b', os') -> err <> 0 -> err < 0.
Proof.
  unfold blob_write_raw. intros Hrun Herr.
  destruct (blob_write_low_level _ _ _ _ os) as [e1 os1] eqn:Hw1.
  destruct (negb (e1 =? 0)) eqn:He1.
  { apply negb_true_iff, Z.eqb_neq in He1. inversion Hrun; subst.
    by apply (blob_write_low_level_neg _ _ _ _ _ _ _ Hw1). }
  destruct (blob_write_low_level _ data _ _ os1) as [e2 os2] eqn:Hw2.
  destruct (negb (e2 =? 0)) eqn:He2.
  { apply negb_true_iff, Z.eqb_neq in He2. inversion Hrun; subst.
    by apply (blob_write_low_level_neg _ _ _ _ _ _ _ Hw2). }
  match type of Hrun with
  | context [match ?p with Some _ => _ | None => _ end] =>
    destruct p as [[[e3 offset'] os3]|] eqn:Hpad
  end.
  - destruct (negb (e3 =? 0)) eqn:He3.
    + apply negb_true_iff, Z.eqb_neq in He3. inversion Hrun; subst.
      destruct (to_int _ =? 0); [inversion Hpad; subst; lia|].
      by eapply blob_write_raw_pad_neg.
    + unfold dnet_hash_replace in Hrun. simpl in Hrun. inversion Hrun; lia.
  - inversion Hrun. unfold EINVAL. lia.
Qed.

(** The two ways [blob_write_raw] can end, as far as the backend goes. *)
Lemma blob_write_raw_backend b hist io data os err b' os' :
  blob_write_raw b hist io data os = (err, b', os') ->
  (err <> 0 /\ b' = b) \/
  (err = 0 /\
   exists (f : list byte) (pad : nat),
     let tail := to_size_t (log_tail b hist) in
     let len := sizeof_blob_disk_control + to_size_t (io_size io) + Z.of_nat pad in
     let key := blob_key (io_origin io) (c_bool hist) in
     os_files os !! log_fd b hist = Some f /\
     to_size_t (io_size io) <= Z.of_nat (length data) /\
     tail + len <= file_limit os /\
     os' = set_file (log_fd b hist)
             (write_at f (Z.to_nat tail) (blob_record io data pad)) os /\
     b' = set_log_tail hist (tail + len)
            (set_hash
               (<[key := {| rc_key := key; rc_offset := tail; rc_size := len |}]>
                  (hash b)) b)).
Proof.
  intros Hrun. destruct (Z.eq_dec err 0) as [->|Hne].
  - right. split; [done|].
    destruct (blob_write_raw_ok _ _ _ _ _ _ _ Hrun)
      as (f & pad & Hf & Hdata & Hlim & Hos & Hb & _).
    exists f, pad. cbv zeta. repeat split; done.
  - left. split; [done|]. by apply (blob_write_raw_err _ _ _ _ _ _ _ _ Hrun).
Qed.

End raw.

(** X3: an append that fails returns a negative error code with [errno]
    set, and leaves the tails and the index of the backend exactly as
    they were. *)
Theorem failed_append_keeps_index_and_tails `{E : Externals}
    b hist io data os err b' os' :
  blob_write_raw b hist io data os = (err, b', os') -> err <> 0 ->
  b' = b /\ err < 0 /\ os_errno os' <> 0.
Proof.
  intros Hrun Herr.
  destruct (blob_write_raw_err _ _ _ _ _ _ _ _ Hrun Herr) as [Hno Hb].
  split; [done|]. split; [|done].
  by apply (blob_write_raw_neg _ _ _ _ _ _ _ _ Hrun).
Qed.

Lemma failed_append_keeps_index_and_tails_witness :
  snd (fst sample_append_full) = sample_backend 64 0 /\ - ENOSPC < 0 /\
  os_errno (snd sample_append_full) <> 0.
Proof.
  assert (H1 : blob_write_raw (H := sample_externals) (sample_backend 64 0) 0
                 (sample_io Byte.x01 0 0 10) sample_payload sample_os_full =
               (- ENOSPC, snd (fst sample_append_full), snd sample_append_full)).
  { change (blob_write_raw (H := sample_externals) (sample_backend 64 0) 0
              (sample_io Byte.x01 0 0 10) sample_payload sample_os_full)
      with sample_append_full.
    assert (Hfst : fst (fst sample_append_full) = - ENOSPC) by by_evaluation.
    rewrite <- Hfst. clear. by destruct sample_append_full as [[e b] o]. }
  assert (H2 : - ENOSPC <> 0) by by_evaluation.
  pose proof (failed_append_keeps_index_and_tails (E := sample_externals)
           (sample_backend 64 0) 0 (sample_io Byte.x01 0 0 10) sample_payload
           sample_os_full (- ENOSPC) (snd (fst sample_append_full))
           (snd sample_append_full) H1 H2) as Hw.
  exact Hw.
Defined.

(** X4: whatever [blob_write_raw] returns, it has written only to the
    file of its log, and there only at the tail or beyond: every byte
    below the tail is as it was, the file has not shrunk, and the other
    files and the limits of the system are untouched. *)
Theorem append_writes_only_past_the_tail `{E : Externals} b hist io data os :
  os_extends (log_fd b hist) (Z.to_nat (to_size_t (log_tail b hist))) os
    (snd (blob_write_raw b hist io data os)).
Proof. apply blob_write_raw_extends. Qed.

(** ** The handlers, whatever they return *)

Lemma pread_extends fd count offset os fd' off :
  os_extends fd' off os (snd (pread fd count offset os)).
Proof.
  destruct (pread_files fd count offset os) as (Hf & Ha & Hb & Hc).
  unfold os_extends. repeat split; try done.
  - intros fd'' _. by rewrite Hf.
  - apply fd_extends_same. by rewrite Hf.
Qed.

Section handlers.
Context `{E : Externals}.

(** Lines 199-229 write to the history file only, and do not shorten it. *)
Lemma blob_write_history_meta_old_extends b ctl size os :
  os_extends (historyfd b) 0 os
    match blob_write_history_meta_old b ctl size os with
    | inl (_, os1) => os1
    | inr (_, _, os1) => os1
    end.
Proof.
  unfold blob_write_history_meta_old.
  destruct (pread (historyfd b) size (to_off_t (rc_offset ctl)) os)
    as [[n hdata] os1] eqn:Hr.
  assert (H1 : os_extends (historyfd b) 0 os os1).
  { change os1 with (snd (n, hdata, os1)). rewrite <- Hr. apply pread_extends. }
  destruct (negb (to_int n =? to_int size)); [done|].
  match goal with
  | |- context [pwrite ?fd ?buf ?count ?offset os1] =>
    pose proof (pwrite_extends fd buf count offset os1 0 ltac:(lia)) as H2;
    destruct (pwrite fd buf count offset os1) as [n2 os2]
  end.
  simpl in H2.
  assert (H12 : os_extends (historyfd b) 0 os os2)
    by by apply (os_extends_trans _ _ _ os1).
  by destruct (negb _).
Qed.

(** The two ways [blob_write_history_meta] can end: without an append,
    the backend as it was; or with what its one [blob_write_raw] on the
    history log returns. *)
Lemma blob_write_history_meta_shape b io m data os err b' os' :
  blob_write_history_meta b io m data os = (err, b', os') ->
  exists os1,
    os_extends (historyfd b) 0 os os1 /\
    (b' = b /\ os' = os1 \/
     exists io' new e,
       io_origin io' = io_origin io /\
       blob_write_raw b 1 io' new os1 = (e, b', os') /\ (e = 0 <-> err = 0)).
Proof.
  unfold blob_write_history_meta. intros Hrun.
  destruct (dnet_hash_lookup (hash b) (blob_key (io_origin io) 1)) as [e0 ctl].
  set (size := if e0 =? 0 then to_size_t (rc_size ctl) else 0) in *.
  destruct (negb (malloc_ok size os)).
  { exists os. split; [apply os_extends_refl|]. left. by inversion Hrun. }
  assert (Hold : exists (old : (Z * os_state) + (list byte * Z * os_state)),
    old = (if e0 =? 0 then blob_write_history_meta_old b ctl size os
           else inr ([], size, os)) /\
    os_extends (historyfd b) 0 os
      match old with inl (_, os1) => os1 | inr (_, _, os1) => os1 end).
  { eexists. split; [reflexivity|].
    destruct (e0 =? 0); [apply blob_write_history_meta_old_extends|].
    apply os_extends_refl. }
  destruct Hold as (old & Hdef & Hext). rewrite <- Hdef in Hrun. clear Hdef.
  destruct old as [[e1 os1]|[[hdata size1] os1]].
  { exists os1. split; [done|]. left. by inversion Hrun. }
  exists os1. split; [done|].
  destruct (backend_process_meta io hdata size1 m data) as [[new size2]|].
  2: { left. by inversion Hrun. }
  right.
  destruct (blob_write_raw b 1 _ new os1) as [[e b1] os2] eqn:Hw.
  destruct (negb (e =? 0)) eqn:He.
  - apply negb_true_iff, Z.eqb_neq in He.
    destruct (blob_write_raw_err _ _ _ _ _ _ _ _ Hw He) as [Hno _].
    inversion Hrun; subst.
    eexists _, new, e. split; [|split; [exact Hw|]]; [done|]. split; lia.
  - apply negb_false_iff, Z.eqb_eq in He. inversion Hrun; subst.
    eexists _, new, 0. split; [|split; [exact Hw|]]; done.
Qed.

Lemma blob_write_history_meta_extends b io m data os :
  os_extends (historyfd b) 0 os (snd (blob_write_history_meta b io m data os)).
Proof.
  destruct (blob_write_history_meta b io m data os) as [[err b'] os'] eqn:Hrun.
  destruct (blob_write_history_meta_shape _ _ _ _ _ _ _ _ Hrun)
    as (os1 & H1 & [(_ & ->)|(io' & new & e & _ & Hw & _)]);
    try done.
  apply (os_extends_trans _ _ _ os1); [done|]. simpl.
  pose proof (blob_write_raw_extends b 1 io' new os1) as H2. rewrite Hw in H2.
  apply (os_extends_le _ _ 0) in H2; [done|lia].
Qed.

Lemma blob_write_history_extends b io data os :
  os_extends (historyfd b) 0 os (snd (blob_write_history b io data os)).
Proof.
  unfold blob_write_history, backend_write_history.
  destruct (backend_split_meta io data) as [m d].
  apply blob_write_history_meta_extends.
Qed.

(** What a failed or successful append does to the fields of the backend. *)
Lemma blob_write_raw_fields b hist io data os :
  let b' := snd (fst (blob_write_raw b hist io data os)) in
  datafd b' = datafd b /\ historyfd b' = historyfd b /\
  data_bsize b' = data_bsize b /\ history_bsize b' = history_bsize b /\
  (hist <> 0 -> data_offset b' = data_offset b) /\
  (hist = 0 -> history_offset b' = history_offset b) /\
  (forall key, key <> blob_key (io_origin io) (c_bool hist) ->
     hash b' !! key = hash b !! key).
Proof.
  destruct (blob_write_raw b hist io data os) as [[err b'] os'] eqn:Hrun.
  destruct (blob_write_raw_backend _ _ _ _ _ _ _ _ Hrun)
    as [[_ ->]|(_ & f & pad & _ & _ & _ & _ & ->)]; simpl.
  { repeat split; done. }
  unfold set_log_tail.
  destruct (hist =? 0) eqn:Hh; simpl;
    repeat split; try done; try (intros Hc; apply Z.eqb_eq in Hh; lia);
    try (intros Hc; apply Z.eqb_neq in Hh; lia);
    intros key Hne; by apply lookup_insert_ne.
Qed.

Lemma blob_key_kinds_differ origin origin' : blob_key origin 0 <> blob_key origin' 1.
Proof.
  unfold blob_key. intros Heq.
  apply app_inj_1 in Heq; [|by rewrite !length_memcpy_id].
  destruct Heq as [_ Heq]. discriminate.
Qed.

Lemma blob_write_history_meta_fields b io m data os :
  let b' := snd (fst (blob_write_history_meta b io m data os)) in
  datafd b' = datafd b /\ historyfd b' = historyfd b /\
  data_bsize b' = data_bsize b /\ history_bsize b' = history_bsize b /\
  data_offset b' = data_offset b /\
  (forall key, key <> blob_key (io_origin io) 1 -> hash b' !! key = hash b !! key).
Proof.
  destruct (blob_write_history_meta b io m data os) as [[err b'] os'] eqn:Hrun.
  destruct (blob_write_history_meta_shape _ _ _ _ _ _ _ _ Hrun)
    as (os1 & H1 & [(-> & _)|(io' & new & e & Ho & Hw & _)]);
    simpl; try by repeat split.
  pose proof (blob_write_raw_fields b 1 io' new os1) as Hf.
  rewrite Hw in Hf. simpl in Hf. rewrite Ho in Hf.
  destruct Hf as (? & ? & ? & ? & Hd & _ & Hk).
  repeat split; try done. by apply Hd.
Qed.

(** [blob_read] writes to no file. *)
Lemma blob_read_files b cmd attr io data os :
  os_files (rd_os (blob_read b cmd attr io data os)) = os_files os /\
  os_max_io (rd_os (blob_read b cmd attr io data os)) = os_max_io os /\
  os_max_file (rd_os (blob_read b cmd attr io data os)) = os_max_file os /\
  os_max_alloc (rd_os (blob_read b cmd attr io data os)) = os_max_alloc os.
Proof.
  unfold blob_read.
  destruct (dnet_hash_lookup _ _) as [err ctl].
  destruct (negb (err =? 0)); [done|].
  destruct (attr_size attr =? sizeof_dnet_io_attr).
  { by destruct (negb (dnet_req_alloc _)). }
  match goal with
  | |- context [pread ?fd ?count ?offset os] =>
    pose proof (pread_files fd count offset os) as Hp;
    destruct (pread fd count offset os) as [[n bs] os1]
  end.
  simpl in Hp. by destruct (to_int n <=? 0).
Qed.

End handlers.

(** X17: only a WRITE changes anything: after a READ, LIST, STAT, DEL or
    unknown command the index, the tails and every file are as they were
    before it. *)
Theorem only_write_changes_the_store `{E : Externals} r cmd attr io data os :
  attr_cmd attr <> DNET_CMD_WRITE ->
  snd (fst (blob_backend_command_handler r cmd attr io data os)) = r /\
  os_files (snd (blob_backend_command_handler r cmd attr io data os)) = os_files os.
Proof.
  intros Hcmd. unfold blob_backend_command_handler.
  destruct (attr_cmd attr); try done. simpl.
  split; [done|]. apply blob_read_files.
Qed.

Lemma only_write_changes_the_store_witness :
  let attr := {| attr_size := 348; attr_flags := 0; attr_cmd := DNET_CMD_READ |} in
  let cmd := {| cmd_id := sample_id Byte.x01; cmd_flags := 0; cmd_status := 0;
                cmd_trans := 7; cmd_size := 0 |} in
  snd (fst (blob_backend_command_handler (H := sample_externals)
              (snd (fst sample_two_ids)) cmd attr (sample_io Byte.x01 0 0 100)
              (replicate 200 Byte.x00) (snd sample_two_ids))) =
    snd (fst sample_two_ids) /\
  os_files (snd (blob_backend_command_handler (H := sample_externals)
              (snd (fst sample_two_ids)) cmd attr (sample_io Byte.x01 0 0 100)
              (replicate 200 Byte.x00) (snd sample_two_ids))) =
    os_files (snd sample_two_ids).
Proof.
  intros attr cmd.
  assert (H1 : attr_cmd attr <> DNET_CMD_WRITE) by by_evaluation.
  exact (only_write_changes_the_store (E := sample_externals)
           (snd (fst sample_two_ids)) cmd attr (sample_io Byte.x01 0 0 100)
           (replicate 200 Byte.x00) (snd sample_two_ids) H1).
Defined.

(** ** What every command keeps *)

Section preserved.
Context `{E : Externals}.

(** A property of the store that every [blob_write_raw] keeps, and every
    write into the history file that leaves the backend alone, is kept by
    the handlers. *)
Variable P : blob_backend -> os_state -> Prop.

Hypothesis P_append : forall b hist io data os,
  P b os ->
  P (snd (fst (blob_write_raw b hist io data os)))
    (snd (blob_write_raw b hist io data os)).

Hypothesis P_mark : forall b os os',
  P b os -> os_extends (historyfd b) 0 os os' -> P b os'.

Lemma blob_write_history_meta_preserves b io m data os :
  P b os ->
  P (snd (fst (blob_write_history_meta b io m data os)))
    (snd (blob_write_history_meta b io m data os)).
Proof.
  intros HP.
  destruct (blob_write_history_meta b io m data os) as [[err b'] os'] eqn:Hrun.
  destruct (blob_write_history_meta_shape _ _ _ _ _ _ _ _ Hrun)
    as (os1 & H1 & [(-> & ->)|(io' & new & e & _ & Hw & _)]); simpl.
  - by apply (P_mark b os).
  - pose proof (P_append b 1 io' new os1 (P_mark b os os1 HP H1)) as Hs.
    by rewrite Hw in Hs.
Qed.

Lemma blob_write_history_preserves b io data os :
  P b os ->
  P (snd (fst (blob_write_history b io data os)))
    (snd (blob_write_history b io data os)).
Proof.
  unfold blob_write_history, backend_write_history.
  destruct (backend_split_meta io data) as [m d].
  apply blob_write_history_meta_preserves.
Qed.

Lemma blob_write_preserves r io data os :
  P r os ->
  P (snd (fst (blob_write r io data os))) (snd (blob_write r io data os)).
Proof.
  intros HP. unfold blob_write.
  destruct (negb (Z.land (io_flags io) DNET_IO_FLAGS_HISTORY =? 0)).
  - pose proof (blob_write_history_preserves r io data os HP) as Hs.
    destruct (blob_write_history r io data os) as [[err r1] os1].
    by destruct (negb (err =? 0)).
  - pose proof (P_append r 0 io data os HP) as Hs.
    destruct (blob_write_raw r 0 io data os) as [[err r1] os1].
    destruct (negb (err =? 0)); [done|].
    destruct (Z.land (io_flags io) DNET_IO_FLAGS_NO_HISTORY_UPDATE =? 0); [|done].
    match goal with
    | |- context [blob_write_history r1 ?io' ?e os1] =>
      pose proof (blob_write_history_preserves r1 io' e os1 Hs) as Hs2;
      destruct (blob_write_history r1 io' e os1) as [[err2 r2] os2]
    end.
    by destruct (negb (err2 =? 0)).
Qed.

Lemma blob_backend_command_handler_preserves r cmd attr io data os :
  P r os ->
  P (snd (fst (blob_backend_command_handler r cmd attr io data os)))
    (snd (blob_backend_command_handler r cmd attr io data os)).
Proof.
  intros HP. unfold blob_backend_command_handler.
  destruct (attr_cmd attr); try done.
  - by apply blob_write_preserves.
  - simpl. apply (P_mark r os); [done|].
    destruct (blob_read_files r cmd attr io data os) as (Hf & Ha & Hb & Hc).
    unfold os_extends. repeat split; try done.
    + intros fd' _. by rewrite Hf.
    + apply fd_extends_same. by rewrite Hf.
Qed.

End preserved.

Section kept.
Context `{E : Externals}.

Lemma log_tail_c_bool b hist : log_tail b (c_bool hist) = log_tail b hist.
Proof. unfold log_tail, c_bool. by destruct (hist =? 0). Qed.

Lemma log_fd_c_bool b hist : log_fd b (c_bool hist) = log_fd b hist.
Proof. unfold log_fd, c_bool. by destruct (hist =? 0). Qed.

(** The tail of a log does not move back. *)
Lemma blob_write_raw_tail_mono b hist io data os h :
  to_size_t (log_tail b h) <=
  to_size_t (log_tail (snd (fst (blob_write_raw b hist io data os))) h).
Proof.
  destruct (blob_write_raw b hist io data os) as [[err b'] os'] eqn:Hrun.
  destruct (blob_write_raw_backend _ _ _ _ _ _ _ _ Hrun)
    as [[_ ->]|(_ & f & pad & _ & _ & Hlim & _ & ->)]; simpl; [lia|].
  assert (Hlimit : file_limit os <= 2 ^ 63 - 1) by (unfold file_limit, OFF_MAX; lia).
  pose proof sizeof_blob_disk_control_range as Hso.
  pose proof (to_size_t_range (io_size io)) as Hsz.
  pose proof (to_size_t_range (log_tail b hist)) as Ht.
  unfold set_log_tail, log_tail in *.
  destruct (hist =? 0), (h =? 0); simpl; try lia;
    rewrite (to_size_t_id (_ + _)) by int_lia; lia.
Qed.

End kept.

(** X15: a WRITE with the history flag never touches the data log,
    whatever it returns: the data file, the data tail and every index
    entry of a data key are as they were.  The history hook is handed the
    request once, as section 4.3 of the specification has it. *)
Theorem history_write_leaves_the_data_log `{E : Externals} r io data os :
  Z.land (io_flags io) DNET_IO_FLAGS_HISTORY <> 0 ->
  datafd r <> historyfd r ->
  os_files (snd (blob_write r io data os)) !! datafd r = os_files os !! datafd r /\
  data_offset (snd (fst (blob_write r io data os))) = data_offset r /\
  forall origin,
    hash (snd (fst (blob_write r io data os))) !! blob_key origin 0 =
    hash r !! blob_key origin 0.
Proof.
  intros Hflag Hfd. unfold blob_write.
  rewrite (proj2 (Z.eqb_neq _ _) Hflag). simpl.
  unfold blob_write_history, backend_write_history.
  destruct (backend_split_meta io data) as [m d].
  pose proof (blob_write_history_meta_extends r io m d os) as (_ & _ & _ & Ho & _).
  pose proof (blob_write_history_meta_fields r io m d os) as (_ & _ & _ & _ & Hd & Hk).
  destruct (blob_write_history_meta r io m d os) as [[err r1] os1].
  simpl in *.
  assert (Hgoal : os_files os1 !! datafd r = os_files os !! datafd r /\
                  data_offset r1 = data_offset r /\
                  forall origin, hash r1 !! blob_key origin 0 =
                                 hash r !! blob_key origin 0).
  { split; [by apply Ho|]. split; [done|].
    intros origin. apply Hk. apply blob_key_kinds_differ. }
  by destruct (negb (err =? 0)).
Qed.

Lemma history_write_leaves_the_data_log_witness :
  os_files (snd (blob_write (H := sample_externals) (sample_backend 64 0)
                   (sample_io Byte.x01 4 0 5) hello (sample_os 4096)))
    !! datafd (sample_backend 64 0) =
    os_files (sample_os 4096) !! datafd (sample_backend 64 0) /\
  data_offset (snd (fst (blob_write (H := sample_externals) (sample_backend 64 0)
                           (sample_io Byte.x01 4 0 5) hello (sample_os 4096)))) =
    data_offset (sample_backend 64 0) /\
  forall origin,
    hash (snd (fst (blob_write (H := sample_externals) (sample_backend 64 0)
                      (sample_io Byte.x01 4 0 5) hello (sample_os 4096))))
      !! blob_key (H := sample_externals) origin 0 =
    hash (sample_backend 64 0) !! blob_key (H := sample_externals) origin 0.
Proof.
  assert (H1 : Z.land (io_flags (sample_io Byte.x01 4 0 5))
                 (DNET_IO_FLAGS_HISTORY (Externals := sample_externals)) <> 0)
    by by_evaluation.
  assert (H2 : datafd (sample_backend 64 0) <> historyfd (sample_backend 64 0))
    by by_evaluation.
  exact (history_write_leaves_the_data_log (E := sample_externals)
           (sample_backend 64 0) (sample_io Byte.x01 4 0 5) hello (sample_os 4096)
           H1 H2).
Defined.

(** X18: the data log is append-only.  Whatever command the handler runs
    and whatever it returns, every byte of the data file below the data
    tail is as it was and the file has not shrunk; the history file has
    not shrunk; no other file has changed. *)
Theorem data_log_is_append_only `{E : Externals} r cmd attr io data os :
  datafd r <> historyfd r ->
  fd_extends (datafd r) (Z.to_nat (to_size_t (data_offset r))) os
    (snd (blob_backend_command_handler r cmd attr io data os)) /\
  fd_extends (historyfd r) 0 os
    (snd (blob_backend_command_handler r cmd attr io data os)) /\
  forall fd, fd <> datafd r -> fd <> historyfd r ->
    os_files (snd (blob_backend_command_handler r cmd attr io data os)) !! fd =
    os_files os !! fd.
Proof.
  intros Hfd.
  set (P := fun (b : blob_backend) (o : os_state) =>
    datafd b = datafd r /\ historyfd b = historyfd r /\
    to_size_t (data_offset r) <= to_size_t (data_offset b) /\
    fd_extends (datafd r) (Z.to_nat (to_size_t (data_offset r))) os o /\
    fd_extends (historyfd r) 0 os o /\
    forall fd, fd <> datafd r -> fd <> historyfd r ->
      os_files o !! fd = os_files os !! fd).
  assert (HP : P (snd (fst (blob_backend_command_handler r cmd attr io data os)))
                 (snd (blob_backend_command_handler r cmd attr io data os))).
  { apply blob_backend_command_handler_preserves.
    - (* an append *)
      intros b hist io0 data0 o (Hd & Hh & Ht & Hfd1 & Hfh1 & Hoth).
      pose proof (blob_write_raw_fields b hist io0 data0 o) as (Hd' & Hh' & _).
      pose proof (blob_write_raw_tail_mono b hist io0 data0 o 0) as Hmono.
      pose proof (blob_write_raw_extends b hist io0 data0 o) as Hext.
      change (log_tail ?x 0) with (data_offset x) in Hmono.
      destruct (blob_write_raw b hist io0 data0 o) as [[err b'] o']; simpl in *.
      unfold P. split; [congruence|]. split; [congruence|]. split; [lia|].
      split; [|split].
      + apply (fd_extends_trans _ _ _ o); [done|].
        apply (os_extends_fd _ _ _ _ _ _ Hext).
        unfold log_fd, log_tail. destruct (hist =? 0); [right|left; congruence].
        pose proof (to_size_t_range (data_offset r)). lia.
      + apply (fd_extends_trans _ _ _ o); [done|].
        apply (os_extends_fd _ _ _ _ _ _ Hext). right. lia.
      + intros fd H1 H2. rewrite <- Hoth by done.
        destruct Hext as (_ & _ & _ & Ho & _). apply Ho.
        unfold log_fd. destruct (hist =? 0); congruence.
    - (* a write into the history file *)
      intros b o o' (Hd & Hh & Ht & Hfd1 & Hfh1 & Hoth) Hext.
      unfold P. split; [done|]. split; [done|]. split; [done|].
      split; [|split].
      + apply (fd_extends_trans _ _ _ o); [done|].
        apply (os_extends_fd _ _ _ _ _ _ Hext). left. congruence.
      + apply (fd_extends_trans _ _ _ o); [done|].
        apply (os_extends_fd _ _ _ _ _ _ Hext). right. lia.
      + intros fd H1 H2. rewrite <- Hoth by done.
        destruct Hext as (_ & _ & _ & Ho & _). apply Ho. congruence.
    - unfold P. split; [done|]. split; [done|]. split; [lia|].
      split; [apply fd_extends_refl|]. split; [apply fd_extends_refl|done]. }
  destruct HP as (_ & _ & _ & H1 & H2 & H3). by repeat split.
Qed.

Lemma data_log_is_append_only_witness :
  fd_extends (datafd sample_b1)
    (Z.to_nat (to_size_t (data_offset sample_b1))) sample_os1
    (snd (blob_backend_command_handler (H := sample_externals) sample_b1
            sample_cmd sample_write_attr sample_io10 sample_payload' sample_os1)) /\
  fd_extends (historyfd sample_b1) 0 sample_os1
    (snd (blob_backend_command_handler (H := sample_externals) sample_b1
            sample_cmd sample_write_attr sample_io10 sample_payload' sample_os1)) /\
  forall fd, fd <> datafd sample_b1 -> fd <> historyfd sample_b1 ->
    os_files (snd (blob_backend_command_handler (H := sample_externals) sample_b1
                     sample_cmd sample_write_attr sample_io10 sample_payload'
                     sample_os1)) !! fd =
    os_files sample_os1 !! fd.
Proof.
  assert (H1 : datafd sample_b1 <> historyfd sample_b1) by by_evaluation.
  exact (data_log_is_append_only (E := sample_externals) sample_b1 sample_cmd
           sample_write_attr sample_io10 sample_payload' sample_os1 H1).
Defined.

(** ** The index stays inside the files *)

Section bounds.
Context `{E : Externals}.

Lemma log_in_bounds_extends b os os' h :
  log_in_bounds b os h -> fd_extends (log_fd b h) 0 os os' ->
  log_in_bounds b os' h.
Proof.
  intros (Ht & f & Hf & Hlen) Hext. split; [done|].
  unfold fd_extends in Hext. rewrite Hf in Hext.
  destruct Hext as (f' & Hf' & Hl & _). exists f'. split; [done|]. lia.
Qed.

Lemma index_in_bounds_mark b os os' fd :
  index_in_bounds b os -> os_extends fd 0 os os' -> index_in_bounds b os'.
Proof.
  intros (H0 & H1 & Hent) Hext.
  split; [|split; [|done]].
  - apply (log_in_bounds_extends _ os); [done|].
    apply (os_extends_fd _ _ _ _ _ _ Hext). right. lia.
  - apply (log_in_bounds_extends _ os); [done|].
    apply (os_extends_fd _ _ _ _ _ _ Hext). right. lia.
Qed.

Lemma log_in_bounds_append b hist io data os h :
  log_in_bounds b os 0 -> log_in_bounds b os 1 -> h = 0 \/ h = 1 ->
  log_in_bounds (snd (fst (blob_write_raw b hist io data os)))
    (snd (blob_write_raw b hist io data os)) h.
Proof.
  intros H0 H1 Hh.
  assert (Hb : log_in_bounds b os h) by (by destruct Hh as [-> | ->]).
  assert (Hbh : log_in_bounds b os hist).
  { unfold log_in_bounds, log_tail, log_fd in *. by destruct (hist =? 0). }
  pose proof (blob_write_raw_extends b hist io data os) as Hext.
  destruct (blob_write_raw b hist io data os) as [[err b'] os'] eqn:Hrun.
  simpl in *.
  assert (Hfd : fd_extends (log_fd b h) 0 os os').
  { apply (os_extends_fd _ _ _ _ _ _ Hext). right. lia. }
  destruct (blob_write_raw_backend _ _ _ _ _ _ _ _ Hrun)
    as [[_ ->]|(_ & f & pad & Hf & Hdata & Hlim & Hos & ->)].
  { by apply (log_in_bounds_extends _ os). }
  assert (Hlimit : file_limit os <= 2 ^ 63 - 1) by (unfold file_limit, OFF_MAX; lia).
  pose proof sizeof_blob_disk_control_range as Hso.
  pose proof (to_size_t_range (io_size io)) as Hsz.
  destruct Hbh as (Hth & _).
  assert (Ht : to_size_t (log_tail b hist) = log_tail b hist) by int_lia.
  rewrite Ht in *.
  destruct (Bool.eqb (h =? 0) (hist =? 0)) eqn:Hsame.
  - (* the log that was written *)
    assert (Htl : forall x o, log_tail (set_log_tail hist o x) h = o).
    { intros x o. unfold log_tail, set_log_tail.
      destruct (h =? 0), (hist =? 0); simpl in *; done. }
    assert (Hfdeq : forall x o,
      log_fd (set_log_tail hist o (set_hash x b)) h = log_fd b hist).
    { intros x o. unfold log_fd, set_log_tail.
      destruct (h =? 0), (hist =? 0); simpl in *; done. }
    split; [rewrite Htl; lia|].
    rewrite Hfdeq, Htl, Hos, os_files_set_file.
    eexists. split; [done|].
    rewrite length_write_at.
    pose proof (length_blob_record io data pad Hdata). lia.
  - (* the other log *)
    destruct Hb as (Htb & g & Hg & Hlen).
    assert (Htl : forall x o, log_tail (set_log_tail hist o (set_hash x b)) h =
                              log_tail b h).
    { intros x o. unfold log_tail, set_log_tail.
      destruct (h =? 0), (hist =? 0); simpl in *; done. }
    assert (Hfdeq : forall x o,
      log_fd (set_log_tail hist o (set_hash x b)) h = log_fd b h).
    { intros x o. unfold log_fd, set_log_tail.
      destruct (h =? 0), (hist =? 0); simpl in *; done. }
    split; [by rewrite Htl|]. rewrite Hfdeq, Htl.
    unfold fd_extends in Hfd. rewrite Hg in Hfd.
    destruct Hfd as (g' & Hg' & Hl & _). exists g'. split; [done|]. lia.
Qed.

Lemma index_in_bounds_append b hist io data os :
  index_in_bounds b os ->
  index_in_bounds (snd (fst (blob_write_raw b hist io data os)))
    (snd (blob_write_raw b hist io data os)).
Proof.
  intros (H0 & H1 & Hent).
  split; [apply log_in_bounds_append; auto|].
  split; [apply log_in_bounds_append; auto|].
  assert (Hbh : 0 <= log_tail b hist < 2 ^ 63).
  { unfold log_in_bounds, log_tail in *. destruct (hist =? 0); [apply H0|apply H1]. }
  pose proof (fun h => blob_write_raw_tail_mono b hist io data os h) as Hmono.
  destruct (blob_write_raw b hist io data os) as [[err b'] os'] eqn:Hrun.
  simpl in *.
  destruct (blob_write_raw_backend _ _ _ _ _ _ _ _ Hrun)
    as [[_ ->]|(_ & f & pad & Hf & Hdata & Hlim & Hos & Hb')]; [done|].
  assert (Hlimit : file_limit os <= 2 ^ 63 - 1) by (unfold file_limit, OFF_MAX; lia).
  pose proof sizeof_blob_disk_control_range as Hso.
  pose proof (to_size_t_range (io_size io)) as Hsz.
  assert (Ht : to_size_t (log_tail b hist) = log_tail b hist) by int_lia.
  rewrite Ht in *.
  assert (Hnew : log_tail b' hist =
    log_tail b hist + (sizeof_blob_disk_control + to_size_t (io_size io)
                       + Z.of_nat pad)).
  { rewrite Hb'. apply log_tail_set_log_tail. }
  assert (Hgrow : forall h, (h = 0 \/ h = 1) -> log_tail b h <= log_tail b' h).
  { intros h Hh. specialize (Hmono h).
    assert (0 <= log_tail b h < 2 ^ 63) by (destruct Hh as [-> | ->]; [apply H0|apply H1]).
    assert (0 <= log_tail b' h < 2 ^ 63).
    { rewrite Hb'. unfold log_tail, set_log_tail in *.
      destruct (h =? 0), (hist =? 0); simpl; lia. }
    rewrite !to_size_t_id in Hmono by lia. done. }
  intros key ctl Hk. rewrite Hb', hash_set_log_tail in Hk. simpl in Hk.
  destruct (decide (key = blob_key (io_origin io) (c_bool hist))) as [->|Hne].
  - rewrite lookup_insert_eq in Hk. inversion Hk; subst ctl; clear Hk. simpl.
    exists (io_origin io), hist. rewrite log_tail_c_bool, Hnew.
    repeat split; lia.
  - rewrite lookup_insert_ne in Hk by done.
    destruct (Hent key ctl Hk) as (origin & h & -> & Hkey & Hoff & Hsize & Hend).
    exists origin, h. repeat split; try done.
    assert (c_bool h = 0 \/ c_bool h = 1) by (unfold c_bool; destruct (h =? 0); auto).
    specialize (Hgrow (c_bool h) ltac:(done)). lia.
Qed.

End bounds.

(** X19: the handler keeps the index inside the files.  If both tails
    are offsets inside their files and every index entry describes a
    block of at least a header that ends at or below the tail of its log,
    then the same holds after any command, whatever it returns. *)
Theorem handler_keeps_index_in_bounds `{E : Externals} r cmd attr io data os :
  index_in_bounds r os ->
  index_in_bounds (snd (fst (blob_backend_command_handler r cmd attr io data os)))
    (snd (blob_backend_command_handler r cmd attr io data os)).
Proof.
  intros Hinv.
  apply (blob_backend_command_handler_preserves index_in_bounds); [| |done].
  - intros b hist io0 data0 o. apply index_in_bounds_append.
  - intros b o o' Hb Hext. by apply (index_in_bounds_mark b o o' (historyfd b)).
Qed.

Lemma handler_keeps_index_in_bounds_witness :
  index_in_bounds (H := sample_externals)
    (snd (fst (blob_backend_command_handler (H := sample_externals)
                 (sample_backend 64 0) sample_cmd sample_write_attr sample_io10
                 sample_payload (sample_os 4096))))
    (snd (blob_backend_command_handler (H := sample_externals)
            (sample_backend 64 0) sample_cmd sample_write_attr sample_io10
            sample_payload (sample_os 4096))).
Proof.
  assert (H1 : index_in_bounds (H := sample_externals) (sample_backend 64 0)
                 (sample_os 4096)).
  { split; [|split].
    - split; [by_evaluation|]. exists []. by_evaluation.
    - split; [by_evaluation|]. exists []. by_evaluation.
    - intros key ctl Hk. simpl in Hk. rewrite lookup_empty in Hk. discriminate Hk. }
  exact (handler_keeps_index_in_bounds (E := sample_externals) (sample_backend 64 0)
           sample_cmd sample_write_attr sample_io10 sample_payload (sample_os 4096)
           H1).
Defined.

(** ** Reading back *)

Lemma read_at_write_at_inside f off bs k m :
  (k + m <= length bs)%nat ->
  read_at (write_at f off bs) (off + k) m = read_at bs k m.
Proof.
  intros Hle.
  rewrite <- (read_at_read_at (write_at f off bs) off (length bs) k m) by done.
  by rewrite read_at_write_at.
Qed.

Lemma read_at_app_l (a b : list byte) o n :
  (o + n <= length a)%nat -> read_at (a ++ b) o n = read_at a o n.
Proof.
  intros Hle. unfold read_at.
  rewrite drop_app_le by lia. rewrite take_app_le by (rewrite length_drop; lia).
  done.
Qed.

Lemma read_at_app_r (a b : list byte) o n :
  read_at (a ++ b) (length a + o) n = read_at b o n.
Proof. unfold read_at. by rewrite drop_app_add'. Qed.

Lemma read_at_take (l : list byte) sz o n :
  (o + n <= sz)%nat -> read_at (take sz l) o n = read_at l o n.
Proof.
  intros Hle. unfold read_at.
  rewrite skipn_firstn_comm, take_take. f_equal. lia.
Qed.


Section reading_back.
Context `{E : Externals}.

(** The copying path on an indexed block whose requested bytes lie inside
    the file. *)
Lemma blob_read_copy_inside b cmd attr io buf os ctl f :
  hash b !! blob_key (io_origin io)
              (c_bool (Z.land (io_flags io) DNET_IO_FLAGS_HISTORY)) = Some ctl ->
  os_files os !! log_fd b (Z.land (io_flags io) DNET_IO_FLAGS_HISTORY) = Some f ->
  attr_size attr <> sizeof_dnet_io_attr ->
  let size :=
    if to_size_t (io_size io) =? 0
    then to_size_t (rc_size ctl - sizeof_blob_disk_control)
    else to_size_t (io_size io) in
  let offset := rc_offset ctl + sizeof_blob_disk_control + io_offset io in
  0 <= offset -> 0 < size < 2 ^ 31 ->
  size <= to_size_t (attr_size attr - sizeof_dnet_io_attr) ->
  offset + size <= Z.of_nat (length f) -> offset + size < 2 ^ 63 ->
  blob_read b cmd attr io buf os =
    {| rd_err := 0; rd_req := None;
       rd_io := with_size io size;
       rd_attr := {| attr_size := to_size_t (sizeof_dnet_io_attr + size);
                     attr_flags := attr_flags attr; attr_cmd := attr_cmd attr |};
       rd_data := read_at f (Z.to_nat offset) (Z.to_nat size)
                    ++ drop (Z.to_nat size) buf;
       rd_os := os |}.
Proof.
  intros Hctl Hf Hattr size offset Hoff Hsize Hroom Hlen Hflen.
  unfold blob_read, dnet_hash_lookup. rewrite Hctl. simpl.
  rewrite (proj2 (Z.eqb_neq _ _) Hattr).
  fold size.
  replace (if size >? to_size_t (attr_size attr - sizeof_dnet_io_attr)
           then to_size_t (attr_size attr - sizeof_dnet_io_attr) else size)
    with size by (rewrite Z.gtb_ltb; destruct (Z.ltb_spec
      (to_size_t (attr_size attr - sizeof_dnet_io_attr)) size); lia).
  fold offset. rewrite (to_off_t_id offset) by lia.
  assert (Hfd : (if negb (Z.land (io_flags io) DNET_IO_FLAGS_HISTORY =? 0)
                 then historyfd b else datafd b) =
                log_fd b (Z.land (io_flags io) DNET_IO_FLAGS_HISTORY)).
  { unfold log_fd. by destruct (Z.land (io_flags io) DNET_IO_FLAGS_HISTORY =? 0). }
  rewrite Hfd. rewrite (pread_full _ _ _ _ f) by (done || lia).
  rewrite (to_int_id size) by lia.
  rewrite (proj2 (Z.leb_gt size 0)) by lia.
  rewrite length_read_at by lia. reflexivity.
Qed.

Lemma c_bool_eqb x y : c_bool x = c_bool y -> (x =? 0) = (y =? 0).
Proof. unfold c_bool. by destruct (x =? 0), (y =? 0). Qed.

(** Where a READ finds the record that an append has just stored. *)
Lemma blob_read_after_append b hist io data os b' os' rio :
  blob_write_raw b hist io data os = (0, b', os') ->
  io_origin rio = io_origin io ->
  c_bool (Z.land (io_flags rio) DNET_IO_FLAGS_HISTORY) = c_bool hist ->
  exists (f : list byte) (pad : nat),
    let tail := to_size_t (log_tail b hist) in
    let sz := to_size_t (io_size io) in
    hash b' !! blob_key (io_origin rio)
                 (c_bool (Z.land (io_flags rio) DNET_IO_FLAGS_HISTORY)) =
      Some {| rc_key := blob_key (io_origin io) (c_bool hist); rc_offset := tail;
              rc_size := sizeof_blob_disk_control + sz + Z.of_nat pad |} /\
    os_files os' !! log_fd b' (Z.land (io_flags rio) DNET_IO_FLAGS_HISTORY) =
      Some (write_at f (Z.to_nat tail) (blob_record io data pad)) /\
    sz <= Z.of_nat (length data) /\
    tail + (sizeof_blob_disk_control + sz + Z.of_nat pad) <= file_limit os /\
    (to_int (log_bsize b hist) = 0 -> pad = 0%nat) /\
    (0 < to_int (log_bsize b hist) ->
     Z.of_nat pad =
     blob_padding (to_int (log_bsize b hist)) (sizeof_blob_disk_control + sz)).
Proof.
  intros Hrun Horigin Hflag.
  destruct (blob_write_raw_ok _ _ _ _ _ _ _ Hrun)
    as (f & pad & Hf & Hdata & Hlim & Hos & Hb & Hp0 & Hp).
  exists f, pad. cbv zeta.
  split.
  { rewrite Hb, hash_set_log_tail. simpl.
    by rewrite Horigin, Hflag, lookup_insert_eq. }
  split.
  { assert (Hfd : log_fd b' (Z.land (io_flags rio) DNET_IO_FLAGS_HISTORY) =
                  log_fd b hist).
    { rewrite Hb. apply c_bool_eqb in Hflag. unfold log_fd, set_log_tail.
      rewrite Hflag. by destruct (hist =? 0). }
    rewrite Hfd, Hos. apply os_files_set_file. }
  repeat split; done.
Qed.

(** The payload inside a record. *)
Lemma read_at_blob_record io data pad o n :
  to_size_t (io_size io) <= Z.of_nat (length data) ->
  (o + n <= Z.to_nat (to_size_t (io_size io)))%nat ->
  read_at (blob_record io data pad) (Z.to_nat sizeof_blob_disk_control + o) n =
    read_at data o n.
Proof.
  intros Hdata Hin. unfold blob_record.
  set (hdr := blob_disk_control_bytes _).
  assert (Hhdr : Z.of_nat (length hdr) = sizeof_blob_disk_control)
    by apply length_blob_disk_control_bytes.
  replace (Z.to_nat sizeof_blob_disk_control) with (length hdr) by lia.
  rewrite read_at_app_r, read_at_app_l by (rewrite length_take; lia).
  by apply read_at_take.
Qed.


End reading_back.

(** X7: what was appended reads back.  After a successful append of a
    record, a READ on the copying path of [n] bytes at offset [o] of the
    same key, with [0 < n], [o + n] within the payload and room for [n]
    bytes in the caller's buffer, returns 0, sets the size of the reply to
    [n] and puts bytes [o] to [o + n] of the payload at the front of the
    buffer, leaving the rest of the buffer alone. *)
Theorem read_returns_the_slice_written `{E : Externals}
    b hist io data os b' os' cmd attr rio buf :
  blob_write_raw b hist io data os = (0, b', os') ->
  io_origin rio = io_origin io ->
  c_bool (Z.land (io_flags rio) DNET_IO_FLAGS_HISTORY) = c_bool hist ->
  0 <= io_offset rio -> 0 < io_size rio < 2 ^ 31 ->
  io_offset rio + io_size rio <= to_size_t (io_size io) ->
  attr_size attr <> sizeof_dnet_io_attr ->
  io_size rio <= to_size_t (attr_size attr - sizeof_dnet_io_attr) ->
  rd_err (blob_read b' cmd attr rio buf os') = 0 /\
  io_size (rd_io (blob_read b' cmd attr rio buf os')) = io_size rio /\
  rd_data (blob_read b' cmd attr rio buf os') =
    read_at data (Z.to_nat (io_offset rio)) (Z.to_nat (io_size rio))
      ++ drop (Z.to_nat (io_size rio)) buf.
Proof.
  intros Hrun Horigin Hflag Hoff Hsize Hin Hattr Hroom.
  destruct (blob_read_after_append _ _ _ _ _ _ _ _ Hrun Horigin Hflag)
    as (f & pad & Hctl & Hfile & Hdata & Hlim & _).
  assert (Hlimit : file_limit os <= 2 ^ 63 - 1) by (unfold file_limit, OFF_MAX; lia).
  pose proof sizeof_blob_disk_control_range as Hso.
  pose proof (to_size_t_range (log_tail b hist)) as Ht.
  pose proof (length_blob_record io data pad Hdata) as Hrec.
  assert (Hn : to_size_t (io_size rio) = io_size rio) by int_lia.
  rewrite (blob_read_copy_inside _ cmd attr _ buf _ _ _ Hctl Hfile Hattr);
    simpl rc_offset; simpl rc_size; rewrite ?Hn;
    rewrite ?(proj2 (Z.eqb_neq (io_size rio) 0)) by lia;
    try lia.
  2: { rewrite length_write_at. lia. }
  simpl. split; [done|]. split; [done|]. f_equal.
  replace (Z.to_nat (to_size_t (log_tail b hist) + sizeof_blob_disk_control
                     + io_offset rio))
    with (Z.to_nat (to_size_t (log_tail b hist))
          + (Z.to_nat sizeof_blob_disk_control + Z.to_nat (io_offset rio)))%nat
    by lia.
  rewrite read_at_write_at_inside by lia.
  apply read_at_blob_record; [done|lia].
Qed.

Lemma read_returns_the_slice_written_witness :
  rd_err (blob_read (H := sample_externals) (snd (fst sample_append)) sample_cmd
            sample_read_attr (sample_io Byte.x01 0 3 6) (replicate 200 Byte.x00)
            (snd sample_append)) = 0 /\
  io_size (rd_io (blob_read (H := sample_externals) (snd (fst sample_append))
                    sample_cmd sample_read_attr (sample_io Byte.x01 0 3 6)
                    (replicate 200 Byte.x00) (snd sample_append))) =
    io_size (sample_io Byte.x01 0 3 6) /\
  rd_data (blob_read (H := sample_externals) (snd (fst sample_append)) sample_cmd
             sample_read_attr (sample_io Byte.x01 0 3 6) (replicate 200 Byte.x00)
             (snd sample_append)) =
    read_at sample_payload (Z.to_nat (io_offset (sample_io Byte.x01 0 3 6)))
      (Z.to_nat (io_size (sample_io Byte.x01 0 3 6)))
      ++ drop (Z.to_nat (io_size (sample_io Byte.x01 0 3 6)))
           (replicate 200 Byte.x00).
Proof.
  assert (H1 : blob_write_raw (H := sample_externals) (sample_backend 64 0) 0
                 (sample_io Byte.x01 0 0 10) sample_payload (sample_os 4096) =
               (0, snd (fst sample_append), snd sample_append))
    by (apply (result_eta sample_append); by_evaluation).
  assert (H2 : io_origin (sample_io Byte.x01 0 3 6) =
               io_origin (sample_io Byte.x01 0 0 10)) by by_evaluation.
  assert (H3 : c_bool (Z.land (io_flags (sample_io Byte.x01 0 3 6))
                         (DNET_IO_FLAGS_HISTORY (Externals := sample_externals))) =
               c_bool 0) by by_evaluation.
  assert (H4 : 0 <= io_offset (sample_io Byte.x01 0 3 6)) by by_evaluation.
  assert (H5 : 0 < io_size (sample_io Byte.x01 0 3 6) < 2 ^ 31) by by_evaluation.
  assert (H6 : io_offset (sample_io Byte.x01 0 3 6) + io_size (sample_io Byte.x01 0 3 6)
               <= to_size_t (io_size (sample_io Byte.x01 0 0 10))) by by_evaluation.
  assert (H7 : attr_size sample_read_attr <>
               sizeof_dnet_io_attr (Externals := sample_externals)) by by_evaluation.
  assert (H8 : io_size (sample_io Byte.x01 0 3 6) <=
               to_size_t (attr_size sample_read_attr -
                          sizeof_dnet_io_attr (Externals := sample_externals)))
    by by_evaluation.
  exact (read_returns_the_slice_written (E := sample_externals)
           (sample_backend 64 0) 0 (sample_io Byte.x01 0 0 10) sample_payload
           (sample_os 4096) (snd (fst sample_append)) (snd sample_append)
           sample_cmd sample_read_attr (sample_io Byte.x01 0 3 6)
           (replicate 200 Byte.x00) H1 H2 H3 H4 H5 H6 H7 H8).
Defined.



(** X9: a READ on the copying path that starts at or past the end of the
    file gets no bytes from [pread], and line 394 answers [-errno] with
    [errno] as the last failed call left it: when nothing has failed
    before, the answer is 0, with the request and the caller's buffer
    untouched. *)
Theorem read_past_the_end_answers_errno `{E : Externals}
    b cmd attr io buf os ctl f :
  hash b !! blob_key (io_origin io)
              (c_bool (Z.land (io_flags io) DNET_IO_FLAGS_HISTORY)) = Some ctl ->
  os_files os !! log_fd b (Z.land (io_flags io) DNET_IO_FLAGS_HISTORY) = Some f ->
  attr_size attr <> sizeof_dnet_io_attr ->
  Z.of_nat (length f) <=
    to_off_t (rc_offset ctl + sizeof_blob_disk_control + io_offset io) ->
  blob_read b cmd attr io buf os =
    {| rd_err := - os_errno os; rd_req := None; rd_io := io; rd_attr := attr;
       rd_data := buf; rd_os := os |}.
Proof.
  intros Hctl Hf Hattr Hpast.
  unfold blob_read, dnet_hash_lookup. rewrite Hctl. simpl.
  rewrite (proj2 (Z.eqb_neq _ _) Hattr).
  assert (Hfd : (if negb (Z.land (io_flags io) DNET_IO_FLAGS_HISTORY =? 0)
                 then historyfd b else datafd b) =
                log_fd b (Z.land (io_flags io) DNET_IO_FLAGS_HISTORY)).
  { unfold log_fd. by destruct (Z.land (io_flags io) DNET_IO_FLAGS_HISTORY =? 0). }
  rewrite Hfd. unfold pread. rewrite Hf.
  rewrite (proj2 (Z.ltb_ge _ 0)) by lia.
  unfold read_at. rewrite drop_ge by lia. rewrite take_nil. reflexivity.
Qed.

Lemma read_past_the_end_answers_errno_witness :
  os_errno (snd sample_two_ids) = 0 /\
  blob_read (H := sample_externals) (snd (fst sample_two_ids)) sample_cmd
    sample_read_attr (sample_io Byte.x01 0 1000 5) (replicate 200 Byte.x00)
    (snd sample_two_ids) =
    {| rd_err := - os_errno (snd sample_two_ids); rd_req := None;
       rd_io := sample_io Byte.x01 0 1000 5; rd_attr := sample_read_attr;
       rd_data := replicate 200 Byte.x00; rd_os := snd sample_two_ids |}.
Proof.
  assert (H0 : os_errno (snd sample_two_ids) = 0) by by_evaluation.
  assert (H1 : hash (snd (fst sample_two_ids))
                 !! blob_key (H := sample_externals)
                      (io_origin (sample_io Byte.x01 0 1000 5))
                      (c_bool (Z.land (io_flags (sample_io Byte.x01 0 1000 5))
                         (DNET_IO_FLAGS_HISTORY (Externals := sample_externals)))) =
               Some {| rc_key := sample_key Byte.x01 0; rc_offset := 0;
                       rc_size := 85 |}) by by_evaluation.
  assert (H2 : os_files (snd sample_two_ids)
                 !! log_fd (snd (fst sample_two_ids))
                      (Z.land (io_flags (sample_io Byte.x01 0 1000 5))
                         (DNET_IO_FLAGS_HISTORY (Externals := sample_externals))) =
               Some (default [] (os_files (snd sample_two_ids) !! 3)))
    by by_evaluation.
  assert (H3 : attr_size sample_read_attr <>
               sizeof_dnet_io_attr (Externals := sample_externals)) by by_evaluation.
  assert (H4 : Z.of_nat (length (default [] (os_files (snd sample_two_ids) !! 3))) <=
               to_off_t (rc_offset {| rc_key := sample_key Byte.x01 0; rc_offset := 0;
                                      rc_size := 85 |}
                         + sizeof_blob_disk_control (H := sample_externals)
                         + io_offset (sample_io Byte.x01 0 1000 5)))
    by by_evaluation.
  split; [exact H0|].
  exact (read_past_the_end_answers_errno (E := sample_externals)
           (snd (fst sample_two_ids)) sample_cmd sample_read_attr
           (sample_io Byte.x01 0 1000 5) (replicate 200 Byte.x00)
           (snd sample_two_ids) _ _ H1 H2 H3 H4).
Defined.

(** X10: on the copying path [blob_read] queues nothing and changes at
    most the first [attr_size - sizeof (struct dnet_io_attr)] bytes of the
    caller's buffer, as an unsigned 64-bit number, whatever the request
    asks for and whatever the outcome. *)
Theorem copying_read_stays_inside_the_room `{E : Externals}
    b cmd attr io buf os :
  attr_size attr <> sizeof_dnet_io_attr ->
  rd_req (blob_read b cmd attr io buf os) = None /\
  exists bs,
    rd_data (blob_read b cmd attr io buf os) = bs ++ drop (length bs) buf /\
    Z.of_nat (length bs) <= to_size_t (attr_size attr - sizeof_dnet_io_attr).
Proof.
  intros Hattr.
  pose proof (to_size_t_range (attr_size attr - sizeof_dnet_io_attr)) as Hroom.
  assert (Hnil : exists bs : list byte,
    buf = bs ++ drop (length bs) buf /\
    Z.of_nat (length bs) <= to_size_t (attr_size attr - sizeof_dnet_io_attr)).
  { exists []. simpl. rewrite drop_0. split; [done|lia]. }
  unfold blob_read.
  destruct (dnet_hash_lookup _ _) as [err ctl].
  destruct (negb (err =? 0)); [done|].
  rewrite (proj2 (Z.eqb_neq _ _) Hattr).
  match goal with
  | |- context [pread ?fd ?count ?offset os] =>
    assert (Hcount : count <= to_size_t (attr_size attr - sizeof_dnet_io_attr))
      by (rewrite Z.gtb_ltb;
          match goal with |- context [if ?c then _ else _] =>
            destruct c eqn:Hc end;
          [lia|apply Z.ltb_ge in Hc; lia]);
    assert (Hbs : Z.of_nat (length (snd (fst (pread fd count offset os)))) <=
                  to_size_t (attr_size attr - sizeof_dnet_io_attr));
    [|destruct (pread fd count offset os) as [[n bs] os1]]
  end.
  { unfold pread. destruct (os_files os !! _); [|simpl; lia].
    destruct (_ <? 0); [simpl; lia|]. simpl.
    unfold read_at. rewrite length_take. lia. }
  simpl in Hbs. destruct (to_int n <=? 0); [done|].
  simpl. split; [done|]. by exists bs.
Qed.

Lemma copying_read_stays_inside_the_room_witness :
  rd_req (blob_read (H := sample_externals) (snd (fst sample_two_ids)) sample_cmd
            sample_read_attr (sample_io Byte.x01 0 0 1000) (replicate 200 Byte.x00)
            (snd sample_two_ids)) = None /\
  exists bs,
    rd_data (blob_read (H := sample_externals) (snd (fst sample_two_ids))
               sample_cmd sample_read_attr (sample_io Byte.x01 0 0 1000)
               (replicate 200 Byte.x00) (snd sample_two_ids)) =
      bs ++ drop (length bs) (replicate 200 Byte.x00) /\
    Z.of_nat (length bs) <=
      to_size_t (attr_size sample_read_attr -
                 sizeof_dnet_io_attr (Externals := sample_externals)).
Proof.
  assert (H1 : attr_size sample_read_attr <>
               sizeof_dnet_io_attr (Externals := sample_externals)) by by_evaluation.
  exact (copying_read_stays_inside_the_room (E := sample_externals)
           (snd (fst sample_two_ids)) sample_cmd sample_read_attr
           (sample_io Byte.x01 0 0 1000) (replicate 200 Byte.x00)
           (snd sample_two_ids) H1).
Defined.

(** ** Records end to end *)

(** X6: two successful appends to one log lay their records end to end:
    the second record starts where the first ends, the first record is
    still in the file, byte for byte, and the tail has moved past both.
    The index points at the second record; it still points at the first
    one unless the two keys are the same. *)
Theorem second_append_keeps_the_first_record `{E : Externals}
    b hist io1 data1 io2 data2 os b1 os1 b2 os2 :
  - 2 ^ 63 <= log_tail b hist < 2 ^ 63 ->
  blob_write_raw b hist io1 data1 os = (0, b1, os1) ->
  blob_write_raw b1 hist io2 data2 os1 = (0, b2, os2) ->
  exists (f2 : list byte) (pad1 pad2 : nat),
    let rec1 := blob_record io1 data1 pad1 in
    let rec2 := blob_record io2 data2 pad2 in
    let key1 := blob_key (io_origin io1) (c_bool hist) in
    let key2 := blob_key (io_origin io2) (c_bool hist) in
    let tail := log_tail b hist in
    os_files os2 !! log_fd b hist = Some f2 /\
    read_at f2 (Z.to_nat tail) (length rec1) = rec1 /\
    read_at f2 (Z.to_nat tail + length rec1) (length rec2) = rec2 /\
    log_tail b2 hist = tail + Z.of_nat (length rec1) + Z.of_nat (length rec2) /\
    hash b2 !! key2 =
      Some {| rc_key := key2; rc_offset := tail + Z.of_nat (length rec1);
              rc_size := Z.of_nat (length rec2) |} /\
    (key1 <> key2 ->
     hash b2 !! key1 =
       Some {| rc_key := key1; rc_offset := tail;
               rc_size := Z.of_nat (length rec1) |}).
Proof.
  intros Htail Hw1 Hw2.
  destruct (blob_write_raw_ok _ _ _ _ _ _ _ Hw1)
    as (f & pad1 & Hf & Hdata1 & Hlim1 & Hos1 & Hb1 & _).
  destruct (blob_write_raw_ok _ _ _ _ _ _ _ Hw2)
    as (f1 & pad2 & Hf1 & Hdata2 & Hlim2 & Hos2 & Hb2 & _).
  assert (Hlimit : file_limit os <= 2 ^ 63 - 1) by (unfold file_limit, OFF_MAX; lia).
  pose proof sizeof_blob_disk_control_range as Hso.
  pose proof (to_size_t_range (io_size io1)) as Hsz1.
  pose proof (to_size_t_range (io_size io2)) as Hsz2.
  assert (Ht : to_size_t (log_tail b hist) = log_tail b hist) by int_lia.
  assert (Htnn : 0 <= log_tail b hist)
    by (pose proof (to_size_t_range (log_tail b hist)); lia).
  rewrite Ht in *.
  pose proof (length_blob_record io1 data1 pad1 Hdata1) as Hrec1.
  pose proof (length_blob_record io2 data2 pad2 Hdata2) as Hrec2.
  rewrite <- Hrec1 in Hb1, Hlim1. rewrite <- Hrec2 in Hb2, Hlim2.
  set (rec1 := blob_record io1 data1 pad1) in *.
  set (rec2 := blob_record io2 data2 pad2) in *.
  assert (Ht1 : log_tail b1 hist = log_tail b hist + Z.of_nat (length rec1))
    by (rewrite Hb1; apply log_tail_set_log_tail).
  assert (Hfd1 : log_fd b1 hist = log_fd b hist)
    by (rewrite Hb1, log_fd_set_log_tail; reflexivity).
  assert (Hlimeq : file_limit os1 = file_limit os) by (by rewrite Hos1).
  rewrite Ht1, Hfd1, Hlimeq in *.
  assert (Ht1' : to_size_t (log_tail b hist + Z.of_nat (length rec1)) =
                 log_tail b hist + Z.of_nat (length rec1)) by int_lia.
  rewrite Ht1' in *.
  rewrite Hos1, os_files_set_file in Hf1. inversion Hf1; subst f1; clear Hf1.
  exists (write_at (write_at f (Z.to_nat (log_tail b hist)) rec1)
            (Z.to_nat (log_tail b hist + Z.of_nat (length rec1))) rec2), pad1, pad2.
  cbv zeta. fold rec1 rec2.
  split; [rewrite Hos2; apply os_files_set_file|].
  split.
  { rewrite read_at_write_at_below; [apply read_at_write_at|lia|].
    rewrite length_write_at. lia. }
  split.
  { replace (Z.to_nat (log_tail b hist) + length rec1)%nat
      with (Z.to_nat (log_tail b hist + Z.of_nat (length rec1))) by lia.
    apply read_at_write_at. }
  split; [rewrite Hb2, log_tail_set_log_tail; lia|].
  split.
  { rewrite Hb2, hash_set_log_tail. simpl. apply lookup_insert_eq. }
  intros Hne.
  rewrite Hb2, hash_set_log_tail. simpl.
  rewrite lookup_insert_ne by done.
  rewrite Hb1, hash_set_log_tail. simpl. apply lookup_insert_eq.
Qed.

Lemma second_append_keeps_the_first_record_witness :
  - 2 ^ 63 <= log_tail (sample_backend 64 0) 0 < 2 ^ 63 /\
  exists (f2 : list byte) (pad1 pad2 : nat),
    let rec1 :=
      blob_record (H := sample_externals) (sample_io Byte.x01 0 0 10)
        sample_payload pad1 in
    let rec2 :=
      blob_record (H := sample_externals) (sample_io Byte.x02 0 0 5) hello pad2 in
    let key1 :=
      blob_key (H := sample_externals) (io_origin (sample_io Byte.x01 0 0 10))
        (c_bool 0) in
    let key2 :=
      blob_key (H := sample_externals) (io_origin (sample_io Byte.x02 0 0 5))
        (c_bool 0) in
    let tail := log_tail (sample_backend 64 0) 0 in
    os_files (snd sample_append_next) !! log_fd (sample_backend 64 0) 0 = Some f2 /\
    read_at f2 (Z.to_nat tail) (length rec1) = rec1 /\
    read_at f2 (Z.to_nat tail + length rec1) (length rec2) = rec2 /\
    log_tail (snd (fst sample_append_next)) 0 =
      tail + Z.of_nat (length rec1) + Z.of_nat (length rec2) /\
    hash (snd (fst sample_append_next)) !! key2 =
      Some {| rc_key := key2; rc_offset := tail + Z.of_nat (length rec1);
              rc_size := Z.of_nat (length rec2) |} /\
    (key1 <> key2 ->
     hash (snd (fst sample_append_next)) !! key1 =
       Some {| rc_key := key1; rc_offset := tail;
               rc_size := Z.of_nat (length rec1) |}).
Proof.
  assert (H1 : - 2 ^ 63 <= log_tail (sample_backend 64 0) 0 < 2 ^ 63)
    by by_evaluation.
  assert (H2 : blob_write_raw (H := sample_externals) (sample_backend 64 0) 0
                 (sample_io Byte.x01 0 0 10) sample_payload (sample_os 4096) =
               (0, snd (fst sample_append), snd sample_append))
    by (apply (result_eta sample_append); by_evaluation).
  assert (H3 : blob_write_raw (H := sample_externals) (snd (fst sample_append)) 0
                 (sample_io Byte.x02 0 0 5) hello (snd sample_append) =
               (0, snd (fst sample_append_next), snd sample_append_next))
    by (apply (result_eta sample_append_next); by_evaluation).
  split; [exact H1|].
  exact (second_append_keeps_the_first_record (E := sample_externals)
           _ _ _ _ _ _ _ _ _ _ _ H1 H2 H3).
Defined.

(** ** History updates *)

Section first_update.
Context `{E : Externals}.

Lemma history_block_ok_absent b os origin :
  hash b !! blob_key origin 1 = None -> history_block_ok b os origin.
Proof. intros Hk. unfold history_block_ok. by rewrite Hk. Qed.

End first_update.

(** X12: the first history write of a key, one with no history block in
    the index, marks nothing: the hook is handed an empty blob of size 0,
    and what it returns is appended as one record at the tail of the
    history log, indexed under the history key; the data tail stays. *)
Theorem first_history_write_appends_the_hook_result `{E : Externals}
    b io m data os b' os' :
  hash b !! blob_key (io_origin io) 1 = None ->
  - 2 ^ 63 <= history_offset b < 2 ^ 63 ->
  blob_write_history_meta b io m data os = (0, b', os') ->
  exists (f new_hdata : list byte) (size' : Z) (pad : nat),
    let rec := blob_record (with_size io size') new_hdata pad in
    let key := blob_key (io_origin io) 1 in
    backend_process_meta io [] 0 m data = Some (new_hdata, size') /\
    os_files os !! historyfd b = Some f /\
    os' = set_file (historyfd b)
            (write_at f (Z.to_nat (history_offset b)) rec) os /\
    hash b' =
      <[key := {| rc_key := key; rc_offset := history_offset b;
                  rc_size := Z.of_nat (length rec) |}]> (hash b) /\
    history_offset b' = history_offset b + Z.of_nat (length rec) /\
    data_offset b' = data_offset b.
Proof.
  intros Hnone Htail Hrun.
  destruct (blob_write_history_meta_ok _ _ _ _ _ _ _
              (history_block_ok_absent b os _ Hnone) Hrun)
    as (hdata & size & os1 & new_hdata & size' & Hhook & Hw & Hold).
  rewrite Hnone in Hold. destruct Hold as (-> & -> & ->).
  destruct (blob_write_raw_ok _ _ _ _ _ _ _ Hw)
    as (f & pad & Hf & Hdata & Hlim & -> & -> & _).
  rewrite log_fd_history, log_tail_history in *.
  assert (Hlimit : file_limit os <= 2 ^ 63 - 1) by (unfold file_limit, OFF_MAX; lia).
  pose proof sizeof_blob_disk_control_range as Hso.
  pose proof (to_size_t_range size').
  assert (Ht : to_size_t (history_offset b) = history_offset b) by int_lia.
  rewrite Ht in *.
  pose proof (length_blob_record (with_size io size') new_hdata pad Hdata) as Hrec.
  change (to_size_t (io_size (with_size io size'))) with (to_size_t size') in *.
  exists f, new_hdata, size', pad. cbv zeta. rewrite Hrec.
  repeat split; done.
Qed.

Lemma first_history_write_appends_the_hook_result_witness :
  exists (f new_hdata : list byte) (size' : Z) (pad : nat),
    let rec :=
      blob_record (H := sample_externals) (with_size sample_hio size')
        new_hdata pad in
    let key := blob_key (H := sample_externals) (io_origin sample_hio) 1 in
    backend_process_meta (Externals := sample_externals) sample_hio [] 0 None
      sample_entry = Some (new_hdata, size') /\
    os_files (sample_os 4096) !! historyfd (sample_backend 64 0) = Some f /\
    snd sample_first_update =
      set_file (historyfd (sample_backend 64 0))
        (write_at f (Z.to_nat (history_offset (sample_backend 64 0))) rec)
        (sample_os 4096) /\
    hash (snd (fst sample_first_update)) =
      <[key := {| rc_key := key; rc_offset := history_offset (sample_backend 64 0);
                  rc_size := Z.of_nat (length rec) |}]>
        (hash (sample_backend 64 0)) /\
    history_offset (snd (fst sample_first_update)) =
      history_offset (sample_backend 64 0) + Z.of_nat (length rec) /\
    data_offset (snd (fst sample_first_update)) =
      data_offset (sample_backend 64 0).
Proof.
  assert (H1 : hash (sample_backend 64 0)
                 !! blob_key (H := sample_externals) (io_origin sample_hio) 1 = None)
    by by_evaluation.
  assert (H2 : - 2 ^ 63 <= history_offset (sample_backend 64 0) < 2 ^ 63)
    by by_evaluation.
  assert (H3 : blob_write_history_meta (H := sample_externals) (sample_backend 64 0)
                 sample_hio None sample_entry (sample_os 4096) =
               (0, snd (fst sample_first_update), snd sample_first_update))
    by (apply (result_eta sample_first_update); by_evaluation).
  exact (first_history_write_appends_the_hook_result (E := sample_externals)
           _ _ _ _ _ _ _ H1 H2 H3).
Defined.

(** X13: a history update that fails after line 220 leaves the old block
    marked.  When the block in the index is sound and the allocation of
    line 191 succeeds, any nonzero return leaves the index and the tails
    as they were, so the index still points at the old block, and the
    header of that block in the file now carries the [REMOVED] bit. *)
Theorem failed_history_update_leaves_the_tombstone `{E : Externals}
    b io m data os err b' os' ctl f :
  hash b !! blob_key (io_origin io) 1 = Some ctl ->
  os_files os !! historyfd b = Some f ->
  history_block_ok b os (io_origin io) ->
  0 <= history_offset b < 2 ^ 63 ->
  malloc_ok (to_size_t (rc_size ctl)) os = true ->
  blob_write_history_meta b io m data os = (err, b', os') -> err <> 0 ->
  b' = b /\
  exists f',
    os_files os' !! historyfd b = Some f' /\
    Z.land
      (dc_flags (blob_disk_control_of_bytes
                   (read_at f' (Z.to_nat (rc_offset ctl))
                      (Z.to_nat sizeof_blob_disk_control))))
      BLOB_DISK_CTL_REMOVE = BLOB_DISK_CTL_REMOVE.
Proof.
  intros Hctl Hf Hok Htail Hmalloc Hrun Herr.
  unfold history_block_ok in Hok. rewrite Hctl, Hf in Hok.
  destruct Hok as (Hoff & Hsize & Hlen & Hbelow & Hlim & Hio).
  pose proof sizeof_blob_disk_control_range as Hso.
  set (off := Z.to_nat (rc_offset ctl)).
  set (hsz := Z.to_nat sizeof_blob_disk_control).
  set (old := blob_disk_control_of_bytes (read_at f off hsz)).
  set (hdr := blob_disk_control_bytes (blob_mark_removed old)).
  assert (Hhdr : length hdr = hsz).
  { pose proof (length_blob_disk_control_bytes (blob_mark_removed old)) as Hl.
    fold hdr in Hl. unfold hsz. lia. }
  set (f1 := write_at f off hdr).
  assert (Hback : read_at f1 off hsz = hdr).
  { unfold f1. rewrite <- Hhdr. apply read_at_write_at. }
  assert (Hmarked :
    Z.land (dc_flags (blob_disk_control_of_bytes hdr)) BLOB_DISK_CTL_REMOVE =
    BLOB_DISK_CTL_REMOVE).
  { assert (Hread : (DNET_ID_SIZE <= length (read_at f off hsz))%nat).
    { rewrite length_read_at; unfold off, hsz, sizeof_blob_disk_control in *; lia. }
    by destruct (blob_mark_removed_read_back _ Hread) as (_ & _ & Hfl). }
  destruct (blob_write_history_meta_old_ok b ctl os f Hf Hoff Hsize Hlen Hlim Hio)
    as (hdata & Hold & _).
  fold off hsz old hdr f1 in Hold.
  unfold blob_write_history_meta, dnet_hash_lookup in Hrun.
  rewrite Hctl, Z.eqb_refl, Hmalloc, Hold in Hrun.
  cbn [negb] in Hrun. cbv beta iota in Hrun.
  set (os1 := set_file (historyfd b) f1 os) in *.
  assert (Hf1 : os_files os1 !! historyfd b = Some f1) by apply os_files_set_file.
  destruct (backend_process_meta io hdata (dc_size old) m data)
    as [[new_hdata size']|].
  2: { inversion Hrun; subst. split; [done|]. exists f1. by rewrite Hback. }
  match type of Hrun with
  | context [blob_write_raw b 1 ?io' new_hdata os1] =>
    pose proof (blob_write_raw_extends b 1 io' new_hdata os1) as Hext;
    destruct (blob_write_raw b 1 io' new_hdata os1) as [[e b1] os2] eqn:Hw
  end.
  simpl in Hext.
  destruct (negb (e =? 0)) eqn:He; [|inversion Hrun; lia].
  apply negb_true_iff, Z.eqb_neq in He.
  destruct (blob_write_raw_err _ _ _ _ _ _ _ _ Hw He) as [_ ->].
  inversion Hrun; subst. split; [done|].
  destruct Hext as (_ & _ & _ & _ & Hfd).
  unfold fd_extends in Hfd. rewrite log_fd_history, Hf1 in Hfd.
  destruct Hfd as (f' & Hf' & Hfe). exists f'. split; [done|].
  rewrite (file_extends_read_at _ f1 f' off hsz Hfe).
  - by rewrite Hback.
  - rewrite log_tail_history, to_size_t_id by lia. unfold off, hsz. lia.
  - unfold f1. rewrite length_write_at. unfold off, hsz. lia.
Qed.

Lemma sample_history_block_ok_full :
  history_block_ok (H := sample_externals) sample_b1 sample_os1_full
    (io_origin sample_hio).
Proof.
  unfold history_block_ok. rewrite sample_history_indexed.
  change (os_files sample_os1_full) with (os_files sample_os1).
  rewrite sample_history_open. by_evaluation.
Qed.

Lemma failed_history_update_leaves_the_tombstone_witness :
  snd (fst sample_failed_update) = sample_b1 /\
  exists f',
    os_files (snd sample_failed_update) !! historyfd sample_b1 = Some f' /\
    Z.land
      (dc_flags (blob_disk_control_of_bytes (H := sample_externals)
                   (read_at f' (Z.to_nat (rc_offset sample_history_ctl))
                      (Z.to_nat (sizeof_blob_disk_control (H := sample_externals))))))
      BLOB_DISK_CTL_REMOVE = BLOB_DISK_CTL_REMOVE.
Proof.
  pose proof sample_history_indexed as H1.
  assert (H2 : os_files sample_os1_full !! historyfd sample_b1 =
               Some sample_history_file) by exact sample_history_open.
  pose proof sample_history_block_ok_full as H3.
  assert (H4 : 0 <= history_offset sample_b1 < 2 ^ 63) by by_evaluation.
  assert (H5 : malloc_ok (to_size_t (rc_size sample_history_ctl)) sample_os1_full
               = true) by by_evaluation.
  assert (H6 : blob_write_history_meta (H := sample_externals) sample_b1 sample_hio
                 None sample_entry sample_os1_full =
               (- ENOSPC, snd (fst sample_failed_update), snd sample_failed_update)).
  { change (blob_write_history_meta (H := sample_externals) sample_b1 sample_hio
              None sample_entry sample_os1_full) with sample_failed_update.
    assert (Hfst : fst (fst sample_failed_update) = - ENOSPC) by by_evaluation.
    rewrite <- Hfst. clear. by destruct sample_failed_update as [[e b] o]. }
  assert (H7 : - ENOSPC <> 0) by by_evaluation.
  exact (failed_history_update_leaves_the_tombstone (E := sample_externals)
           _ _ _ _ _ _ _ _ _ _ H1 H2 H3 H4 H5 H6 H7).
Defined.

(** ** The scan and the write path *)

(** X21: the scan sees what the append wrote, less the padding.  For
    the header a successful append has stored, [dnet_blob_iter] makes an
    index entry under the same key and at the same offset as the append
    did; its size is the size the append recorded minus the padding
    bytes, so the two entries are equal exactly when the record has no
    padding. *)
Theorem scan_entry_is_the_append_entry_less_padding `{E : Externals}
    b hist io data os b' os' b0 :
  blob_write_raw b hist io data os = (0, b', os') ->
  exists (ctl : blob_ram_control) (f' : list byte) (pad : nat),
    let dc :=
      blob_disk_control_of_bytes
        (read_at f' (Z.to_nat (rc_offset ctl))
           (Z.to_nat sizeof_blob_disk_control)) in
    hash b' !! blob_key (io_origin io) (c_bool hist) = Some ctl /\
    os_files os' !! log_fd b hist = Some f' /\
    rc_size ctl = sizeof_blob_disk_control + to_size_t (io_size io) + Z.of_nat pad /\
    (to_int (log_bsize b hist) = 0 -> pad = 0%nat) /\
    (0 < to_int (log_bsize b hist) ->
     Z.of_nat pad =
     blob_padding (to_int (log_bsize b hist))
       (sizeof_blob_disk_control + to_size_t (io_size io))) /\
    dc_size dc = to_size_t (io_size io) /\
    dnet_blob_iter dc [] (rc_offset ctl) b0 (c_bool hist) =
      (0, set_hash
            (<[rc_key ctl :=
                 {| rc_key := rc_key ctl; rc_offset := rc_offset ctl;
                    rc_size := rc_size ctl - Z.of_nat pad |}]> (hash b0)) b0).
Proof.
  intros Hrun.
  destruct (blob_write_raw_ok _ _ _ _ _ _ _ Hrun)
    as (f & pad & Hf & Hdata & Hlim & -> & -> & Hp0 & Hp).
  assert (Hlimit : file_limit os <= 2 ^ 63 - 1) by (unfold file_limit, OFF_MAX; lia).
  pose proof sizeof_blob_disk_control_range as Hso.
  pose proof (to_size_t_range (io_size io)) as Hsz.
  pose proof (to_size_t_range (log_tail b hist)) as Ht.
  eexists _, _, pad. cbv zeta.
  rewrite hash_set_log_tail, os_files_set_file. simpl hash.
  rewrite lookup_insert_eq.
  split; [reflexivity|]. split; [reflexivity|]. simpl rc_size. simpl rc_offset.
  simpl rc_key.
  split; [reflexivity|]. split; [exact Hp0|]. split; [exact Hp|].
  set (hdr := blob_disk_control_bytes
                {| dc_id := memcpy_id (io_origin io); dc_flags := 0;
                   dc_size := to_size_t (io_size io) |}).
  assert (Hhdr : Z.of_nat (length hdr) = sizeof_blob_disk_control)
    by apply length_blob_disk_control_bytes.
  assert (Hread : read_at (write_at f (Z.to_nat (to_size_t (log_tail b hist)))
                             (blob_record io data pad))
                    (Z.to_nat (to_size_t (log_tail b hist)))
                    (Z.to_nat sizeof_blob_disk_control) = hdr).
  { unfold blob_record. fold hdr.
    replace (Z.to_nat sizeof_blob_disk_control) with (length hdr) by lia.
    apply read_at_write_at_prefix. }
  rewrite Hread. unfold hdr. rewrite blob_disk_control_of_bytes_bytes.
  simpl dc_size.
  split; [apply Z.mod_small; lia|].
  rewrite dnet_blob_iter_live by (simpl; apply Z.land_0_l).
  simpl dc_id. simpl dc_size.
  rewrite !(memcpy_id_exact (memcpy_id (io_origin io))) by apply length_memcpy_id.
  rewrite (Z.mod_small (to_size_t (io_size io))) by lia.
  rewrite to_size_t_idem.
  rewrite (to_off_t_id (to_size_t (io_size io) + sizeof_blob_disk_control))
    by int_lia.
  replace (sizeof_blob_disk_control + to_size_t (io_size io) + Z.of_nat pad
           - Z.of_nat pad)
    with (to_size_t (io_size io) + sizeof_blob_disk_control) by lia.
  reflexivity.
Qed.

Lemma scan_entry_is_the_append_entry_less_padding_witness :
  exists (ctl : blob_ram_control) (f' : list byte) (pad : nat),
    let dc :=
      blob_disk_control_of_bytes (H := sample_externals)
        (read_at f' (Z.to_nat (rc_offset ctl))
           (Z.to_nat (sizeof_blob_disk_control (H := sample_externals)))) in
    hash (snd (fst sample_append))
      !! blob_key (H := sample_externals)
           (io_origin (sample_io Byte.x01 0 0 10)) (c_bool 0) = Some ctl /\
    os_files (snd sample_append) !! log_fd (sample_backend 64 0) 0 = Some f' /\
    rc_size ctl =
      sizeof_blob_disk_control (H := sample_externals)
      + to_size_t (io_size (sample_io Byte.x01 0 0 10)) + Z.of_nat pad /\
    (to_int (log_bsize (sample_backend 64 0) 0) = 0 -> pad = 0%nat) /\
    (0 < to_int (log_bsize (sample_backend 64 0) 0) ->
     Z.of_nat pad =
     blob_padding (to_int (log_bsize (sample_backend 64 0) 0))
       (sizeof_blob_disk_control (H := sample_externals)
        + to_size_t (io_size (sample_io Byte.x01 0 0 10)))) /\
    dc_size dc = to_size_t (io_size (sample_io Byte.x01 0 0 10)) /\
    dnet_blob_iter (H := sample_externals) dc [] (rc_offset ctl)
      (sample_backend 64 0) (c_bool 0) =
      (0, set_hash
            (<[rc_key ctl :=
                 {| rc_key := rc_key ctl; rc_offset := rc_offset ctl;
                    rc_size := rc_size ctl - Z.of_nat pad |}]>
               (hash (sample_backend 64 0))) (sample_backend 64 0)).
Proof.
  assert (H1 : blob_write_raw (H := sample_externals) (sample_backend 64 0) 0
                 (sample_io Byte.x01 0 0 10) sample_payload (sample_os 4096) =
               (0, snd (fst sample_append), snd sample_append))
    by (apply (result_eta sample_append); by_evaluation).
  exact (scan_entry_is_the_append_entry_less_padding (E := sample_externals)
           _ _ _ _ _ _ _ (sample_backend 64 0) H1).
Defined.

(** ** The cache *)

(** X24: what a cache WRITE stores, a cache READ finds.  After a WRITE of
    [size] bytes under an identifier, a READ of the same identifier whose
    offset plus size stays within [size] is handed to the transport with
    the size of the whole value in [io] and the stored bytes from the
    offset on; the READ leaves the cache as the WRITE left it, and the
    WRITE has changed no other key. *)
Theorem cache_read_returns_what_was_written `{E : Externals}
    send c cmd_id cmd_id' wio wdata rio rdata :
  0 <= io_size wio < 2 ^ 64 ->
  io_size wio <= Z.of_nat (length wdata) ->
  cache.key_t (io_id rio) = cache.key_t (io_id wio) ->
  0 <= io_offset rio -> 0 <= io_size rio ->
  io_offset rio + io_size rio <= io_size wio ->
  exists c',
    dnet_cmd_cache_io send {| n_cache := Some c |} DNET_CMD_WRITE cmd_id wio wdata =
      (0, {| n_cache := Some c' |}) /\
    dnet_cmd_cache_io send {| n_cache := Some c' |} DNET_CMD_READ cmd_id' rio rdata =
      (send (with_size rio (io_size wio))
         (read_at wdata (Z.to_nat (io_offset rio))
            (Z.to_nat (io_size wio - io_offset rio))),
       {| n_cache := Some c' |}) /\
    (forall k, k <> cache.key_t (io_id wio) -> c' !! k = c !! k).
Proof.
  intros Hsize Hdata Hkey Hoff Hn Hin.
  assert (Hs : to_size_t (io_size wio) = io_size wio) by (by apply to_size_t_id).
  exists (cache.write c (io_id wio) wdata (io_size wio)).
  split; [unfold dnet_cmd_cache_io; simpl; by rewrite Hs|].
  split.
  - unfold dnet_cmd_cache_io, cache.read, cache.write. simpl.
    rewrite Hkey, lookup_insert_eq.
    assert (Hlen : length (take (Z.to_nat (io_size wio)) wdata) =
                   Z.to_nat (io_size wio)) by (rewrite length_take; lia).
    rewrite Hlen.
    rewrite (to_size_t_id (io_offset rio + io_size rio)) by lia.
    rewrite (to_size_t_id (io_offset rio)) by lia.
    rewrite Z.gtb_ltb, (proj2 (Z.ltb_ge _ _)) by lia.
    rewrite Z2Nat.id by lia. unfold with_size, read_at.
    rewrite skipn_firstn_comm. do 3 f_equal. lia.
  - intros k Hk. unfold cache.write. by apply lookup_insert_ne.
Qed.

Lemma cache_read_returns_what_was_written_witness :
  exists c',
    dnet_cmd_cache_io (H := sample_externals) (fun _ data => Z.of_nat (length data))
      {| n_cache := Some sample_cache |} DNET_CMD_WRITE (sample_id Byte.x02)
      (sample_io Byte.x02 0 0 10) sample_payload =
      (0, {| n_cache := Some c' |}) /\
    dnet_cmd_cache_io (H := sample_externals) (fun _ data => Z.of_nat (length data))
      {| n_cache := Some c' |} DNET_CMD_READ (sample_id Byte.x02)
      (sample_io Byte.x02 0 3 6) [] =
      ((fun _ data => Z.of_nat (length data))
         (with_size (sample_io Byte.x02 0 3 6) (io_size (sample_io Byte.x02 0 0 10)))
         (read_at sample_payload (Z.to_nat (io_offset (sample_io Byte.x02 0 3 6)))
            (Z.to_nat (io_size (sample_io Byte.x02 0 0 10)
                       - io_offset (sample_io Byte.x02 0 3 6)))),
       {| n_cache := Some c' |}) /\
    (forall k, k <> cache.key_t (H := sample_externals)
                      (io_id (sample_io Byte.x02 0 0 10)) ->
       c' !! k = sample_cache !! k).
Proof.
  assert (H1 : 0 <= io_size (sample_io Byte.x02 0 0 10) < 2 ^ 64) by by_evaluation.
  assert (H2 : io_size (sample_io Byte.x02 0 0 10) <=
               Z.of_nat (length sample_payload)) by by_evaluation.
  assert (H3 : cache.key_t (H := sample_externals) (io_id (sample_io Byte.x02 0 3 6)) =
               cache.key_t (H := sample_externals) (io_id (sample_io Byte.x02 0 0 10)))
    by by_evaluation.
  assert (H4 : 0 <= io_offset (sample_io Byte.x02 0 3 6)) by by_evaluation.
  assert (H5 : 0 <= io_size (sample_io Byte.x02 0 3 6)) by by_evaluation.
  assert (H6 : io_offset (sample_io Byte.x02 0 3 6) + io_size (sample_io Byte.x02 0 3 6)
               <= io_size (sample_io Byte.x02 0 0 10)) by by_evaluation.
  exact (cache_read_returns_what_was_written (E := sample_externals)
           (fun _ data => Z.of_nat (length data)) sample_cache (sample_id Byte.x02)
           (sample_id Byte.x02) (sample_io Byte.x02 0 0 10) sample_payload
           (sample_io Byte.x02 0 3 6) [] H1 H2 H3 H4 H5 H6).
Defined.

(** X25: a cache READ never changes the cache, and when offset plus size
    does not pass [2^64] the transport is called exactly for the requests
    that lie inside the cached value: an unknown key is answered
    [-ENOENT] and a request that reaches past the value [-EINVAL], both
    without a call of the transport. *)
Theorem cache_read_checks_the_bounds `{E : Externals} send c cmd_id io data :
  0 <= io_offset io -> 0 <= io_size io -> io_offset io + io_size io < 2 ^ 64 ->
  dnet_cmd_cache_io send {| n_cache := Some c |} DNET_CMD_READ cmd_id io data =
    (match c !! cache.key_t (io_id io) with
     | None => - ENOENT
     | Some d =>
       if io_offset io + io_size io <=? Z.of_nat (length d)
       then send (with_size io (Z.of_nat (length d)))
              (read_at d (Z.to_nat (io_offset io))
                 (length d - Z.to_nat (io_offset io)))
       else - EINVAL
     end, {| n_cache := Some c |}).
Proof.
  intros Hoff Hsize Hsum.
  unfold dnet_cmd_cache_io, cache.read. simpl.
  destruct (c !! cache.key_t (io_id io)) as [d|]; [|done].
  rewrite (to_size_t_id (io_offset io + io_size io)) by lia.
  rewrite (to_size_t_id (io_offset io)) by lia.
  rewrite Z.gtb_ltb.
  destruct (Z.ltb_spec (Z.of_nat (length d)) (io_offset io + io_size io)) as [Hlt|Hle].
  - by rewrite (proj2 (Z.leb_gt _ _)) by lia.
  - rewrite (proj2 (Z.leb_le _ _)) by lia. unfold with_size, read_at.
    rewrite take_ge by (rewrite length_drop; lia). done.
Qed.

Lemma cache_read_checks_the_bounds_witness :
  dnet_cmd_cache_io (H := sample_externals) (fun _ _ => 0)
    {| n_cache := Some sample_cache |} DNET_CMD_READ (sample_id Byte.x01)
    (sample_io Byte.x01 0 0 100) [] =
    (match sample_cache !! cache.key_t (H := sample_externals)
                             (io_id (sample_io Byte.x01 0 0 100)) with
     | None => - ENOENT
     | Some d =>
       if io_offset (sample_io Byte.x01 0 0 100) + io_size (sample_io Byte.x01 0 0 100)
          <=? Z.of_nat (length d)
       then (fun _ _ => 0)
              (with_size (sample_io Byte.x01 0 0 100) (Z.of_nat (length d)))
              (read_at d (Z.to_nat (io_offset (sample_io Byte.x01 0 0 100)))
                 (length d - Z.to_nat (io_offset (sample_io Byte.x01 0 0 100))))
       else - EINVAL
     end, {| n_cache := Some sample_cache |}).
Proof.
  assert (H1 : 0 <= io_offset (sample_io Byte.x01 0 0 100)) by by_evaluation.
  assert (H2 : 0 <= io_size (sample_io Byte.x01 0 0 100)) by by_evaluation.
  assert (H3 : io_offset (sample_io Byte.x01 0 0 100)
               + io_size (sample_io Byte.x01 0 0 100) < 2 ^ 64) by by_evaluation.
  exact (cache_read_checks_the_bounds (E := sample_externals) (fun _ _ => 0)
           sample_cache (sample_id Byte.x01) (sample_io Byte.x01 0 0 100) []
           H1 H2 H3).
Defined.

(** X26: the bounds check of line 180 adds offset and size in 64 bits.
    A READ whose offset plus size passes [2^64] and wraps to no more than
    the size of the cached value is not rejected, although it lies
    outside the value: the transport is called, with the size of the
    whole value in [io]. *)
Theorem cache_read_bounds_check_wraps `{E : Externals} c cmd_id io data d :
  c !! cache.key_t (io_id io) = Some d ->
  Z.of_nat (length d) < 2 ^ 64 ->
  0 <= io_offset io < 2 ^ 64 -> 0 <= io_size io < 2 ^ 64 ->
  2 ^ 64 <= io_offset io + io_size io ->
  io_offset io + io_size io - 2 ^ 64 <= Z.of_nat (length d) ->
  Z.of_nat (length d) < io_offset io + io_size io /\
  exists bytes,
    forall send,
      dnet_cmd_cache_io send {| n_cache := Some c |} DNET_CMD_READ cmd_id io data =
        (send (with_size io (Z.of_nat (length d))) bytes, {| n_cache := Some c |}).
Proof.
  intros Hd Hlen Hoff Hsize Hwrap Hfits. split; [lia|].
  eexists. intros send.
  unfold dnet_cmd_cache_io, cache.read. simpl. rewrite Hd.
  assert (Hs : to_size_t (io_offset io + io_size io) =
               io_offset io + io_size io - 2 ^ 64) by int_lia.
  rewrite Hs, Z.gtb_ltb, (proj2 (Z.ltb_ge _ _)) by lia.
  reflexivity.
Qed.

Lemma cache_read_bounds_check_wraps_witness :
  Z.of_nat (length hello) <
    io_offset (sample_io Byte.x01 0 (2 ^ 64 - 1) 1)
    + io_size (sample_io Byte.x01 0 (2 ^ 64 - 1) 1) /\
  exists bytes,
    forall send,
      dnet_cmd_cache_io (H := sample_externals) send
        {| n_cache := Some sample_cache |} DNET_CMD_READ (sample_id Byte.x01)
        (sample_io Byte.x01 0 (2 ^ 64 - 1) 1) [] =
        (send (with_size (sample_io Byte.x01 0 (2 ^ 64 - 1) 1)
                 (Z.of_nat (length hello))) bytes,
         {| n_cache := Some sample_cache |}).
Proof.
  assert (H1 : sample_cache !! cache.key_t (H := sample_externals)
                 (io_id (sample_io Byte.x01 0 (2 ^ 64 - 1) 1)) = Some hello)
    by by_evaluation.
  assert (H2 : Z.of_nat (length hello) < 2 ^ 64) by by_evaluation.
  assert (H3 : 0 <= io_offset (sample_io Byte.x01 0 (2 ^ 64 - 1) 1) < 2 ^ 64)
    by by_evaluation.
  assert (H4 : 0 <= io_size (sample_io Byte.x01 0 (2 ^ 64 - 1) 1) < 2 ^ 64)
    by by_evaluation.
  assert (H5 : 2 ^ 64 <= io_offset (sample_io Byte.x01 0 (2 ^ 64 - 1) 1)
                         + io_size (sample_io Byte.x01 0 (2 ^ 64 - 1) 1))
    by by_evaluation.
  assert (H6 : io_offset (sample_io Byte.x01 0 (2 ^ 64 - 1) 1)
               + io_size (sample_io Byte.x01 0 (2 ^ 64 - 1) 1) - 2 ^ 64
               <= Z.of_nat (length hello)) by by_evaluation.
  exact (cache_read_bounds_check_wraps (E := sample_externals) sample_cache
           (sample_id Byte.x01) (sample_io Byte.x01 0 (2 ^ 64 - 1) 1) [] hello
           H1 H2 H3 H4 H5 H6).
Defined.

(** ** The hash of a cache key *)

Lemma hash_words_fold (ws : list (list byte)) : forall rest h,
  Forall (fun w => length w = 8%nat) ws ->
  cache_hash.hash_words (length ws) (concat ws ++ rest) h =
    fold_left Z.lxor (map le_combine ws) h.
Proof.
  induction ws as [|w ws IH]; intros rest h Hws; [done|].
  inversion Hws as [|? ? Hw Hws']; subst. simpl.
  rewrite <- app_assoc.
  rewrite take_app_length' by done. rewrite drop_app_length' by done.
  by apply IH.
Qed.

Lemma fold_left_lxor_perm (xs ys : list Z) :
  Permutation xs ys -> forall h, fold_left Z.lxor xs h = fold_left Z.lxor ys h.
Proof.
  induction 1 as [|x xs ys _ IH|x y xs|xs ys zs _ IH1 _ IH2]; intros h; simpl.
  - done.
  - apply IH.
  - f_equal. rewrite !Z.lxor_assoc. f_equal. apply Z.lxor_comm.
  - by rewrite IH1.
Qed.

(** X28: the hash of a cache key does not see the order of the 8-byte
    words of the identifier, nor anything after the last whole word: two
    identifiers made of the same words in any order hash alike. *)
Theorem cache_hash_ignores_word_order `{E : Externals}
    (ws ws' : list (list byte)) (rest rest' : list byte) :
  Forall (fun w => length w = 8%nat) ws ->
  length ws = (DNET_ID_SIZE / 8)%nat ->
  Permutation ws ws' ->
  cache_hash.hash (concat ws ++ rest) = cache_hash.hash (concat ws' ++ rest').
Proof.
  intros Hws Hlen Hperm.
  assert (Hws' : Forall (fun w => length w = 8%nat) ws')
    by (by rewrite <- Hperm).
  assert (Hlen' : length ws' = (DNET_ID_SIZE / 8)%nat)
    by (by rewrite <- Hperm).
  unfold cache_hash.hash. rewrite <- Hlen at 1. rewrite <- Hlen'.
  rewrite !hash_words_fold by done.
  apply fold_left_lxor_perm. by apply Permutation_map.
Qed.

Lemma cache_hash_ignores_word_order_witness :
  cache_hash.hash (H := sample_externals) (concat sample_words ++ []) =
  cache_hash.hash (H := sample_externals) (concat sample_words' ++ hello).
Proof.
  assert (H1 : Forall (fun w : list byte => length w = 8%nat) sample_words)
    by (repeat constructor).
  assert (H2 : length sample_words =
               (DNET_ID_SIZE (Externals := sample_externals) / 8)%nat)
    by reflexivity.
  assert (H3 : Permutation sample_words sample_words') by apply perm_swap.
  exact (cache_hash_ignores_word_order (E := sample_externals) sample_words
           sample_words' [] hello H1 H2 H3).
Defined.

(** ** The recovery driver: its argument *)

Lemma lower_ascii_idemp c :
  recovery.lower_ascii (recovery.lower_ascii c) = recovery.lower_ascii c.
Proof. destruct c as [[] [] [] [] [] [] [] []]; reflexivity. Qed.

Lemma lower_idemp s : recovery.lower (recovery.lower s) = recovery.lower s.
Proof.
  induction s as [|c s IH]; [done|]. simpl. by rewrite lower_ascii_idemp, IH.
Qed.

Lemma recovery_type_of_lower a :
  recovery.recovery_type_of [recovery.lower a] = recovery.recovery_type_of [a].
Proof. unfold recovery.recovery_type_of. simpl. by rewrite lower_idemp. Qed.

(** X29: the driver looks at its positional argument only through its
    lower-case form, and starts nothing unless there is exactly one
    argument that spells [merge] or [dc] in some mix of cases: otherwise
    it ends with an uncaught [ValueError], exit status 1, and neither the
    setup nor a recovery routine has run. *)
Theorem recovery_argument_is_case_insensitive {Ctx : Type}
    (setup : string -> recovery.py_outcome Ctx)
    (merge_main dc_main : Ctx -> recovery.py_outcome recovery.py_value) :
  (forall a,
     recovery.dnet_recovery setup merge_main dc_main [a] =
     recovery.dnet_recovery setup merge_main dc_main [recovery.lower a]) /\
  (forall args,
     (exists a, args = [a] /\
        (recovery.lower a = recovery.TYPE_MERGE \/
         recovery.lower a = recovery.TYPE_DC)) \/
     (forall setup' merge_main' dc_main',
        recovery.dnet_recovery (Ctx := Ctx) setup' merge_main' dc_main' args =
          recovery.Uncaught "ValueError") /\
     recovery.exit_code (recovery.dnet_recovery setup merge_main dc_main args) = 1).
Proof.
  split.
  - intros a. unfold recovery.dnet_recovery. by rewrite recovery_type_of_lower.
  - intros args. unfold recovery.dnet_recovery.
    destruct (recovery.recovery_type_of args) as [t|e] eqn:Ht.
    + left. pose proof (recovery_type_of_allowed _ _ Ht) as Hallowed.
      unfold recovery.recovery_type_of in Ht.
      destruct (1 <? length args)%nat eqn:Hlen; [discriminate|].
      destruct args as [|a args]; [discriminate|].
      destruct args as [|a' args]; [|simpl in Hlen; discriminate].
      destruct (negb _); [discriminate|].
      inversion Ht; subst t. by exists a.
    + right.
      assert (He : e = "ValueError"%string).
      { unfold recovery.recovery_type_of in Ht.
        destruct (1 <? length args)%nat; [by inversion Ht|].
        destruct args as [|a args]; [by inversion Ht|].
        destruct (negb _); by inversion Ht. }
      subst e. split; [|done]. intros setup' merge_main' dc_main'.
      reflexivity.
Qed.

(** ** The recovery driver: stale files *)

Section stale_files.
Import recovery recovery_files.

Lemma prefix_head p ps c s :
  String.prefix (String p ps) (String c s) = true -> c = p.
Proof. simpl. destruct (ascii_dec p c); [done|discriminate]. Qed.

(** No name starts with two of the prefixes. *)
Lemma stale_prefixes_exclusive file_name :
  (String.prefix "iterator_" file_name = true ->
   String.prefix "diff_" file_name = false /\
   String.prefix "merge_" file_name = false) /\
  (String.prefix "diff_" file_name = true ->
   String.prefix "merge_" file_name = false).
Proof.
  destruct file_name as [|c s]; [by split|].
  split.
  - intros H. apply prefix_head in H. subst c. by split.
  - intros H. apply prefix_head in H. by subst c.
Qed.

Lemma unlink_file d name :
  d name = Some File ->
  unlink d name = Returned (fun n => if String.eqb n name then None else d n).
Proof. intros Hd. unfold unlink. by rewrite Hd. Qed.

(** The inner loop on a name that is a file: one [unlink] if the name is
    stale, none if it is not. *)
Lemma cleanup_prefixes_file d file_name :
  d file_name = Some File ->
  cleanup_prefixes file_name TMP_FILE_PREFIXES d =
    Returned (if stale file_name
              then fun n => if String.eqb n file_name then None else d n
              else d).
Proof.
  intros Hd. unfold stale, TMP_FILE_PREFIXES. simpl.
  destruct (stale_prefixes_exclusive file_name) as [Hi Hdm].
  destruct (String.prefix "iterator_" file_name) eqn:H1.
  - destruct (Hi eq_refl) as [H2 H3]. rewrite H2, H3.
    by rewrite (unlink_file _ _ Hd).
  - destruct (String.prefix "diff_" file_name) eqn:H2.
    + rewrite (Hdm eq_refl). by rewrite (unlink_file _ _ Hd).
    + destruct (String.prefix "merge_" file_name) eqn:H3; [|done].
      by rewrite (unlink_file _ _ Hd).
Qed.

Lemma cleanup_names_cons file_name rest d :
  cleanup_names (file_name :: rest) d =
    if negb (isfile d file_name) then cleanup_names rest d
    else
      match cleanup_prefixes file_name TMP_FILE_PREFIXES d with
      | Raised e => Raised e
      | Returned d' => cleanup_names rest d'
      end.
Proof. reflexivity. Qed.

Lemma cleanup_names_spec names : forall d,
  exists d',
    cleanup_names names d = Returned d' /\
    forall n,
      d' n = if bool_decide (n ∈ names) && isfile d n && stale n
             then None else d n.
Proof.
  induction names as [|name names IH]; intros d.
  { exists d. split; [done|]. intros n. by rewrite bool_decide_eq_false_2
      by apply not_elem_of_nil. }
  rewrite cleanup_names_cons. destruct (isfile d name) eqn:Hfile; cbn [negb].
  - assert (Hd : d name = Some File).
    { unfold isfile in Hfile. by destruct (d name) as [[]|]. }
    rewrite (cleanup_prefixes_file _ _ Hd).
    destruct (IH (if stale name
                  then fun n => if String.eqb n name then None else d n
                  else d)) as (d' & Hrun & Hd').
    exists d'. split; [done|]. intros n. rewrite Hd'.
    destruct (String.eqb_spec n name) as [->|Hne].
    + rewrite (bool_decide_eq_true_2 (name ∈ name :: names)) by (apply elem_of_cons; by left).
      rewrite Hfile. simpl.
      destruct (stale name) eqn:Hst; unfold isfile;
        rewrite ?String.eqb_refl, ?Hd;
        destruct (bool_decide (name ∈ names)); reflexivity.
    + assert (Hiff : bool_decide (n ∈ name :: names) = bool_decide (n ∈ names)).
      { apply bool_decide_ext. rewrite elem_of_cons.
        split; [|by right]. by intros [Heq|Hin]. }
      rewrite Hiff.
      destruct (stale name); [|done].
      unfold isfile. by rewrite (proj2 (String.eqb_neq n name) Hne).
  - destruct (IH d) as (d' & Hrun & Hd'). exists d'. split; [done|].
    intros n. rewrite Hd'.
    destruct (String.eqb_spec n name) as [->|Hne].
    + rewrite Hfile. by destruct (bool_decide _), (bool_decide _).
    + assert (Hiff : bool_decide (n ∈ name :: names) = bool_decide (n ∈ names)).
      { apply bool_decide_ext. rewrite elem_of_cons.
        split; [|by right]. by intros [Heq|Hin]. }
      by rewrite Hiff.
Qed.

End stale_files.

(** X30: [cleanup] removes from the current directory exactly the names
    that [os.listdir] gave, are regular files there and start with
    [iterator_], [diff_] or [merge_]; every other name, and every
    directory, stays as it was.  Once [os.listdir] has returned, no
    [unlink] fails: a name is unlinked at most once, since no name starts
    with two of the prefixes. *)
Theorem cleanup_removes_exactly_the_stale_files
    (listdir : string -> recovery.py_outcome (list string)) (path : string)
    (d : recovery_files.directory) (names : list string) :
  listdir path = recovery.Returned names ->
  exists d',
    recovery_files.cleanup listdir path d = recovery.Returned d' /\
    forall n,
      d' n = if bool_decide (n ∈ names) && recovery_files.isfile d n
                && recovery_files.stale n
             then None else d n.
Proof.
  intros Hls. unfold recovery_files.cleanup. rewrite Hls.
  apply cleanup_names_spec.
Qed.

Lemma cleanup_removes_exactly_the_stale_files_witness :
  exists d',
    recovery_files.cleanup (fun _ => recovery.Returned sample_listing) "/var/tmp"
      sample_directory = recovery.Returned d' /\
    forall n,
      d' n = if bool_decide (n ∈ sample_listing)
                && recovery_files.isfile sample_directory n
                && recovery_files.stale n
             then None else sample_directory n.
Proof.
  assert (H1 : (fun _ : string => recovery.Returned sample_listing) "/var/tmp"%string =
               recovery.Returned sample_listing) by reflexivity.
  exact (cleanup_removes_exactly_the_stale_files
           (fun _ => recovery.Returned sample_listing) "/var/tmp" sample_directory
           sample_listing H1).
Defined.

(** ** A WRITE that fails *)

(** X16: a WRITE is not undone when it fails.  A WRITE without the
    history flag that returns an error has either changed nothing in the
    backend, or has appended and indexed its data record and moved the
    data tail, with the history index and the history tail as they were:
    the failure of the history update does not take the data record
    back. *)
Theorem failed_write_is_not_rolled_back `{E : Externals} r io data os err r' os' :
  Z.land (io_flags io) DNET_IO_FLAGS_HISTORY = 0 ->
  datafd r <> historyfd r ->
  - 2 ^ 63 <= data_offset r < 2 ^ 63 ->
  blob_write r io data os = (err, r', os') -> err <> 0 ->
  r' = r \/
  exists pad : nat,
    let key0 := blob_key (io_origin io) 0 in
    let rec := blob_record io data pad in
    hash r' =
      <[key0 := {| rc_key := key0; rc_offset := data_offset r;
                   rc_size := Z.of_nat (length rec) |}]> (hash r) /\
    data_offset r' = data_offset r + Z.of_nat (length rec) /\
    history_offset r' = history_offset r /\
    exists f,
      os_files os !! datafd r = Some f /\
      os_files os' !! datafd r =
        Some (write_at f (Z.to_nat (data_offset r)) rec).
Proof.
  intros Hflag Hne Htail Hrun Herr.
  unfold blob_write in Hrun. rewrite Hflag in Hrun. simpl in Hrun.
  destruct (blob_write_raw r 0 io data os) as [[e1 r1] os1] eqn:Hw.
  destruct (negb (e1 =? 0)) eqn:He1.
  { apply negb_true_iff, Z.eqb_neq in He1.
    destruct (blob_write_raw_err _ _ _ _ _ _ _ _ Hw He1) as [_ ->].
    left. by inversion Hrun. }
  apply negb_false_iff, Z.eqb_eq in He1. subst e1.
  destruct (Z.land (io_flags io) DNET_IO_FLAGS_NO_HISTORY_UPDATE =? 0);
    [|inversion Hrun; lia].
  right.
  destruct (blob_write_raw_ok _ _ _ _ _ _ _ Hw)
    as (f & pad & Hf & Hdata & Hlim & Hos1 & Hr1 & _).
  change (log_fd r 0) with (datafd r) in *.
  change (log_tail r 0) with (data_offset r) in *.
  change (c_bool 0) with 0 in *.
  assert (Hlimit : file_limit os <= 2 ^ 63 - 1) by (unfold file_limit, OFF_MAX; lia).
  pose proof sizeof_blob_disk_control_range as Hso.
  pose proof (to_size_t_range (io_size io)).
  pose proof (to_size_t_range (data_offset r)).
  assert (Ht : to_size_t (data_offset r) = data_offset r) by int_lia.
  rewrite Ht in *.
  pose proof (length_blob_record io data pad Hdata) as Hrec.
  rewrite <- Hrec in Hr1.
  match type of Hrun with
  | context [blob_write_history r1 ?io' ?e os1] =>
    pose proof (blob_write_history_extends r1 io' e os1) as Hext;
    unfold blob_write_history, backend_write_history in Hrun, Hext;
    destruct (backend_split_meta io' e) as [m d];
    destruct (blob_write_history_meta r1 io' m d os1) as [[e2 r2] os2] eqn:Hh
  end.
  simpl in Hext.
  destruct (negb (e2 =? 0)) eqn:He2; [|inversion Hrun; lia].
  apply negb_true_iff, Z.eqb_neq in He2.
  inversion Hrun; subst e2 r2 os2; clear Hrun.
  assert (Hr' : r' = r1).
  { destruct (blob_write_history_meta_shape _ _ _ _ _ _ _ _ Hh)
      as (os1' & _ & [(-> & _)|(io' & new & e & _ & Hw2 & Hiff)]); [done|].
    assert (He : e <> 0) by (intros He; apply Herr, Hiff, He).
    by destruct (blob_write_raw_err _ _ _ _ _ _ _ _ Hw2 He) as [_ ->]. }
  subst r'. exists pad. cbv zeta.
  split; [by rewrite Hr1|]. split; [by rewrite Hr1|]. split; [by rewrite Hr1|].
  exists f. split; [done|].
  assert (Hhfd : historyfd r1 = historyfd r) by (by rewrite Hr1).
  rewrite Hhfd in Hext.
  destruct Hext as (_ & _ & _ & Ho & _).
  rewrite Ho by done. rewrite Hos1. apply os_files_set_file.
Qed.

Lemma failed_write_is_not_rolled_back_witness :
  - ENOSPC <> 0 /\ data_offset (snd (fst sample_write_small)) = 128 /\
  (snd (fst sample_write_small) = sample_backend 64 0 \/
   exists pad : nat,
     let key0 := blob_key (H := sample_externals) (io_origin sample_io10) 0 in
     let rec := blob_record (H := sample_externals) sample_io10 sample_payload pad in
     hash (snd (fst sample_write_small)) =
       <[key0 := {| rc_key := key0; rc_offset := data_offset (sample_backend 64 0);
                    rc_size := Z.of_nat (length rec) |}]>
         (hash (sample_backend 64 0)) /\
     data_offset (snd (fst sample_write_small)) =
       data_offset (sample_backend 64 0) + Z.of_nat (length rec) /\
     history_offset (snd (fst sample_write_small)) =
       history_offset (sample_backend 64 0) /\
     exists f,
       os_files sample_os_small !! datafd (sample_backend 64 0) = Some f /\
       os_files (snd sample_write_small) !! datafd (sample_backend 64 0) =
         Some (write_at f (Z.to_nat (data_offset (sample_backend 64 0))) rec)).
Proof.
  assert (H1 : Z.land (io_flags sample_io10)
                 (DNET_IO_FLAGS_HISTORY (Externals := sample_externals)) = 0)
    by by_evaluation.
  assert (H0 : datafd (sample_backend 64 0) <> historyfd (sample_backend 64 0))
    by by_evaluation.
  assert (H2 : - 2 ^ 63 <= data_offset (sample_backend 64 0) < 2 ^ 63)
    by by_evaluation.
  assert (H3 : blob_write (H := sample_externals) (sample_backend 64 0) sample_io10
                 sample_payload sample_os_small =
               (- ENOSPC, snd (fst sample_write_small), snd sample_write_small)).
  { change (blob_write (H := sample_externals) (sample_backend 64 0) sample_io10
              sample_payload sample_os_small) with sample_write_small.
    assert (Hfst : fst (fst sample_write_small) = - ENOSPC) by by_evaluation.
    rewrite <- Hfst. clear. by destruct sample_write_small as [[e b] o]. }
  assert (H4 : - ENOSPC <> 0) by by_evaluation.
  split; [exact H4|]. split; [by_evaluation|].
  exact (failed_write_is_not_rolled_back (E := sample_externals)
           (sample_backend 64 0) sample_io10 sample_payload sample_os_small
           (- ENOSPC) (snd (fst sample_write_small)) (snd sample_write_small)
           H1 H0 H2 H3 H4).
Defined.

(** ** The rebuild scan over what the write path has written *)

Lemma write_at_end (f bs : list byte) : write_at f (length f) bs = f ++ bs.
Proof.
  unfold write_at. rewrite resize_all_alt by done.
  rewrite drop_ge by lia. by rewrite app_nil_r.
Qed.

Section rebuild.
Context `{E : Externals}.









End rebuild.



(** ** The rebuild scan over any file *)

Section rebuild_bounds.
Context `{E : Externals}.

Lemma set_hash_set_hash h h' b : set_hash h (set_hash h' b) = set_hash h b.
Proof. reflexivity. Qed.

(** Two backends that differ in the index at most. *)
Lemma set_hash_fields h b b' :
  set_hash h b = b' ->
  datafd b = datafd b' /\ historyfd b = historyfd b' /\
  data_bsize b = data_bsize b' /\ history_bsize b = history_bsize b' /\
  data_offset b = data_offset b' /\ history_offset b = history_offset b'.
Proof. intros <-. by repeat split. Qed.

(** What [dnet_blob_iter] leaves of the backend. *)
Lemma dnet_blob_iter_fields dc data position b hist :
  fst (dnet_blob_iter dc data position b hist) = 0 /\
  set_hash (hash b) (snd (dnet_blob_iter dc data position b hist)) = b.
Proof.
  unfold dnet_blob_iter. destruct (negb _); [by destruct b|].
  unfold dnet_hash_replace. simpl. by destruct b.
Qed.

(** The entries a scan of [f] adds to the index lie inside [f]. *)
Lemma blob_iterate_loop_bounds hist f bsize callback :
  0 <= bsize -> Z.of_nat (length f) < 2 ^ 63 ->
  (forall dc data position priv,
     callback dc data position priv = dnet_blob_iter dc data position priv hist) ->
  forall fuel position priv,
    0 <= position ->
    fst (blob_iterate_loop fuel f bsize callback position priv) = 0 /\
    set_hash (hash priv) (snd (blob_iterate_loop fuel f bsize callback position priv))
      = priv /\
    forall key ctl,
      hash (snd (blob_iterate_loop fuel f bsize callback position priv)) !! key
        = Some ctl ->
      hash priv !! key = Some ctl \/
      exists origin,
        key = blob_key origin hist /\ rc_key ctl = key /\
        0 <= rc_offset ctl /\ sizeof_blob_disk_control <= rc_size ctl /\
        rc_offset ctl + rc_size ctl <= Z.of_nat (length f).
Proof.
  intros Hb Hlen Hcb. pose proof sizeof_blob_disk_control_range as Hso.
  induction fuel as [|fuel IH]; intros position priv Hpos.
  { simpl. split; [done|]. split; [by destruct priv|]. auto. }
  rewrite blob_iterate_loop_S. cbv zeta.
  destruct (_ <? sizeof_blob_disk_control) eqn:Hrem.
  { simpl. split; [done|]. split; [by destruct priv|]. auto. }
  apply Z.ltb_ge in Hrem.
  set (dc := blob_disk_control_of_bytes _).
  destruct (_ - _ <? dc_size dc) eqn:Hfit.
  { simpl. split; [done|]. split; [by destruct priv|]. auto. }
  apply Z.ltb_ge in Hfit.
  pose proof (dc_size_of_bytes_range
    (read_at f (Z.to_nat position) (Z.to_nat sizeof_blob_disk_control))) as Hr.
  fold dc in Hr.
  rewrite Hcb.
  set (data := read_at f _ (Z.to_nat (dc_size dc))).
  pose proof (dnet_blob_iter_fields dc data position priv hist) as [Herr Hsame].
  assert (Hent : forall key ctl,
    hash (snd (dnet_blob_iter dc data position priv hist)) !! key = Some ctl ->
    hash priv !! key = Some ctl \/
    exists origin,
      key = blob_key origin hist /\ rc_key ctl = key /\
      0 <= rc_offset ctl /\ sizeof_blob_disk_control <= rc_size ctl /\
      rc_offset ctl + rc_size ctl <= Z.of_nat (length f)).
  { intros key ctl. unfold dnet_blob_iter.
    destruct (negb _); [auto|].
    unfold dnet_hash_replace. simpl.
    destruct (decide (key = memcpy_id (dc_id dc) ++ [byte.of_Z hist])) as [->|Hne].
    - rewrite lookup_insert_eq. intros [= <-]. right. exists (dc_id dc). simpl.
      rewrite (to_size_t_id position) by lia.
      rewrite (to_off_t_id (dc_size dc + sizeof_blob_disk_control)) by lia.
      repeat split; try done; lia.
    - rewrite lookup_insert_ne by done. auto. }
  destruct (dnet_blob_iter dc data position priv hist) as [err priv1].
  simpl in Herr, Hsame, Hent. subst err.
  change (negb (0 =? 0)) with false. cbv iota.
  pose proof (blob_padding_nonneg bsize (sizeof_blob_disk_control + dc_size dc) Hb).
  destruct (IH (position + (sizeof_blob_disk_control + dc_size dc)
                + blob_padding bsize (sizeof_blob_disk_control + dc_size dc)) priv1)
    as (Hfst & Hsame' & Hent'); [lia|].
  split; [done|]. split.
  { rewrite <- (set_hash_set_hash (hash priv) (hash priv1)).
    by rewrite Hsame'. }
  intros key ctl Hk. destruct (Hent' key ctl Hk) as [Hold|Hnew]; [|by right].
  by apply Hent.
Qed.

End rebuild_bounds.

(** X23: the rebuild keeps the index inside the files, whatever the
    files hold.  When both tails are at the ends of their files, as the
    [lseek] of [dnet_blob_set_data] leaves them, a [dnet_blob_config_init]
    that succeeds yields a backend whose every index entry describes a
    block of at least a header that lies inside the file of its log.  The
    scan loop of [blob_iterate] is the one of section 4.2 of the
    specification. *)
Theorem rebuild_keeps_the_index_inside_the_files `{E : Externals}
    r os r' fdat fhis :
  os_files os !! datafd r = Some fdat -> os_files os !! historyfd r = Some fhis ->
  data_offset r = Z.of_nat (length fdat) ->
  history_offset r = Z.of_nat (length fhis) ->
  data_offset r < 2 ^ 63 -> history_offset r < 2 ^ 63 ->
  0 <= data_bsize r -> 0 <= history_bsize r ->
  dnet_blob_config_init r os = (0, r') ->
  index_in_bounds r' os.
Proof.
  intros Hfd Hfh Hdt Hht Hdl Hhl Hdb Hhb Hrun.
  unfold dnet_blob_config_init in Hrun.
  destruct ((datafd r =? 0) || (historyfd r =? 0)); [inversion Hrun|].
  set (r0 := if hash_size r =? 0
             then set_hash_size DNET_BLOB_DEFAULT_HASH_SIZE r else r) in *.
  assert (Hr0 : datafd r0 = datafd r /\ historyfd r0 = historyfd r /\
                data_bsize r0 = data_bsize r /\ history_bsize r0 = history_bsize r /\
                data_offset r0 = data_offset r /\
                history_offset r0 = history_offset r).
  { unfold r0. by destruct (hash_size r =? 0). }
  destruct Hr0 as (H0d & H0h & H0db & H0hb & H0do & H0ho).
  cbv zeta in Hrun. unfold dnet_hash_init in Hrun.
  set (r1 := set_hash ∅ r0) in *.
  unfold blob_iterate in Hrun.
  change (datafd r1) with (datafd r0) in Hrun.
  change (data_bsize r1) with (data_bsize r0) in Hrun.
  rewrite H0d, Hfd, H0db in Hrun.
  destruct (blob_iterate_loop_bounds 0 fdat (data_bsize r) dnet_blob_iter_data
              Hdb ltac:(lia) ltac:(reflexivity) (S (length fdat)) 0 r1 ltac:(lia))
    as (Hfst1 & Hsame1 & Hent1).
  destruct (blob_iterate_loop (S (length fdat)) fdat (data_bsize r)
              dnet_blob_iter_data 0 r1) as [e1 r2].
  simpl in Hfst1, Hsame1, Hent1. subst e1.
  change (negb (0 =? 0)) with false in Hrun. cbv iota in Hrun.
  assert (Hr2 : historyfd r2 = historyfd r /\ history_bsize r2 = history_bsize r /\
                datafd r2 = datafd r /\
                data_offset r2 = data_offset r /\
                history_offset r2 = history_offset r).
  { destruct (set_hash_fields _ _ _ Hsame1) as (Ha & Hb & _ & Hc & Hd & He).
    change (datafd r1) with (datafd r0) in Ha.
    change (historyfd r1) with (historyfd r0) in Hb.
    change (history_bsize r1) with (history_bsize r0) in Hc.
    change (data_offset r1) with (data_offset r0) in Hd.
    change (history_offset r1) with (history_offset r0) in He.
    rewrite Ha, Hb, Hc, Hd, He. by repeat split. }
  destruct Hr2 as (H2h & H2hb & H2d & H2do & H2ho).
  rewrite H2h, Hfh, H2hb in Hrun.
  destruct (blob_iterate_loop_bounds 1 fhis (history_bsize r) dnet_blob_iter_history
              Hhb ltac:(lia) ltac:(reflexivity) (S (length fhis)) 0 r2 ltac:(lia))
    as (Hfst2 & Hsame2 & Hent2).
  destruct (blob_iterate_loop (S (length fhis)) fhis (history_bsize r)
              dnet_blob_iter_history 0 r2) as [e2 r3].
  simpl in Hfst2, Hsame2, Hent2. subst e2.
  change (negb (0 =? 0)) with false in Hrun. cbv iota in Hrun.
  inversion Hrun; subst r'; clear Hrun.
  assert (Hr3 : historyfd r3 = historyfd r /\ datafd r3 = datafd r /\
                data_offset r3 = data_offset r /\
                history_offset r3 = history_offset r).
  { destruct (set_hash_fields _ _ _ Hsame2) as (Ha & Hb & _ & _ & Hd & He).
    rewrite Ha, Hb, Hd, He. by repeat split. }
  destruct Hr3 as (H3h & H3d & H3do & H3ho).
  split; [|split].
  - unfold log_in_bounds, log_tail, log_fd. simpl.
    rewrite H3do, H3d, Hfd. split; [lia|]. exists fdat. split; [done|lia].
  - unfold log_in_bounds, log_tail, log_fd. simpl.
    rewrite H3ho, H3h, Hfh. split; [lia|]. exists fhis. split; [done|lia].
  - intros key ctl Hk.
    destruct (Hent2 key ctl Hk) as [Hold|(origin & -> & Hkey & Ho & Hs & Hend)].
    + destruct (Hent1 key ctl Hold) as [Hempty|(origin & -> & Hkey & Ho & Hs & Hend)].
      * unfold r1 in Hempty. simpl in Hempty. by rewrite lookup_empty in Hempty.
      * exists origin, 0. change (c_bool 0) with 0.
        change (log_tail r3 0) with (data_offset r3). rewrite H3do.
        repeat split; try done. lia.
    + exists origin, 1. change (c_bool 1) with 1.
      change (log_tail r3 1) with (history_offset r3). rewrite H3ho.
      repeat split; try done. lia.
Qed.

Lemma rebuild_keeps_the_index_inside_the_files_witness :
  index_in_bounds (H := sample_externals) (snd (sample_rebuilt 64))
    (snd (sample_two_writes 64)).
Proof.
  assert (H1 : os_files (snd (sample_two_writes 64))
                 !! datafd (snd (fst (sample_two_writes 64))) =
               Some (default [] (os_files (snd (sample_two_writes 64)) !! 3)))
    by by_evaluation.
  assert (H2 : os_files (snd (sample_two_writes 64))
                 !! historyfd (snd (fst (sample_two_writes 64))) =
               Some (default [] (os_files (snd (sample_two_writes 64)) !! 4)))
    by by_evaluation.
  assert (H3 : data_offset (snd (fst (sample_two_writes 64))) =
               Z.of_nat (length (default [] (os_files (snd (sample_two_writes 64))
                                               !! 3)))) by by_evaluation.
  assert (H4 : history_offset (snd (fst (sample_two_writes 64))) =
               Z.of_nat (length (default [] (os_files (snd (sample_two_writes 64))
                                               !! 4)))) by by_evaluation.
  assert (H5 : data_offset (snd (fst (sample_two_writes 64))) < 2 ^ 63)
    by by_evaluation.
  assert (H6 : history_offset (snd (fst (sample_two_writes 64))) < 2 ^ 63)
    by by_evaluation.
  assert (H7 : 0 <= data_bsize (snd (fst (sample_two_writes 64)))) by by_evaluation.
  assert (H8 : 0 <= history_bsize (snd (fst (sample_two_writes 64))))
    by by_evaluation.
  assert (H9 : dnet_blob_config_init (H := sample_externals)
                 (snd (fst (sample_two_writes 64))) (snd (sample_two_writes 64)) =
               (0, snd (sample_rebuilt 64))).
  { change (dnet_blob_config_init (H := sample_externals)
              (snd (fst (sample_two_writes 64))) (snd (sample_two_writes 64)))
      with (sample_rebuilt 64).
    assert (Hfst : fst (sample_rebuilt 64) = 0) by by_evaluation.
    rewrite <- Hfst. clear. by destruct (sample_rebuilt 64). }
  exact (rebuild_keeps_the_index_inside_the_files (E := sample_externals)
           (snd (fst (sample_two_writes 64))) (snd (sample_two_writes 64))
           (snd (sample_rebuilt 64)) _ _ H1 H2 H3 H4 H5 H6 H7 H8 H9).
Defined.

(** ** Reading back without a copy *)

(** X11: the zero-copy path hands out the bytes that were appended.
    After a successful append of a record, a READ of [n] bytes at offset
    [o] of the same key, with [0 < n] and [o + n] within the payload, that
    takes the zero-copy path queues a reply on the descriptor of the log
    whose region, [rq_size] bytes from [rq_offset], holds bytes [o] to
    [o + n] of the payload; the answer is the transport's, and no file
    and no byte of the caller's buffer has changed. *)
Theorem zero_copy_read_queues_the_slice_written `{E : Externals}
    b hist io data os b' os' cmd attr rio buf :
  blob_write_raw b hist io data os = (0, b', os') ->
  io_origin rio = io_origin io ->
  c_bool (Z.land (io_flags rio) DNET_IO_FLAGS_HISTORY) = c_bool hist ->
  0 <= io_offset rio -> 0 < io_size rio ->
  io_offset rio + io_size rio <= to_size_t (io_size io) ->
  attr_size attr = sizeof_dnet_io_attr ->
  dnet_req_alloc (sizeof_dnet_cmd + sizeof_dnet_attr + sizeof_dnet_io_attr) = true ->
  exists (r : dnet_data_req) (f' : list byte),
    rd_req (blob_read b' cmd attr rio buf os') = Some r /\
    rd_err (blob_read b' cmd attr rio buf os') = dnet_data_ready r /\
    rd_data (blob_read b' cmd attr rio buf os') = buf /\
    rd_os (blob_read b' cmd attr rio buf os') = os' /\
    rq_fd r = log_fd b hist /\ rq_size r = io_size rio /\
    os_files os' !! rq_fd r = Some f' /\
    read_at f' (Z.to_nat (rq_offset r)) (Z.to_nat (rq_size r)) =
      read_at data (Z.to_nat (io_offset rio)) (Z.to_nat (io_size rio)).
Proof.
  intros Hrun Horigin Hflag Hoff Hsize Hin Hattr Halloc.
  destruct (blob_read_after_append _ _ _ _ _ _ _ _ Hrun Horigin Hflag)
    as (f & pad & Hctl & Hfile & Hdata & Hlim & _).
  assert (Hlimit : file_limit os <= 2 ^ 63 - 1) by (unfold file_limit, OFF_MAX; lia).
  pose proof sizeof_blob_disk_control_range as Hso.
  pose proof (to_size_t_range (log_tail b hist)) as Ht.
  pose proof (to_size_t_range (io_size io)) as Hsz.
  pose proof (length_blob_record io data pad Hdata) as Hrec.
  assert (Hn : to_size_t (io_size rio) = io_size rio) by int_lia.
  assert (Hfd : (if negb (Z.land (io_flags rio) DNET_IO_FLAGS_HISTORY =? 0)
                 then historyfd b' else datafd b') = log_fd b hist).
  { destruct (blob_write_raw_ok _ _ _ _ _ _ _ Hrun)
      as (f0 & pad0 & _ & _ & _ & _ & Hb & _).
    rewrite Hb. apply c_bool_eqb in Hflag. rewrite Hflag.
    unfold log_fd, set_log_tail. by destruct (hist =? 0). }
  assert (Hfile' : os_files os' !! log_fd b hist =
                   Some (write_at f (Z.to_nat (to_size_t (log_tail b hist)))
                           (blob_record io data pad))).
  { rewrite <- Hfile. f_equal.
    destruct (blob_write_raw_ok _ _ _ _ _ _ _ Hrun)
      as (f0 & pad0 & _ & _ & _ & _ & Hb & _).
    rewrite Hb. apply c_bool_eqb in Hflag.
    unfold log_fd, set_log_tail. rewrite Hflag. by destruct (hist =? 0). }
  unfold blob_read, dnet_hash_lookup. rewrite Hctl. simpl.
  rewrite Hattr, Z.eqb_refl, Halloc. simpl.
  rewrite Hn, (proj2 (Z.eqb_neq (io_size rio) 0)) by lia.
  rewrite Hfd.
  eexists _, _. split; [reflexivity|]. split; [reflexivity|].
  split; [reflexivity|]. split; [reflexivity|]. simpl.
  split; [reflexivity|]. split; [reflexivity|]. split; [exact Hfile'|].
  rewrite (to_off_t_id (to_size_t (log_tail b hist) + sizeof_blob_disk_control
                        + io_offset rio)) by lia.
  replace (Z.to_nat (to_size_t (log_tail b hist) + sizeof_blob_disk_control
                     + io_offset rio))
    with (Z.to_nat (to_size_t (log_tail b hist))
          + (Z.to_nat sizeof_blob_disk_control + Z.to_nat (io_offset rio)))%nat
    by lia.
  rewrite read_at_write_at_inside by lia.
  apply read_at_blob_record; [done|lia].
Qed.

Lemma zero_copy_read_queues_the_slice_written_witness :
  exists (r : dnet_data_req) (f' : list byte),
    rd_req (blob_read (H := sample_externals) (snd (fst sample_append)) sample_cmd
              sample_zero_copy_attr (sample_io Byte.x01 0 3 6) []
              (snd sample_append)) = Some r /\
    rd_err (blob_read (H := sample_externals) (snd (fst sample_append)) sample_cmd
              sample_zero_copy_attr (sample_io Byte.x01 0 3 6) []
              (snd sample_append)) =
      dnet_data_ready (Externals := sample_externals) r /\
    rd_data (blob_read (H := sample_externals) (snd (fst sample_append)) sample_cmd
               sample_zero_copy_attr (sample_io Byte.x01 0 3 6) []
               (snd sample_append)) = [] /\
    rd_os (blob_read (H := sample_externals) (snd (fst sample_append)) sample_cmd
             sample_zero_copy_attr (sample_io Byte.x01 0 3 6) []
             (snd sample_append)) = snd sample_append /\
    rq_fd r = log_fd (sample_backend 64 0) 0 /\
    rq_size r = io_size (sample_io Byte.x01 0 3 6) /\
    os_files (snd sample_append) !! rq_fd r = Some f' /\
    read_at f' (Z.to_nat (rq_offset r)) (Z.to_nat (rq_size r)) =
      read_at sample_payload (Z.to_nat (io_offset (sample_io Byte.x01 0 3 6)))
        (Z.to_nat (io_size (sample_io Byte.x01 0 3 6))).
Proof.
  assert (H1 : blob_write_raw (H := sample_externals) (sample_backend 64 0) 0
                 (sample_io Byte.x01 0 0 10) sample_payload (sample_os 4096) =
               (0, snd (fst sample_append), snd sample_append))
    by (apply (result_eta sample_append); by_evaluation).
  assert (H2 : io_origin (sample_io Byte.x01 0 3 6) =
               io_origin (sample_io Byte.x01 0 0 10)) by by_evaluation.
  assert (H3 : c_bool (Z.land (io_flags (sample_io Byte.x01 0 3 6))
                         (DNET_IO_FLAGS_HISTORY (Externals := sample_externals))) =
               c_bool 0) by by_evaluation.
  assert (H4 : 0 <= io_offset (sample_io Byte.x01 0 3 6)) by by_evaluation.
  assert (H5 : 0 < io_size (sample_io Byte.x01 0 3 6)) by by_evaluation.
  assert (H6 : io_offset (sample_io Byte.x01 0 3 6) + io_size (sample_io Byte.x01 0 3 6)
               <= to_size_t (io_size (sample_io Byte.x01 0 0 10))) by by_evaluation.
  assert (H7 : attr_size sample_zero_copy_attr =
               sizeof_dnet_io_attr (Externals := sample_externals)) by by_evaluation.
  assert (H8 : dnet_req_alloc (Externals := sample_externals)
                 (sizeof_dnet_cmd (Externals := sample_externals)
                  + sizeof_dnet_attr (Externals := sample_externals)
                  + sizeof_dnet_io_attr (Externals := sample_externals)) = true)
    by by_evaluation.
  exact (zero_copy_read_queues_the_slice_written (E := sample_externals)
           (sample_backend 64 0) 0 (sample_io Byte.x01 0 0 10) sample_payload
           (sample_os 4096) (snd (fst sample_append)) (snd sample_append)
           sample_cmd sample_zero_copy_attr (sample_io Byte.x01 0 3 6) []
           H1 H2 H3 H4 H5 H6 H7 H8).
Defined.

(** ** Files within the limit *)

Lemma files_within_limit_same os os' :
  os_files os' = os_files os -> os_max_file os' = os_max_file os ->
  files_within_limit os -> files_within_limit os'.
Proof.
  intros Hf Hm Hlim fd f Hfd. unfold file_limit. rewrite Hm.
  apply (Hlim fd). by rewrite <- Hf.
Qed.

Lemma pwrite_within fd buf count offset os :
  files_within_limit os ->
  files_within_limit (snd (pwrite fd buf count offset os)).
Proof.
  intros Hlim.
  destruct (pwrite fd buf count offset os) as [n os'] eqn:Hw. simpl.
  destruct (Z_lt_le_dec 0 n) as [Hpos|Hnp].
  - destruct (pwrite_pos _ _ _ _ _ _ _ Hw Hpos)
      as (f & Hf & Ho & Hc & Hb & _ & Hl & ->).
    intros fd' f' Hfd'. change (file_limit (set_file _ _ os)) with (file_limit os).
    destruct (decide (fd' = fd)) as [->|Hne].
    + rewrite os_files_set_file in Hfd'. inversion Hfd'; subst f'.
      rewrite length_write_at, length_take. specialize (Hlim fd f Hf). lia.
    + rewrite os_files_set_file_ne in Hfd' by done. by apply (Hlim fd').
  - unfold pwrite in Hw.
    destruct (os_files os !! fd) as [f|];
      [|inversion Hw; subst; by apply (files_within_limit_same os)].
    destruct (offset <? 0);
      [inversion Hw; subst; by apply (files_within_limit_same os)|].
    destruct (count =? 0); [by inversion Hw; subst|].
    match type of Hw with context [if ?c then _ else _] => destruct c eqn:Hle end.
    + inversion Hw; subst. by apply (files_within_limit_same os).
    + apply Z.leb_gt in Hle. inversion Hw; subst. lia.
Qed.

Lemma blob_write_low_level_loop_within fuel : forall fd data size offset os r,
  files_within_limit os ->
  blob_write_low_level_loop fuel fd data size offset os = Some r ->
  files_within_limit (snd r).
Proof.
  induction fuel as [|fuel IH]; intros fd data size offset os r Hlim Hrun;
    simpl in Hrun; destruct (size =? 0); try discriminate;
    try (by inversion Hrun; subst).
  pose proof (pwrite_within fd data size (to_off_t offset) os Hlim) as Hstep.
  destruct (pwrite fd data size (to_off_t offset) os) as [err os1].
  simpl in Hstep.
  destruct (err <=? 0); [by inversion Hrun; subst|].
  by apply (IH _ _ _ _ _ _ Hstep Hrun).
Qed.

Lemma blob_write_low_level_within fd data size offset os :
  files_within_limit os ->
  files_within_limit (snd (blob_write_low_level fd data size offset os)).
Proof.
  intros Hlim. unfold blob_write_low_level.
  destruct (blob_write_low_level_loop _ _ _ _ _ _) as [r|] eqn:Hloop; [|done].
  by eapply blob_write_low_level_loop_within.
Qed.

Lemma blob_write_raw_pad_within fuel : forall fd bsize size offset os r,
  files_within_limit os ->
  blob_write_raw_pad fuel fd bsize size offset os = Some r ->
  files_within_limit (snd r).
Proof.
  induction fuel as [|fuel IH]; intros fd bsize size offset os r Hlim Hrun;
    simpl in Hrun; destruct (negb (size =? 0) && (size <? bsize));
    try discriminate; try (by inversion Hrun; subst).
  match type of Hrun with
  | context [blob_write_low_level fd blob_empty_buf ?sz offset os] =>
    pose proof (blob_write_low_level_within fd blob_empty_buf sz offset os Hlim)
      as Hstep;
    destruct (blob_write_low_level fd blob_empty_buf sz offset os) as [err os1]
  end.
  simpl in Hstep.
  destruct (negb (err =? 0)); [by inversion Hrun; subst|].
  by apply (IH _ _ _ _ _ _ Hstep Hrun).
Qed.

Section within.
Context `{E : Externals}.

Lemma blob_write_raw_within b hist io data os :
  files_within_limit os ->
  files_within_limit (snd (blob_write_raw b hist io data os)).
Proof.
  intros Hlim. unfold blob_write_raw.
  match goal with
  | |- context [blob_write_low_level ?fd ?buf ?size ?offset os] =>
    pose proof (blob_write_low_level_within fd buf size offset os Hlim) as H1;
    destruct (blob_write_low_level fd buf size offset os) as [e1 os1]
  end.
  simpl in H1. destruct (negb (e1 =? 0)); [done|].
  match goal with
  | |- context [blob_write_low_level ?fd data ?size ?offset os1] =>
    pose proof (blob_write_low_level_within fd data size offset os1 H1) as H2;
    destruct (blob_write_low_level fd data size offset os1) as [e2 os2]
  end.
  simpl in H2. destruct (negb (e2 =? 0)); [done|].
  match goal with
  | |- context [match ?p with Some _ => _ | None => _ end] =>
    destruct p as [[[e3 offset'] os3]|] eqn:Hpad
  end; [|done].
  assert (H3 : files_within_limit os3).
  { destruct (to_int _ =? 0).
    - by inversion Hpad; subst.
    - change os3 with (snd (e3, offset', os3)).
      by eapply blob_write_raw_pad_within. }
  destruct (negb (e3 =? 0)); [done|].
  unfold dnet_hash_replace. simpl. done.
Qed.

Lemma blob_write_history_meta_within b io m data os :
  files_within_limit os ->
  files_within_limit (snd (blob_write_history_meta b io m data os)).
Proof.
  intros Hlim. unfold blob_write_history_meta.
  destruct (dnet_hash_lookup (hash b) (blob_key (io_origin io) 1)) as [e0 ctl].
  set (size := if e0 =? 0 then to_size_t (rc_size ctl) else 0).
  destruct (negb (malloc_ok size os)); [done|].
  assert (Hold : files_within_limit
    match (if e0 =? 0 then blob_write_history_meta_old b ctl size os
           else inr ([], size, os)) with
    | inl (_, os1) => os1
    | inr (_, _, os1) => os1
    end).
  { destruct (e0 =? 0); [|done]. unfold blob_write_history_meta_old.
    pose proof (pread_files (historyfd b) size (to_off_t (rc_offset ctl)) os)
      as (Hf & _ & Hm & _).
    destruct (pread (historyfd b) size (to_off_t (rc_offset ctl)) os)
      as [[n hdata] os1].
    simpl in Hf, Hm.
    assert (H1 : files_within_limit os1) by by apply (files_within_limit_same os).
    destruct (negb (to_int n =? to_int size)); [done|].
    match goal with
    | |- context [pwrite ?fd ?buf ?count ?offset os1] =>
      pose proof (pwrite_within fd buf count offset os1 H1) as H2;
      destruct (pwrite fd buf count offset os1) as [n2 os2]
    end.
    simpl in H2. by destruct (negb _). }
  destruct (if e0 =? 0 then blob_write_history_meta_old b ctl size os
            else inr ([], size, os)) as [[e1 os1]|[[hdata size1] os1]]; [done|].
  destruct (backend_process_meta io hdata size1 m data) as [[new size2]|]; [|done].
  match goal with
  | |- context [blob_write_raw b 1 ?io' new os1] =>
    pose proof (blob_write_raw_within b 1 io' new os1 Hold) as Hw;
    destruct (blob_write_raw b 1 io' new os1) as [[e b1] os2]
  end.
  simpl in Hw. by destruct (negb (e =? 0)).
Qed.

Lemma blob_write_within r io data os :
  files_within_limit os -> files_within_limit (snd (blob_write r io data os)).
Proof.
  intros Hlim. unfold blob_write, blob_write_history, backend_write_history.
  destruct (negb (Z.land (io_flags io) DNET_IO_FLAGS_HISTORY =? 0)).
  - destruct (backend_split_meta io data) as [m d].
    pose proof (blob_write_history_meta_within r io m d os Hlim) as Hs.
    destruct (blob_write_history_meta r io m d os) as [[err r1] os1].
    by destruct (negb (err =? 0)).
  - pose proof (blob_write_raw_within r 0 io data os Hlim) as Hs.
    destruct (blob_write_raw r 0 io data os) as [[err r1] os1]. simpl in Hs.
    destruct (negb (err =? 0)); [done|].
    destruct (Z.land (io_flags io) DNET_IO_FLAGS_NO_HISTORY_UPDATE =? 0); [|done].
    match goal with
    | |- context [backend_split_meta ?io' ?e] =>
      destruct (backend_split_meta io' e) as [m d];
      pose proof (blob_write_history_meta_within r1 io' m d os1 Hs) as Hs2;
      destruct (blob_write_history_meta r1 io' m d os1) as [[err2 r2] os2]
    end.
    by destruct (negb (err2 =? 0)).
Qed.

Lemma blob_backend_command_handler_within r cmd attr io data os :
  files_within_limit os ->
  files_within_limit (snd (blob_backend_command_handler r cmd attr io data os)).
Proof.
  intros Hlim. unfold blob_backend_command_handler.
  destruct (attr_cmd attr); try done.
  - by apply blob_write_within.
  - simpl. destruct (blob_read_files r cmd attr io data os) as (Hf & _ & Hm & _).
    by apply (files_within_limit_same os).
Qed.

(** The history blocks of a store whose index lies inside files that are
    within the limit. *)
Lemma history_block_ok_of_bounds b os origin :
  index_in_bounds b os -> files_within_limit os ->
  sizeof_blob_disk_control <= os_max_io os ->
  history_block_ok b os origin.
Proof.
  intros (_ & (Ht & f & Hf & Hlen) & Hent) Hlim Hio.
  unfold history_block_ok.
  destruct (hash b !! blob_key origin 1) as [ctl|] eqn:Hk; [|done].
  change (log_fd b 1) with (historyfd b) in Hf.
  change (log_tail b 1) with (history_offset b) in *.
  rewrite Hf.
  destruct (Hent _ _ Hk) as (origin' & hist & Hkey & _ & Hoff & Hsize & Hend).
  assert (Hh : c_bool hist = 1).
  { unfold c_bool in *. destruct (hist =? 0); [|done].
    symmetry in Hkey. by apply blob_key_kinds_differ in Hkey. }
  rewrite Hh in Hend. change (log_tail b 1) with (history_offset b) in Hend.
  specialize (Hlim _ _ Hf). repeat split; lia.
Qed.

End within.

(** X20: the soundness that the statements on history updates ask of
    the indexed history block keeps itself.  In a store whose index lies
    inside its files, on a system that moves a header in one call and
    whose files are within the size limit, every history block in the
    index is sound, and this is so again after any command, whatever it
    returns. *)
Theorem handler_keeps_history_blocks_sound `{E : Externals}
    r cmd attr io data os :
  index_in_bounds r os -> files_within_limit os ->
  sizeof_blob_disk_control <= os_max_io os ->
  (forall origin, history_block_ok r os origin) /\
  files_within_limit (snd (blob_backend_command_handler r cmd attr io data os)) /\
  forall origin,
    history_block_ok
      (snd (fst (blob_backend_command_handler r cmd attr io data os)))
      (snd (blob_backend_command_handler r cmd attr io data os)) origin.
Proof.
  intros Hinv Hlim Hio.
  split; [intros origin; by apply history_block_ok_of_bounds|].
  pose proof (blob_backend_command_handler_within r cmd attr io data os Hlim)
    as Hlim'.
  split; [done|]. intros origin.
  apply history_block_ok_of_bounds; [|done|].
  - apply (blob_backend_command_handler_preserves index_in_bounds); [| |done].
    + intros b hist io0 data0 o. apply index_in_bounds_append.
    + intros b o o' Hb Hext. by apply (index_in_bounds_mark b o o' (historyfd b)).
  - assert (Hmax : os_max_io
      (snd (blob_backend_command_handler r cmd attr io data os)) = os_max_io os).
    { apply (blob_backend_command_handler_preserves
               (fun _ o => os_max_io o = os_max_io os)); [| |done].
      + intros b hist io0 data0 o Ho.
        destruct (blob_write_raw_extends b hist io0 data0 o) as (Hm & _).
        congruence.
      + intros b o o' Ho (Hm & _). congruence. }
    by rewrite Hmax.
Qed.

Lemma handler_keeps_history_blocks_sound_witness :
  (forall origin,
     history_block_ok (H := sample_externals) (sample_backend 64 0)
       (sample_os 4096) origin) /\
  files_within_limit
    (snd (blob_backend_command_handler (H := sample_externals)
            (sample_backend 64 0) sample_cmd sample_write_attr sample_io10
            sample_payload (sample_os 4096))) /\
  forall origin,
    history_block_ok (H := sample_externals)
      (snd (fst (blob_backend_command_handler (H := sample_externals)
                   (sample_backend 64 0) sample_cmd sample_write_attr sample_io10
                   sample_payload (sample_os 4096))))
      (snd (blob_backend_command_handler (H := sample_externals)
              (sample_backend 64 0) sample_cmd sample_write_attr sample_io10
              sample_payload (sample_os 4096))) origin.
Proof.
  assert (H1 : index_in_bounds (H := sample_externals) (sample_backend 64 0)
                 (sample_os 4096)).
  { split; [|split].
    - split; [by_evaluation|]. exists []. by_evaluation.
    - split; [by_evaluation|]. exists []. by_evaluation.
    - intros key ctl Hk. simpl in Hk. rewrite lookup_empty in Hk. discriminate Hk. }
  assert (H2 : files_within_limit (sample_os 4096)).
  { intros fd f Hf. unfold sample_os in Hf. simpl in Hf.
    destruct (decide (fd = 3)) as [->|H3].
    - rewrite lookup_insert_eq in Hf. inversion Hf; subst f. by_evaluation.
    - rewrite lookup_insert_ne in Hf by done.
      destruct (decide (fd = 4)) as [->|H4].
      + rewrite lookup_insert_eq in Hf. inversion Hf; subst f. by_evaluation.
      + rewrite lookup_insert_ne, lookup_empty in Hf by done. discriminate Hf. }
  assert (H3 : sizeof_blob_disk_control (H := sample_externals) <=
               os_max_io (sample_os 4096)) by by_evaluation.
  exact (handler_keeps_history_blocks_sound (E := sample_externals)
           (sample_backend 64 0) sample_cmd sample_write_attr sample_io10
           sample_payload (sample_os 4096) H1 H2 H3).
Defined.

(** ** A short write of the header *)

(** X14: a short [pwrite] of the marked header is answered with 0.  On
    a system that moves fewer bytes per call than a header has, with
    [errno] 0, a history update of a key whose block is in the index and
    inside the file writes the first bytes of the marked header, takes
    the short count of line 220 for a failure and returns [-errno], which
    is 0: the caller sees success, and the index, the tails and the
    history log past that header are as they were, with no record
    appended. *)
Theorem short_header_write_is_answered_with_zero `{E : Externals}
    b io m data os ctl f :
  hash b !! blob_key (io_origin io) 1 = Some ctl ->
  os_files os !! historyfd b = Some f ->
  0 <= rc_offset ctl -> sizeof_blob_disk_control <= rc_size ctl ->
  rc_offset ctl + rc_size ctl <= Z.of_nat (length f) ->
  Z.of_nat (length f) <= file_limit os ->
  sizeof_blob_disk_control < 2 ^ 31 ->
  0 < os_max_io os < sizeof_blob_disk_control ->
  malloc_ok (to_size_t (rc_size ctl)) os = true ->
  os_errno os = 0 ->
  exists f',
    blob_write_history_meta b io m data os = (0, b, set_file (historyfd b) f' os) /\
    length f' = length f /\
    forall i, (Z.to_nat (rc_offset ctl + os_max_io os) <= i)%nat -> f' !! i = f !! i.
Proof.
  intros Hctl Hf Hoff Hsize Hlen Hlim Hsmall Hio Hmalloc Herrno.
  pose proof sizeof_blob_disk_control_range as Hso.
  assert (Hlimit : file_limit os <= 2 ^ 63 - 1) by (unfold file_limit, OFF_MAX; lia).
  unfold blob_write_history_meta, dnet_hash_lookup.
  rewrite Hctl, Z.eqb_refl, Hmalloc. cbn [negb]. cbv iota.
  unfold blob_write_history_meta_old.
  rewrite (to_size_t_id (rc_size ctl)) by int_lia.
  rewrite (to_off_t_id (rc_offset ctl)) by int_lia.
  rewrite (pread_full _ _ _ _ f) by (done || lia).
  rewrite Z.eqb_refl. cbn [negb]. cbv iota.
  set (off := Z.to_nat (rc_offset ctl)).
  set (hdata := read_at f off (Z.to_nat (rc_size ctl))).
  set (dc := blob_disk_control_of_bytes hdata).
  set (buf := blob_disk_control_bytes _ ++ drop _ hdata).
  assert (Hbuf : sizeof_blob_disk_control <= Z.of_nat (length buf)).
  { unfold buf. rewrite length_app.
    match goal with |- context [blob_disk_control_bytes ?x] =>
      pose proof (length_blob_disk_control_bytes x) end. lia. }
  assert (Hw : pwrite (historyfd b) buf sizeof_blob_disk_control (rc_offset ctl) os =
               (os_max_io os,
                set_file (historyfd b)
                  (write_at f off (take (Z.to_nat (os_max_io os)) buf)) os)).
  { unfold pwrite. rewrite Hf.
    rewrite (proj2 (Z.ltb_ge _ 0)) by lia.
    rewrite (proj2 (Z.eqb_neq sizeof_blob_disk_control 0)) by lia.
    unfold file_limit in Hlim.
    replace (Z.min (Z.min sizeof_blob_disk_control (Z.of_nat (length buf)))
               (Z.min (os_max_io os)
                  (Z.min (os_max_file os) OFF_MAX - rc_offset ctl)))
      with (os_max_io os) by lia.
    by rewrite (proj2 (Z.leb_gt _ _)) by lia. }
  rewrite Hw.
  rewrite (to_int_id (os_max_io os)), (to_int_id sizeof_blob_disk_control) by lia.
  rewrite (proj2 (Z.eqb_neq (os_max_io os) sizeof_blob_disk_control)) by lia.
  cbn [negb]. cbv iota.
  change (os_errno (set_file _ _ os)) with (os_errno os). rewrite Herrno.
  eexists. split; [reflexivity|].
  assert (Htake : length (take (Z.to_nat (os_max_io os)) buf) =
                  Z.to_nat (os_max_io os)) by (rewrite length_take; lia).
  split.
  - rewrite length_write_at, Htake. unfold off. lia.
  - intros i Hi. unfold write_at.
    rewrite lookup_app_r by (rewrite length_resize; unfold off; lia).
    rewrite lookup_app_r by (rewrite length_resize, Htake; unfold off; lia).
    rewrite lookup_drop, length_resize, Htake. f_equal. unfold off. lia.
Qed.

Lemma short_header_write_is_answered_with_zero_witness :
  exists f',
    blob_write_history_meta (H := sample_externals) (snd (fst sample_slow_first))
      sample_hio None sample_entry (snd sample_slow_first) =
      (0, snd (fst sample_slow_first),
       set_file (historyfd (snd (fst sample_slow_first))) f'
         (snd sample_slow_first)) /\
    length f' = length (default [] (os_files (snd sample_slow_first) !! 4)) /\
    forall i,
      (Z.to_nat (rc_offset sample_history_ctl + os_max_io (snd sample_slow_first))
       <= i)%nat ->
      f' !! i = default [] (os_files (snd sample_slow_first) !! 4) !! i.
Proof.
  assert (H1 : hash (snd (fst sample_slow_first))
                 !! blob_key (H := sample_externals) (io_origin sample_hio) 1 =
               Some sample_history_ctl) by by_evaluation.
  assert (H2 : os_files (snd sample_slow_first)
                 !! historyfd (snd (fst sample_slow_first)) =
               Some (default [] (os_files (snd sample_slow_first) !! 4)))
    by by_evaluation.
  assert (H3 : 0 <= rc_offset sample_history_ctl) by by_evaluation.
  assert (H4 : sizeof_blob_disk_control (H := sample_externals) <=
               rc_size sample_history_ctl) by by_evaluation.
  assert (H5 : rc_offset sample_history_ctl + rc_size sample_history_ctl <=
               Z.of_nat (length (default [] (os_files (snd sample_slow_first) !! 4))))
    by by_evaluation.
  assert (H6 : Z.of_nat (length (default [] (os_files (snd sample_slow_first) !! 4)))
               <= file_limit (snd sample_slow_first)) by by_evaluation.
  assert (H7 : sizeof_blob_disk_control (H := sample_externals) < 2 ^ 31)
    by by_evaluation.
  assert (H8 : 0 < os_max_io (snd sample_slow_first) <
               sizeof_blob_disk_control (H := sample_externals)) by by_evaluation.
  assert (H9 : malloc_ok (to_size_t (rc_size sample_history_ctl))
                 (snd sample_slow_first) = true) by by_evaluation.
  assert (H10 : os_errno (snd sample_slow_first) = 0) by by_evaluation.
  exact (short_header_write_is_answered_with_zero (E := sample_externals)
           (snd (fst sample_slow_first)) sample_hio None sample_entry
           (snd sample_slow_first) sample_history_ctl _
           H1 H2 H3 H4 H5 H6 H7 H8 H9 H10).
Defined.

(** ** Appending at the end of the file *)

Lemma file_extends_take f f' :
  file_extends (length f) f f' -> take (length f) f' = f.
Proof.
  intros [Hl H]. apply list_eq. intros i.
  destruct (decide (i < length f)%nat) as [Hi|Hi].
  - rewrite lookup_take_lt by done. by apply H.
  - rewrite lookup_take_ge by lia. symmetry. apply lookup_ge_None. lia.
Qed.

(** X5: on a log whose tail is the end of its file, an append appends.
    Whatever [blob_write_raw] returns, the old file is a prefix of the new
    one; when it returns 0, the new file is the old one followed by the
    record, and the new tail is again the end of the file. *)
Theorem append_at_the_end_of_the_file `{E : Externals} b hist io data os f :
  os_files os !! log_fd b hist = Some f ->
  log_tail b hist = Z.of_nat (length f) -> log_tail b hist < 2 ^ 63 ->
  exists f',
    os_files (snd (blob_write_raw b hist io data os)) !! log_fd b hist = Some f' /\
    take (length f) f' = f /\
    (fst (fst (blob_write_raw b hist io data os)) = 0 ->
     exists pad : nat,
       f' = f ++ blob_record io data pad /\
       log_tail (snd (fst (blob_write_raw b hist io data os))) hist =
         Z.of_nat (length f')).
Proof.
  intros Hf Htail Hlt.
  assert (Ht : to_size_t (log_tail b hist) = log_tail b hist) by int_lia.
  pose proof (blob_write_raw_extends b hist io data os) as (_ & _ & _ & _ & Hfd).
  unfold fd_extends in Hfd. rewrite Hf, Ht, Htail, Nat2Z.id in Hfd.
  destruct Hfd as (f' & Hf' & Hext).
  exists f'. split; [done|]. split; [by apply file_extends_take|].
  intros Hok.
  destruct (blob_write_raw b hist io data os) as [[err b'] os'] eqn:Hrun.
  simpl in Hok, Hf' |- *. subst err.
  destruct (blob_write_raw_ok _ _ _ _ _ _ _ Hrun)
    as (f0 & pad & Hf0 & Hdata & Hlim & Hos & Hb & _).
  rewrite Hf in Hf0. inversion Hf0; subst f0; clear Hf0.
  rewrite Ht, Htail, Nat2Z.id, write_at_end in Hos.
  rewrite Hos, os_files_set_file in Hf'. inversion Hf'; subst f'.
  exists pad. split; [done|].
  rewrite Hb, log_tail_set_log_tail, Ht, Htail, length_app.
  pose proof (length_blob_record io data pad Hdata). lia.
Qed.

Lemma append_at_the_end_of_the_file_witness :
  exists f',
    os_files (snd (blob_write_raw (H := sample_externals) (snd (fst sample_append)) 0
                     (sample_io Byte.x02 0 0 5) hello (snd sample_append)))
      !! log_fd (snd (fst sample_append)) 0 = Some f' /\
    take (length (default [] (os_files (snd sample_append) !! 3))) f' =
      default [] (os_files (snd sample_append) !! 3) /\
    (fst (fst (blob_write_raw (H := sample_externals) (snd (fst sample_append)) 0
                 (sample_io Byte.x02 0 0 5) hello (snd sample_append))) = 0 ->
     exists pad : nat,
       f' = default [] (os_files (snd sample_append) !! 3)
            ++ blob_record (H := sample_externals) (sample_io Byte.x02 0 0 5)
                 hello pad /\
       log_tail (snd (fst (blob_write_raw (H := sample_externals)
                             (snd (fst sample_append)) 0
                             (sample_io Byte.x02 0 0 5) hello (snd sample_append))))
         0 = Z.of_nat (length f')).
Proof.
  assert (H1 : os_files (snd sample_append) !! log_fd (snd (fst sample_append)) 0 =
               Some (default [] (os_files (snd sample_append) !! 3)))
    by by_evaluation.
  assert (H2 : log_tail (snd (fst sample_append)) 0 =
               Z.of_nat (length (default [] (os_files (snd sample_append) !! 3))))
    by by_evaluation.
  assert (H3 : log_tail (snd (fst sample_append)) 0 < 2 ^ 63) by by_evaluation.
  exact (append_at_the_end_of_the_file (E := sample_externals)
           (snd (fst sample_append)) 0 (sample_io Byte.x02 0 0 5) hello
           (snd sample_append) _ H1 H2 H3).
Defined.

(** ** The cache as a map *)

(** X27: the cache keeps one value per identifier.  Of two WRITEs of one
    identifier the second replaces the first, as if the first had not
    been sent; and after a DEL of an identifier a READ of it is answered
    [-ENOENT], whatever was written before. *)
Theorem cache_last_write_wins_and_del_forgets `{E : Externals}
    send c cmd_id io1 data1 io2 data2 rio rdata :
  cache.key_t (io_id io2) = cache.key_t (io_id io1) ->
  cache.key_t cmd_id = cache.key_t (io_id io1) ->
  cache.key_t (io_id rio) = cache.key_t (io_id io1) ->
  let n0 := {| n_cache := Some c |} in
  let n1 := snd (dnet_cmd_cache_io send n0 DNET_CMD_WRITE cmd_id io1 data1) in
  let n2 := snd (dnet_cmd_cache_io send n1 DNET_CMD_WRITE cmd_id io2 data2) in
  let n3 := snd (dnet_cmd_cache_io send n2 DNET_CMD_DEL cmd_id rio rdata) in
  n2 = snd (dnet_cmd_cache_io send n0 DNET_CMD_WRITE cmd_id io2 data2) /\
  dnet_cmd_cache_io send n3 DNET_CMD_READ cmd_id rio rdata = (- ENOENT, n3).
Proof.
  intros H2 Hd Hr n0 n1 n2 n3.
  unfold n3, n2, n1, n0, dnet_cmd_cache_io, cache.write, cache.read, cache.remove.
  simpl. rewrite H2, Hd, Hr, insert_insert_eq, lookup_delete_eq. done.
Qed.

Lemma cache_last_write_wins_and_del_forgets_witness :
  let n0 := {| n_cache := Some sample_cache |} in
  let n1 :=
    snd (dnet_cmd_cache_io (H := sample_externals) (fun _ _ => 0) n0 DNET_CMD_WRITE
           (sample_id Byte.x01) (sample_io Byte.x01 0 0 10) sample_payload) in
  let n2 :=
    snd (dnet_cmd_cache_io (H := sample_externals) (fun _ _ => 0) n1 DNET_CMD_WRITE
           (sample_id Byte.x01) (sample_io Byte.x01 0 0 10) sample_payload') in
  let n3 :=
    snd (dnet_cmd_cache_io (H := sample_externals) (fun _ _ => 0) n2 DNET_CMD_DEL
           (sample_id Byte.x01) (sample_io Byte.x01 0 0 5) []) in
  n2 = snd (dnet_cmd_cache_io (H := sample_externals) (fun _ _ => 0) n0
              DNET_CMD_WRITE (sample_id Byte.x01) (sample_io Byte.x01 0 0 10)
              sample_payload') /\
  dnet_cmd_cache_io (H := sample_externals) (fun _ _ => 0) n3 DNET_CMD_READ
    (sample_id Byte.x01) (sample_io Byte.x01 0 0 5) [] = (- ENOENT, n3).
Proof.
  assert (H1 : cache.key_t (H := sample_externals) (io_id (sample_io Byte.x01 0 0 10)) =
               cache.key_t (H := sample_externals) (io_id (sample_io Byte.x01 0 0 10)))
    by reflexivity.
  assert (H2 : cache.key_t (H := sample_externals) (sample_id Byte.x01) =
               cache.key_t (H := sample_externals) (io_id (sample_io Byte.x01 0 0 10)))
    by reflexivity.
  assert (H3 : cache.key_t (H := sample_externals) (io_id (sample_io Byte.x01 0 0 5)) =
               cache.key_t (H := sample_externals) (io_id (sample_io Byte.x01 0 0 10)))
    by reflexivity.
  exact (cache_last_write_wins_and_del_forgets (E := sample_externals)
           (fun _ _ => 0) sample_cache (sample_id Byte.x01)
           (sample_io Byte.x01 0 0 10) sample_payload (sample_io Byte.x01 0 0 10)
           sample_payload' (sample_io Byte.x01 0 0 5) [] H1 H2 H3).
Defined.
